(** * The query-resolution workflow of the data assistant

    A shallow embedding of [app/utils.py], [app/nodes.py], [app/factory.py]
    and of the session part of [app.py], together with the properties the
    specification states about them.

    A Python string is modelled as the Rocq string of the bytes of its
    UTF-8 encoding: searching, splitting and slicing agree on the two, the
    white space [str.strip()] removes is recognised in its encoded form, and
    [str.lower()] is computed on ASCII text and left to the interpreter's
    Unicode tables on other text.  A Python
    [dict] used as a record (the [AgentState]) is a record whose fields are
    options: [None] is an absent key.  A [dict] used as a keyed store is a
    [gmap].  The language model, the query engine, the JSON decoder, the
    prompt templates and the table renderer are collaborators outside the
    repository: they are the fields of an environment record. *)

From Stdlib Require Import ZArith List Ascii String Bool Lia.
From Stdlib Require Import DecimalString SpecFloat.
From stdpp Require Import gmap strings.
Import ListNotations.

Local Open Scope Z_scope.
Set Warnings "-register-all".

(** ** Python values and text *)

Module Py.

(** The values [json.loads] can produce and a state key can hold. *)
Inductive pyval : Type :=
| PNone
| PBool (b : bool)
| PInt (z : Z)
| PFloat (f : spec_float)
| PStr (s : string)
| PList (l : list pyval)
| PDict (d : list (string * pyval)).

(** [bool(v)] *)
Definition truthy (v : pyval) : bool :=
  match v with
  | PNone => false
  | PBool b => b
  | PInt z => negb (z =? 0)
  | PFloat (S754_zero _) => false
  | PFloat _ => true
  | PStr s => negb (String.eqb s "")
  | PList l => match l with [] => false | _ => true end
  | PDict d => match d with [] => false | _ => true end
  end.

(** [v == "literal"] *)
Definition str_eq (v : pyval) (lit : string) : bool :=
  match v with
  | PStr s => String.eqb s lit
  | _ => false
  end.

(** An outcome of a call that may raise; the exception carries [str(e)]. *)
Inductive result (A : Type) : Type :=
| Ok (a : A)
| Raise (msg : string).
Arguments Ok {A} a.
Arguments Raise {A} msg.

(** [str(KeyError(k))] is the [repr] of the key. *)
Definition key_error {A} (k : string) : result A :=
  Raise ("'" +:+ k +:+ "'").

(** [d[k]] and [d.get(k, default)] on a decoded object. *)
Fixpoint assoc (k : string) (d : list (string * pyval)) : option pyval :=
  match d with
  | [] => None
  | (k', v) :: d' => if String.eqb k' k then Some v else assoc k d'
  end.

(** [str(n)] for an [int]. *)
Definition str_of_Z (z : Z) : string :=
  NilZero.string_of_int (Z.to_int z).

Definition str_of_nat (n : nat) : string :=
  NilZero.string_of_uint (Nat.to_uint n).

(** [s.startswith(p)] *)
Fixpoint starts_with (p s : string) : bool :=
  match p, s with
  | EmptyString, _ => true
  | String a p', String b s' => Ascii.eqb a b && starts_with p' s'
  | String _ _, EmptyString => false
  end.

(** [s.endswith(p)] *)
Fixpoint ends_with (p s : string) : bool :=
  String.eqb p s
  || match s with
     | String _ s' => ends_with p s'
     | EmptyString => false
     end.

(** [s.find(p)]: the index of the leftmost occurrence. *)
Fixpoint find (p s : string) : option nat :=
  if starts_with p s then Some O
  else match s with
       | EmptyString => None
       | String _ s' => option_map S (find p s')
       end.

(** [s.rfind(p)]: the index of the rightmost occurrence. *)
Fixpoint rfind (p s : string) : option nat :=
  match s with
  | EmptyString => if starts_with p s then Some O else None
  | String _ s' =>
      match rfind p s' with
      | Some i => Some (S i)
      | None => if starts_with p s then Some O else None
      end
  end.

(** [p in s] *)
Definition contains (p s : string) : bool :=
  match find p s with Some _ => true | None => false end.

(** [s[n:]] *)
Fixpoint str_drop (n : nat) (s : string) : string :=
  match n, s with
  | O, _ => s
  | S n', String _ s' => str_drop n' s'
  | S _, EmptyString => EmptyString
  end.

(** [s[:n]] *)
Fixpoint str_take (n : nat) (s : string) : string :=
  match n, s with
  | S n', String c s' => String c (str_take n' s')
  | _, _ => EmptyString
  end.

(** [s[i:j]] for non-negative [i], [j]; empty when [j <= i]. *)
Definition slice (i j : nat) (s : string) : string :=
  str_take (j - i) (str_drop i s).

(** The text with the given bytes. *)
Definition bytes (l : list nat) : string :=
  fold_right (fun n s => String (ascii_of_nat n) s) EmptyString l.

(** The white space [str.strip()] removes: the code points 9-13, 28-32,
    U+0085, U+00A0, U+1680, U+2000 to U+200A, U+2028, U+2029, U+202F, U+205F
    and U+3000, each as the bytes of its UTF-8 encoding. *)
Definition whitespace : list string :=
  map bytes
    [[9]; [10]; [11]; [12]; [13]; [28]; [29]; [30]; [31]; [32];
     [194; 133]; [194; 160]; [225; 154; 128];
     [226; 128; 128]; [226; 128; 129]; [226; 128; 130]; [226; 128; 131];
     [226; 128; 132]; [226; 128; 133]; [226; 128; 134]; [226; 128; 135];
     [226; 128; 136]; [226; 128; 137]; [226; 128; 138];
     [226; 128; 168]; [226; 128; 169]; [226; 128; 175];
     [226; 129; 159]; [227; 128; 128]]%nat.

(** The text without its first code point when that is white space, and
    without its last one when that is. *)
Definition drop_space (s : string) : option string :=
  match List.find (fun ws => starts_with ws s) whitespace with
  | Some ws => Some (str_drop (String.length ws) s)
  | None => None
  end.

Definition drop_space_end (s : string) : option string :=
  match List.find (fun ws => ends_with ws s) whitespace with
  | Some ws => Some (str_take (String.length s - String.length ws) s)
  | None => None
  end.

(** [s.lstrip()], [s.rstrip()] and [s.strip()]: white space is taken off one
    code point at a time, for which as many rounds as the text has bytes
    are enough. *)
Fixpoint strip_loop (drop : string -> option string) (rounds : nat) (s : string)
  : string :=
  match rounds with
  | O => s
  | S rounds' =>
      match drop s with
      | Some t => strip_loop drop rounds' t
      | None => s
      end
  end.

Definition lstrip (s : string) : string :=
  strip_loop drop_space (String.length s) s.

Definition rstrip (s : string) : string :=
  strip_loop drop_space_end (String.length s) s.

Definition strip (s : string) : string := rstrip (lstrip s).

(** [s.split(sep)[0]] *)
Definition split_head (sep s : string) : string :=
  match find sep s with
  | Some i => str_take i s
  | None => s
  end.

(** [s.split(sep)[1]], defined when [sep in s]. *)
Definition split_second (sep s : string) : option string :=
  match find sep s with
  | Some i => Some (split_head sep (str_drop (i + String.length sep) s))
  | None => None
  end.

(** [s.isascii()] *)
Fixpoint is_ascii (s : string) : bool :=
  match s with
  | EmptyString => true
  | String c s' => (nat_of_ascii c <? 128)%nat && is_ascii s'
  end.

(** [s.lower()] on ASCII text: A-Z become a-z. *)
Definition lower_ascii (c : ascii) : ascii :=
  let n := nat_of_ascii c in
  if ((65 <=? n)%nat && (n <=? 90)%nat) then ascii_of_nat (n + 32) else c.

Fixpoint ascii_lower (s : string) : string :=
  match s with
  | EmptyString => EmptyString
  | String c s' => String (lower_ascii c) (ascii_lower s')
  end.

(** [sep.join(parts)] *)
Fixpoint join (sep : string) (parts : list string) : string :=
  match parts with
  | [] => ""
  | [p] => p
  | p :: rest => p +:+ sep +:+ join sep rest
  end.

End Py.
Import Py.

Definition LF : string := String (ascii_of_nat 10) "".

(** ** The collaborators and the run-time store *)

(** What [bq_client.execute_query] returns: a pandas frame, seen through the
    three observations [execute_sql] makes of it. *)
Record DataFrame : Type := {
  df_columns : list string;
  df_rows : list (list string)
}.

(** [len(df)] *)
Definition df_len (df : DataFrame) : nat := length (df_rows df).

(** [df.empty]: one of the two axes has length zero. *)
Definition df_empty (df : DataFrame) : bool :=
  match df_columns df, df_rows df with
  | _ :: _, _ :: _ => false
  | _, _ => true
  end.

(** [df.head(n)] *)
Definition df_head (n : nat) (df : DataFrame) : DataFrame :=
  {| df_columns := df_columns df; df_rows := firstn n (df_rows df) |}.

(** [json.loads]: a value, a [JSONDecodeError], or another exception. *)
Inductive json_outcome : Type :=
| JsonOk (v : pyval)
| JsonDecodeError (msg : string)
| JsonError (msg : string).

(** The environment of a process.  The two adapters are oracles indexed by
    the number of calls made before, so that any sequence of answers, also
    one that depends on the past, is some environment.  [lower_unicode] is
    [str.lower()] of the interpreter on text that is not ASCII. *)
Record Env : Type := {
  llm_invoke : nat -> string -> result string;
  execute_query : nat -> pyval -> result (option DataFrame);
  json_loads : string -> json_outcome;
  lower_unicode : string -> string;
  to_markdown : DataFrame -> string;
  get_classify_prompt : string -> string -> result string;
  get_general_response_prompt : string -> string -> result string;
  get_sql_gen_prompt : pyval -> string -> result string;
  get_error_analysis_prompt : string -> pyval -> result string;
  SCHEMAS : string;
  max_retries : Z;
  recursion_limit : nat;
  load_user_conversations : string -> list (string * string)
}.

(** The effects a turn leaves outside its state: the prompts sent to the
    model, the queries sent to the engine and the pauses taken, most recent
    first. *)
Record World : Type := {
  llm_log : list string;
  bq_log : list pyval;
  sleep_log : list Z
}.

Definition world0 : World := {| llm_log := []; bq_log := []; sleep_log := [] |}.

Record Message : Type := { user : string; bot : string }.

(** [AgentState]; a field is [None] when the key is absent from the dict. *)
Record AgentState : Type := {
  user_prompt : option string;
  intent : option pyval;
  rephrased_prompt : option pyval;
  relevant_schemas : option string;
  sql_query : option pyval;
  results : option string;
  final_response : option string;
  error_msg : option string;
  analysis : option pyval;
  analysis_action : option string;
  retry_count : option Z;
  messages : option (list Message)
}.

(** [state[key] = v], one setter per key the nodes assign. *)
Definition set_intent (v : pyval) (s : AgentState) : AgentState :=
  {| user_prompt := user_prompt s; intent := Some v;
     rephrased_prompt := rephrased_prompt s; relevant_schemas := relevant_schemas s;
     sql_query := sql_query s; results := results s;
     final_response := final_response s; error_msg := error_msg s;
     analysis := analysis s; analysis_action := analysis_action s;
     retry_count := retry_count s; messages := messages s |}.
Definition set_rephrased_prompt (v : pyval) (s : AgentState) : AgentState :=
  {| user_prompt := user_prompt s; intent := intent s;
     rephrased_prompt := Some v; relevant_schemas := relevant_schemas s;
     sql_query := sql_query s; results := results s;
     final_response := final_response s; error_msg := error_msg s;
     analysis := analysis s; analysis_action := analysis_action s;
     retry_count := retry_count s; messages := messages s |}.
Definition set_relevant_schemas (v : string) (s : AgentState) : AgentState :=
  {| user_prompt := user_prompt s; intent := intent s;
     rephrased_prompt := rephrased_prompt s; relevant_schemas := Some v;
     sql_query := sql_query s; results := results s;
     final_response := final_response s; error_msg := error_msg s;
     analysis := analysis s; analysis_action := analysis_action s;
     retry_count := retry_count s; messages := messages s |}.
Definition set_sql_query (v : pyval) (s : AgentState) : AgentState :=
  {| user_prompt := user_prompt s; intent := intent s;
     rephrased_prompt := rephrased_prompt s; relevant_schemas := relevant_schemas s;
     sql_query := Some v; results := results s;
     final_response := final_response s; error_msg := error_msg s;
     analysis := analysis s; analysis_action := analysis_action s;
     retry_count := retry_count s; messages := messages s |}.
Definition set_results (v : string) (s : AgentState) : AgentState :=
  {| user_prompt := user_prompt s; intent := intent s;
     rephrased_prompt := rephrased_prompt s; relevant_schemas := relevant_schemas s;
     sql_query := sql_query s; results := Some v;
     final_response := final_response s; error_msg := error_msg s;
     analysis := analysis s; analysis_action := analysis_action s;
     retry_count := retry_count s; messages := messages s |}.
Definition set_final_response (v : string) (s : AgentState) : AgentState :=
  {| user_prompt := user_prompt s; intent := intent s;
     rephrased_prompt := rephrased_prompt s; relevant_schemas := relevant_schemas s;
     sql_query := sql_query s; results := results s;
     final_response := Some v; error_msg := error_msg s;
     analysis := analysis s; analysis_action := analysis_action s;
     retry_count := retry_count s; messages := messages s |}.
Definition set_error_msg (v : string) (s : AgentState) : AgentState :=
  {| user_prompt := user_prompt s; intent := intent s;
     rephrased_prompt := rephrased_prompt s; relevant_schemas := relevant_schemas s;
     sql_query := sql_query s; results := results s;
     final_response := final_response s; error_msg := Some v;
     analysis := analysis s; analysis_action := analysis_action s;
     retry_count := retry_count s; messages := messages s |}.
Definition set_analysis (v : pyval) (s : AgentState) : AgentState :=
  {| user_prompt := user_prompt s; intent := intent s;
     rephrased_prompt := rephrased_prompt s; relevant_schemas := relevant_schemas s;
     sql_query := sql_query s; results := results s;
     final_response := final_response s; error_msg := error_msg s;
     analysis := Some v; analysis_action := analysis_action s;
     retry_count := retry_count s; messages := messages s |}.
Definition set_analysis_action (v : string) (s : AgentState) : AgentState :=
  {| user_prompt := user_prompt s; intent := intent s;
     rephrased_prompt := rephrased_prompt s; relevant_schemas := relevant_schemas s;
     sql_query := sql_query s; results := results s;
     final_response := final_response s; error_msg := error_msg s;
     analysis := analysis s; analysis_action := Some v;
     retry_count := retry_count s; messages := messages s |}.
Definition set_retry_count (v : Z) (s : AgentState) : AgentState :=
  {| user_prompt := user_prompt s; intent := intent s;
     rephrased_prompt := rephrased_prompt s; relevant_schemas := relevant_schemas s;
     sql_query := sql_query s; results := results s;
     final_response := final_response s; error_msg := error_msg s;
     analysis := analysis s; analysis_action := analysis_action s;
     retry_count := Some v; messages := messages s |}.
Definition set_messages (v : list Message) (s : AgentState) : AgentState :=
  {| user_prompt := user_prompt s; intent := intent s;
     rephrased_prompt := rephrased_prompt s; relevant_schemas := relevant_schemas s;
     sql_query := sql_query s; results := results s;
     final_response := final_response s; error_msg := error_msg s;
     analysis := analysis s; analysis_action := analysis_action s;
     retry_count := retry_count s; messages := Some v |}.

(** ** Node bodies as computations

    A node mutates the state dict in place and may raise.  An assignment
    made before an exception is raised stays in the dict the handler sees,
    so the store is threaded through failures as well. *)

Record Run : Type := { state : AgentState; world : World }.

Definition M (A : Type) : Type := Run -> result A * Run.

#[export] Instance M_ret : MRet M := fun A a r => (Ok a, r).

#[export] Instance M_bind : MBind M := fun A B k m r =>
  match m r with
  | (Ok a, r') => k a r'
  | (Raise e, r') => (Raise e, r')
  end.

(** [try: body / except Exception as e: handler e] *)
Definition try_except {A} (body : M A) (handler : string -> M A) : M A :=
  fun r =>
    match body r with
    | (Ok a, r') => (Ok a, r')
    | (Raise e, r') => handler e r'
    end.

(** A call of a function that may raise and touches neither state nor world. *)
Definition lift {A} (x : result A) : M A := fun r => (x, r).

(** [state.get(key)], with the default applied by the reader [f]. *)
Definition get {A} (f : AgentState -> A) : M A :=
  fun r => (Ok (f (state r)), r).

(** [state[key]] *)
Definition index {A} (key : string) (f : AgentState -> option A) : M A :=
  fun r =>
    match f (state r) with
    | Some v => (Ok v, r)
    | None => (key_error key, r)
    end.

(** [state[key] = v] *)
Definition assign (f : AgentState -> AgentState) : M unit :=
  fun r => (Ok tt, {| state := f (state r); world := world r |}).

Definition pass : M unit := mret tt.

(** [time.sleep(d)] *)
Definition sleep (d : Z) : M unit :=
  fun r =>
    let w := world r in
    (Ok tt, {| state := state r;
               world := {| llm_log := llm_log w; bq_log := bq_log w;
                           sleep_log := d :: sleep_log w |} |}).

(** [parsed.get(k, default)]; raises when [parsed] is not a dict. *)
Definition dict_get (parsed : pyval) (k : string) (dflt : pyval) : result pyval :=
  match parsed with
  | PDict d => Ok (default dflt (assoc k d))
  | _ => Raise "object has no attribute 'get'"
  end.

(** [parsed[k] if k in parsed], for a [parsed] already known to be a dict. *)
Definition dict_lookup (parsed : pyval) (k : string) : option pyval :=
  match parsed with
  | PDict d => assoc k d
  | _ => None
  end.

Section Program.

Variable E : Env.

(** [llm.invoke(prompt).content] *)
Definition invoke_llm (prompt : string) : M string :=
  fun r =>
    let w := world r in
    (llm_invoke E (length (llm_log w)) prompt,
     {| state := state r;
        world := {| llm_log := prompt :: llm_log w; bq_log := bq_log w;
                    sleep_log := sleep_log w |} |}).

(** [bq_client.execute_query(sql)] *)
Definition bq_execute (sql : pyval) : M (option DataFrame) :=
  fun r =>
    let w := world r in
    (execute_query E (length (bq_log w)) sql,
     {| state := state r;
        world := {| llm_log := llm_log w; bq_log := sql :: bq_log w;
                    sleep_log := sleep_log w |} |}).

(** *** app/utils.py *)

(** The [delay] of [exponential_backoff], for [retry_count >= 0] (below zero
    Python computes a float power; a turn never has a negative count). *)
Definition backoff_delay (retry_count : Z) : Z := Z.min (2 ^ retry_count) 16.

Definition exponential_backoff (retry_count : Z) : M unit :=
  sleep (backoff_delay retry_count).

(** The text handed to [json.loads]: from the first opening brace to the
    last closing brace of the stripped reply. *)
Definition json_str (response : string) : string :=
  let start := default 0%nat (find "{" response) in
  let end_ := S (default 0%nat (rfind "}" response)) in
  slice start end_ response.

Definition parse_json_response (response : string) : pyval :=
  let response := strip response in
  if contains "{" response && contains "}" response then
    match json_loads E (json_str response) with
    | JsonOk v => v
    | JsonDecodeError _ =>
        PDict [("error", PStr "Invalid JSON"); ("raw_response", PStr response)]
    | JsonError _ =>
        PDict [("error", PStr "Parse error"); ("raw_response", PStr response)]
    end
  else PDict [("error", PStr "No JSON found in response")].

(** *** app/nodes.py *)

(** [s.lower()] *)
Definition lower (s : string) : string :=
  if is_ascii s then ascii_lower s else lower_unicode E s.

Definition history_str (msgs : list Message) : string :=
  join LF (map (fun m => "User: " +:+ user m +:+ LF +:+ "Bot: " +:+ bot m) msgs).

Definition classify_intent : M unit :=
  try_except
    (msgs ← get (fun s => default [] (messages s));
     up ← index "user_prompt" user_prompt;
     prompt ← lift (get_classify_prompt E (history_str msgs) up);
     response ← invoke_llm prompt;
     let parsed := parse_json_response response in
     i ← lift (dict_get parsed "intent" (PStr "general"));
     assign (set_intent i);;
     up' ← index "user_prompt" user_prompt;
     rp ← lift (dict_get parsed "rephrased" (PStr up'));
     assign (set_rephrased_prompt rp))
    (fun _ =>
     assign (set_intent (PStr "general"));;
     up ← index "user_prompt" user_prompt;
     assign (set_rephrased_prompt (PStr up))).

Definition greeting_reply : string :=
  "Hello! I'm your H&M data assistant. How can I help you with incident or problem data today?".

Definition capability_reply : string :=
  "I can help you query and analyze your H&M incident and problem data. What would you like to know?".

Definition general_response : M unit :=
  try_except
    (msgs ← get (fun s => default [] (messages s));
     up ← index "user_prompt" user_prompt;
     prompt ← lift (get_general_response_prompt E (history_str msgs) up);
     content ← invoke_llm prompt;
     assign (set_final_response content))
    (fun _ =>
     up ← index "user_prompt" user_prompt;
     if existsb (fun greeting => contains greeting (lower up)) ["hi"; "hello"; "hey"]
     then assign (set_final_response greeting_reply)
     else assign (set_final_response capability_reply)).

Definition retrieve_schemas : M unit :=
  try_except
    (assign (set_relevant_schemas (SCHEMAS E)))
    (fun _ => assign (set_relevant_schemas "Schema information unavailable")).

(** The clean-up of the model's reply in [generate_sql]. *)
Definition clean_sql (response : string) : string :=
  let sql := strip response in
  if contains "```sql" sql then
    strip (split_head "```" (default "" (split_second "```sql" sql)))
  else if contains "```" sql then
    strip (default "" (split_second "```" sql))
  else sql.

Definition generate_sql : M unit :=
  try_except
    (rp ← index "rephrased_prompt" rephrased_prompt;
     schemas ← index "relevant_schemas" relevant_schemas;
     prompt ← lift (get_sql_gen_prompt E rp schemas);
     response ← invoke_llm prompt;
     assign (set_sql_query (PStr (clean_sql response))))
    (fun e => assign (set_error_msg ("Failed to generate SQL query: " +:+ e))).

Definition truncation_note (total : nat) : string :=
  "(Showing first 100 rows of " +:+ str_of_nat total +:+ " total)".

Definition no_data : M unit :=
  assign (set_results "No data found");;
  assign (set_final_response "No data found matching your query.");;
  assign (set_error_msg "").

Definition execute_sql : M unit :=
  try_except
    (q ← get sql_query;
     if negb (from_option truthy false q) then
       assign (set_error_msg "No SQL query to execute")
     else
       sql ← index "sql_query" sql_query;
       df ← bq_execute sql;
       match df with
       | Some d =>
           if negb (df_empty d) then
             (if (100 <? df_len d)%nat then
                assign (set_results
                  (to_markdown E (df_head 100 d) +:+ LF +:+ LF
                   +:+ truncation_note (df_len d)))
              else assign (set_results (to_markdown E d)));;
             up ← index "user_prompt" user_prompt;
             res ← index "results" results;
             assign (set_final_response
               ("Results for '" +:+ up +:+ "':" +:+ LF +:+ res));;
             assign (set_error_msg "")
           else no_data
       | None => no_data
       end)
    (fun e =>
     assign (set_error_msg e);;
     rc ← get (fun s => default 0 (retry_count s));
     assign (set_retry_count (rc + 1))).

Definition error_analyzer : M unit :=
  em ← get error_msg;
  if negb (from_option (fun m => negb (String.eqb m "")) false em) then
    assign (set_analysis_action "end")
  else
    try_except
      (rc ← get (fun s => default 0 (retry_count s));
       if max_retries E <=? rc then
         assign (set_analysis_action "fail");;
         msg ← index "error_msg" error_msg;
         assign (set_final_response
           ("Failed after " +:+ str_of_Z (max_retries E) +:+ " attempts: " +:+ msg))
       else
         msg ← index "error_msg" error_msg;
         sql ← index "sql_query" sql_query;
         prompt ← lift (get_error_analysis_prompt E msg sql);
         response ← invoke_llm prompt;
         let parsed := parse_json_response response in
         a ← lift (dict_get parsed "analysis" (PStr ""));
         assign (set_analysis a);;
         action ← lift (dict_get parsed "action" (PStr "fail"));
         if str_eq action "retry" then
           assign (set_analysis_action "retry");;
           match dict_lookup parsed "suggested_sql" with
           | Some suggested => assign (set_sql_query suggested)
           | None => pass
           end;;
           n ← index "retry_count" retry_count;
           exponential_backoff n
         else if str_eq action "rephrase" then
           assign (set_analysis_action "rephrase")
         else if str_eq action "ask_user" then
           assign (set_analysis_action "ask_user");;
           msg' ← index "error_msg" error_msg;
           assign (set_final_response
             ("Error: " +:+ msg' +:+ ". Could you please clarify your question?"))
         else
           assign (set_analysis_action "fail");;
           msg' ← index "error_msg" error_msg;
           assign (set_final_response
             ("Unable to process your request: " +:+ msg')))
      (fun _ =>
       assign (set_analysis_action "fail");;
       msg ← index "error_msg" error_msg;
       assign (set_final_response ("An unexpected error occurred: " +:+ msg))).

Definition update_history : M unit :=
  try_except
    (present ← get messages;
     match present with
     | None => assign (set_messages [])
     | Some _ => pass
     end;;
     msgs ← index "messages" messages;
     up ← index "user_prompt" user_prompt;
     reply ← get (fun s => default "No response generated" (final_response s));
     assign (set_messages (msgs ++ [{| user := up; bot := reply |}])))
    (fun _ => pass).

(** *** app/factory.py *)

Inductive Node : Type :=
| N_classify
| N_general
| N_retrieve
| N_generate_sql
| N_execute
| N_error_analyzer
| N_update_history.

(** [create_nodes]: the function registered under each node name. *)
Definition create_nodes (n : Node) : M unit :=
  match n with
  | N_classify => classify_intent
  | N_general => general_response
  | N_retrieve => retrieve_schemas
  | N_generate_sql => generate_sql
  | N_execute => execute_sql
  | N_error_analyzer => error_analyzer
  | N_update_history => update_history
  end.

(** The look-up of a router's label in the path map of a conditional edge;
    the graph library raises for a label the map does not have.  The label
    is a text or another single value: a list, which the library reads as
    several labels to follow at once, has no counterpart in this model of a
    run as one path. *)
Definition path_lookup (label : pyval) (path_map : list (string * Node))
  : result (option Node) :=
  match label with
  | PStr l =>
      match List.find (fun kv => String.eqb (fst kv) l) path_map with
      | Some kv => Ok (Some (snd kv))
      | None => key_error l
      end
  | _ => Raise "KeyError"
  end.

(** The edges of [build_graph_with_nodes]; [None] is [END]. *)
Definition edges (n : Node) (s : AgentState) : result (option Node) :=
  match n with
  | N_classify =>
      match intent s with
      | Some label =>
          path_lookup label
            [("greeting", N_general); ("general", N_general);
             ("data_query", N_retrieve)]
      | None => key_error "intent"
      end
  | N_general => Ok (Some N_update_history)
  | N_retrieve => Ok (Some N_generate_sql)
  | N_generate_sql => Ok (Some N_execute)
  | N_execute => Ok (Some N_error_analyzer)
  | N_error_analyzer =>
      path_lookup (PStr (default "end" (analysis_action s)))
        [("retry", N_generate_sql); ("rephrase", N_generate_sql);
         ("fail", N_update_history); ("ask_user", N_update_history);
         ("end", N_update_history)]
  | N_update_history => Ok None
  end.

(** One node execution followed by the choice of its outgoing edge. *)
Definition step (n : Node) : M (option Node) :=
  create_nodes n;;
  s ← get (fun s => s);
  lift (edges n s).

(** The dispatch loop of the compiled graph.  The graph library stops a run
    that executes more nodes than its recursion limit with an exception. *)
Fixpoint run_graph (limit : nat) (n : Node) : M unit :=
  match limit with
  | O => lift (Raise "Recursion limit reached without hitting a stop condition")
  | S limit' =>
      nxt ← step n;
      match nxt with
      | Some n' => run_graph limit' n'
      | None => pass
      end
  end.

(** [app.invoke(state)] *)
Definition invoke : M unit := run_graph (recursion_limit E) N_classify.

(** [k] node executions from node [n], without the library's limit: where the
    walk is after them, [None] once it has passed [END]. *)
Fixpoint walk (k : nat) (n : Node) : M (option Node) :=
  match k with
  | O => mret (Some n)
  | S k' =>
      nxt ← step n;
      match nxt with
      | Some n' => walk k' n'
      | None => mret None
      end
  end.

(** *** app.py *)

Record ConversationEntry : Type := {
  ce_user_query : string;
  ce_sql_query : pyval;
  ce_response : string;
  ce_timestamp : string
}.

Record FeedbackEntry : Type := {
  query : string;
  feedback : string;
  comments : string;
  timestamp : string
}.

(** The mutable attributes of a [DataAssistant]. *)
Record DataAssistant : Type := {
  use_blob_sessions : bool;
  user_conversation_histories : gmap string (list (string * string));
  conversation_data_db : list ConversationEntry;
  feedback_and_comments : gmap string (list FeedbackEntry)
}.

(** [l[-3:]] *)
Definition last3 {A} (l : list A) : list A := skipn (length l - 3) l.

Definition to_messages (l : list (string * string)) : list Message :=
  map (fun qa => {| user := fst qa; bot := snd qa |}) l.

Definition create_initial_state (self : DataAssistant) (user_prompt : string)
    (user_id : option string) : AgentState :=
  let messages :=
    match user_id with
    | Some uid =>
        if negb (String.eqb uid "") then
          let messages :=
            if use_blob_sessions self
            then to_messages (last3 (load_user_conversations E uid))
            else [] in
          match messages, user_conversation_histories self !! uid with
          | [], Some history => to_messages (last3 history)
          | _, _ => messages
          end
        else []
    | None => []
    end in
  {| user_prompt := Some user_prompt; retry_count := Some 0;
     intent := Some (PStr ""); rephrased_prompt := Some (PStr "");
     relevant_schemas := Some ""; sql_query := Some (PStr "");
     results := Some ""; final_response := Some "";
     error_msg := Some ""; analysis := Some (PStr "");
     analysis_action := Some ""; messages := Some messages |}.

(** The dict [process_query] returns. *)
Record QueryResult : Type := {
  qr_user_input : string;
  generated_sql_query : pyval;
  model_response : string;
  qr_intent : option pyval;
  success : bool;
  error : option string
}.

(** [process_query]; [now] is the clock reading stored in the entry.  Saving
    to blob storage is wrapped in its own handler and changes nothing here. *)
Definition process_query (self : DataAssistant) (w : World) (now : string)
    (user_input : string) (user_id : option string)
  : QueryResult * DataAssistant * World :=
  let state0 := create_initial_state self user_input user_id in
  match invoke {| state := state0; world := w |} with
  | (Ok _, r) =>
      let result := state r in
      let final_response :=
        default "Sorry, I couldn't process your request." (final_response result) in
      let sql_query := default (PStr "No SQL generated") (sql_query result) in
      let entry := {| ce_user_query := user_input; ce_sql_query := sql_query;
                      ce_response := final_response; ce_timestamp := now |} in
      let histories :=
        match user_id with
        | Some uid =>
            if negb (String.eqb uid "") then
              let old := default [] (user_conversation_histories self !! uid) in
              <[uid := old ++ [(user_input, final_response)]]>
                (user_conversation_histories self)
            else user_conversation_histories self
        | None => user_conversation_histories self
        end in
      ({| qr_user_input := user_input; generated_sql_query := sql_query;
          model_response := final_response;
          qr_intent := Some (default (PStr "unknown") (intent result));
          success := true; error := None |},
       {| use_blob_sessions := use_blob_sessions self;
          user_conversation_histories := histories;
          conversation_data_db := conversation_data_db self ++ [entry];
          feedback_and_comments := feedback_and_comments self |},
       world r)
  | (Raise e, r) =>
      let apology :=
        "I encountered an error while processing your request. Please try again." in
      let entry := {| ce_user_query := user_input;
                      ce_sql_query := PStr "Error occurred";
                      ce_response := apology; ce_timestamp := now |} in
      ({| qr_user_input := user_input;
          generated_sql_query := PStr "Error occurred";
          model_response := apology; qr_intent := None;
          success := false; error := Some e |},
       {| use_blob_sessions := use_blob_sessions self;
          user_conversation_histories := user_conversation_histories self;
          conversation_data_db := conversation_data_db self ++ [entry];
          feedback_and_comments := feedback_and_comments self |},
       world r)
  end.

End Program.

(** [x or default] on text. *)
Definition or_else (x dflt : string) : string :=
  if String.eqb x "" then dflt else x.

Definition with_feedback (self : DataAssistant)
    (fb : gmap string (list FeedbackEntry)) : DataAssistant :=
  {| use_blob_sessions := use_blob_sessions self;
     user_conversation_histories := user_conversation_histories self;
     conversation_data_db := conversation_data_db self;
     feedback_and_comments := fb |}.

(** The list [self.feedback_and_comments[user_id]] once the key exists. *)
Definition entries_of (self : DataAssistant) (user_id : string) : list FeedbackEntry :=
  default [] (feedback_and_comments self !! user_id).

Definition record_feedback (self : DataAssistant) (now : string)
    (user_id user_query feedback_type : string) : DataAssistant * string :=
  let feedback_entry :=
    {| query := user_query;
       feedback := or_else feedback_type "user did not provide feedback like or dislike";
       comments := "user did not provide comments";
       timestamp := now |} in
  (with_feedback self
     (<[user_id := entries_of self user_id ++ [feedback_entry]]>
        (feedback_and_comments self)),
   "Feedback recorded successfully.").

(** The [for ... break ... else] loop of [record_comment]: the first entry
    with the query gets the comment; [None] when the loop ends without one. *)
Fixpoint attach_comment (user_query comment : string) (l : list FeedbackEntry)
  : option (list FeedbackEntry) :=
  match l with
  | [] => None
  | entry :: rest =>
      if String.eqb (query entry) user_query then
        Some ({| query := query entry; feedback := feedback entry;
                 comments := or_else comment "user did not provide comments";
                 timestamp := timestamp entry |} :: rest)
      else option_map (cons entry) (attach_comment user_query comment rest)
  end.

Definition record_comment (self : DataAssistant) (now : string)
    (user_id user_query comment : string) : DataAssistant * string :=
  let l := entries_of self user_id in
  let l' :=
    match attach_comment user_query comment l with
    | Some updated => updated
    | None =>
        l ++ [{| query := user_query;
                 feedback := "user did not provide feedback like or dislike";
                 comments := or_else comment "user did not provide comments";
                 timestamp := now |}]
    end in
  (with_feedback self (<[user_id := l']> (feedback_and_comments self)),
   "Comment recorded successfully.").

(** ** A decoder and an environment to run the model on concrete replies

    [json.loads] belongs to Python's library; every general statement below
    holds for an arbitrary decoder.  [json_loads_flat] decodes the shape the
    prompts of [utils.py] ask the model for, an object whose members are
    strings without escapes, as [json.loads] does; a text outside this shape
    is reported as a [JSONDecodeError]. *)

Module FlatJson.

Inductive pstate : Type :=
| Start
| AfterOpen
| InKey (acc : list (string * pyval)) (k : string)
| AfterKey (acc : list (string * pyval)) (k : string)
| BeforeValue (acc : list (string * pyval)) (k : string)
| InValue (acc : list (string * pyval)) (k v : string)
| AfterValue (acc : list (string * pyval))
| BeforeKey (acc : list (string * pyval))
| AfterClose (acc : list (string * pyval)).

Definition is_ws (c : ascii) : bool :=
  let n := nat_of_ascii c in
  (n =? 32)%nat || (n =? 9)%nat || (n =? 10)%nat || (n =? 13)%nat.

Definition is_quote (c : ascii) : bool := (nat_of_ascii c =? 34)%nat.

Definition plain_char (c : ascii) : bool :=
  let n := nat_of_ascii c in
  (32 <=? n)%nat && negb (n =? 34)%nat && negb (n =? 92)%nat.

(** [d[k] = v] on an insertion-ordered dict. *)
Fixpoint dict_set (k : string) (v : pyval) (d : list (string * pyval))
  : list (string * pyval) :=
  match d with
  | [] => [(k, v)]
  | (k', v') :: d' =>
      if String.eqb k' k then (k', v) :: d' else (k', v') :: dict_set k v d'
  end.

Definition snoc (s : string) (c : ascii) : string := s +:+ String c "".

Fixpoint scan (st : pstate) (s : string) : json_outcome :=
  match s with
  | EmptyString =>
      match st with
      | AfterClose acc => JsonOk (PDict acc)
      | _ => JsonDecodeError "Expecting value"
      end
  | String c s' =>
      match st with
      | Start =>
          if is_ws c then scan Start s'
          else if Ascii.eqb c "{" then scan AfterOpen s'
          else JsonDecodeError "Expecting value"
      | AfterOpen =>
          if is_ws c then scan AfterOpen s'
          else if is_quote c then scan (InKey [] "") s'
          else if Ascii.eqb c "}" then scan (AfterClose []) s'
          else JsonDecodeError "Expecting property name enclosed in double quotes"
      | InKey acc k =>
          if is_quote c then scan (AfterKey acc k) s'
          else if plain_char c then scan (InKey acc (snoc k c)) s'
          else JsonDecodeError "Invalid string"
      | AfterKey acc k =>
          if is_ws c then scan (AfterKey acc k) s'
          else if Ascii.eqb c ":" then scan (BeforeValue acc k) s'
          else JsonDecodeError "Expecting ':' delimiter"
      | BeforeValue acc k =>
          if is_ws c then scan (BeforeValue acc k) s'
          else if is_quote c then scan (InValue acc k "") s'
          else JsonDecodeError "Expecting value"
      | InValue acc k v =>
          if is_quote c then scan (AfterValue (dict_set k (PStr v) acc)) s'
          else if plain_char c then scan (InValue acc k (snoc v c)) s'
          else JsonDecodeError "Invalid string"
      | AfterValue acc =>
          if is_ws c then scan (AfterValue acc) s'
          else if Ascii.eqb c "," then scan (BeforeKey acc) s'
          else if Ascii.eqb c "}" then scan (AfterClose acc) s'
          else JsonDecodeError "Expecting ',' delimiter"
      | BeforeKey acc =>
          if is_ws c then scan (BeforeKey acc) s'
          else if is_quote c then scan (InKey acc "") s'
          else JsonDecodeError "Expecting property name enclosed in double quotes"
      | AfterClose acc =>
          if is_ws c then scan (AfterClose acc) s'
          else JsonDecodeError "Extra data"
      end
  end.

Definition json_loads_flat (s : string) : json_outcome := scan Start s.

End FlatJson.
Import FlatJson.

(** A double quote, and a JSON string literal without escapes. *)
Definition DQ : string := String (ascii_of_nat 34) EmptyString.
Definition quoted (s : string) : string := DQ +:+ s +:+ DQ.

(** ** What the specification says of the response parser

    The two facts about [json.loads] the parser relies on: a text that
    begins with an opening brace decodes to a dict or not at all, and the
    empty text does not decode. *)
Record json_facts (loads : string -> json_outcome) : Prop := {
  loads_object :
    forall rest v, loads (String "{"%char rest) = JsonOk v -> exists d, v = PDict d;
  loads_empty : forall v, loads "" <> JsonOk v
}.

(** The specification's wording, "the first top-level brace-delimited object
    in the reply": from the first opening brace to the closing brace that
    balances it. *)
Fixpoint balanced_prefix (depth : nat) (s : string) : option string :=
  match s with
  | EmptyString => None
  | String c s' =>
      if Ascii.eqb c "{" then option_map (String c) (balanced_prefix (S depth) s')
      else if Ascii.eqb c "}" then
        match depth with
        | O => None
        | S O => Some (String c EmptyString)
        | S d => option_map (String c) (balanced_prefix d s')
        end
      else option_map (String c) (balanced_prefix depth s')
  end.

Definition spec_first_object (reply : string) : option string :=
  match find "{" reply with
  | Some i => balanced_prefix 0 (str_drop i reply)
  | None => None
  end.

(** The specification's sentence about the parser: a reply that contains a
    brace-delimited object is answered with the decoding of the first one. *)
Definition spec_decodes_first_object (E : Env) : Prop :=
  forall reply obj v,
    spec_first_object (strip reply) = Some obj ->
    json_loads E obj = JsonOk v ->
    parse_json_response E reply = v.

(** The specification's sentence about feedback: recording feedback for a
    query text that already has an entry adds no entry with that text. *)
Definition spec_feedback_not_duplicated : Prop :=
  forall self now user_id user_query feedback_type,
    Exists (fun e => query e = user_query) (entries_of self user_id) ->
    length (List.filter (fun e => String.eqb (query e) user_query)
              (entries_of (fst (record_feedback self now user_id user_query
                                  feedback_type)) user_id))
    = length (List.filter (fun e => String.eqb (query e) user_query)
                (entries_of self user_id)).


(** An environment with the slots of the fallback templates of [utils.py], a
    plain table renderer, the flat decoder, and the default limits; the two
    adapters are left to each scenario. *)
Module Demo.

Definition text (v : pyval) : string :=
  match v with
  | PStr s => s
  | PInt z => str_of_Z z
  | PBool true => "True"
  | PBool false => "False"
  | _ => "None"
  end.

Definition plain_table (df : DataFrame) : string :=
  join LF (join " | " (df_columns df) :: map (join " | ") (df_rows df)).

Definition env (llm : nat -> string -> result string)
    (bq : nat -> pyval -> result (option DataFrame)) : Env :=
  {| llm_invoke := llm;
     execute_query := bq;
     json_loads := json_loads_flat;
     lower_unicode := ascii_lower;
     to_markdown := plain_table;
     get_classify_prompt := fun history prompt =>
       Ok ("History: " +:+ history +:+ LF +:+ "Current input: " +:+ prompt);
     get_general_response_prompt := fun history prompt =>
       Ok ("History: " +:+ history +:+ LF +:+ "Respond naturally to: " +:+ prompt);
     get_sql_gen_prompt := fun rephrased schemas =>
       Ok ("Query: " +:+ text rephrased +:+ LF +:+ "Schemas: " +:+ schemas);
     get_error_analysis_prompt := fun error_msg sql_query =>
       Ok ("Error: " +:+ error_msg +:+ LF +:+ "Query: " +:+ text sql_query);
     SCHEMAS := "=== INCIDENTS ===";
     max_retries := 3;
     recursion_limit := 25;
     load_user_conversations := fun _ => [] |}.

(** A fresh assistant without blob sessions. *)
Definition assistant0 : DataAssistant :=
  {| use_blob_sessions := false;
     user_conversation_histories := ∅;
     conversation_data_db := [];
     feedback_and_comments := ∅ |}.

(** An engine that is never reached. *)
Definition no_engine : nat -> pyval -> result (option DataFrame) :=
  fun _ _ => Raise "Unexpected error: no engine".

(** A model whose completions are empty. *)
Definition silent_model : nat -> string -> result string :=
  fun _ _ => Ok "".

(** A model that classifies every input as a data query, returns an empty
    completion when asked for SQL, and recommends a retry for every error. *)
Definition classify_reply : string :=
  "{" +:+ quoted "intent" +:+ ": " +:+ quoted "data_query" +:+ "}".

Definition retry_reply : string :=
  "{" +:+ quoted "action" +:+ ": " +:+ quoted "retry" +:+ "}".

Definition stubborn_model : nat -> string -> result string :=
  fun _ prompt =>
    if starts_with "Error: " prompt then Ok retry_reply
    else if starts_with "Query: " prompt then Ok ""
    else Ok classify_reply.

(** A query result of [n] one-cell rows. *)
Definition frame (n : nat) : DataFrame :=
  {| df_columns := ["number"]; df_rows := repeat ["INC0001"] n |}.

Definition engine (n : nat) : nat -> pyval -> result (option DataFrame) :=
  fun _ _ => Ok (Some (frame n)).

(** The state of a turn whose query the engine has rejected [n] times. *)
Definition failed_state (n : Z) : AgentState :=
  {| user_prompt := Some "Show me incidents";
     intent := Some (PStr "data_query");
     rephrased_prompt := Some (PStr "Show me incidents");
     relevant_schemas := Some "=== INCIDENTS ===";
     sql_query := Some (PStr "SELEC number FROM incidents");
     results := Some "";
     final_response := Some "";
     error_msg := Some "Invalid SQL: syntax error";
     analysis := Some (PStr "");
     analysis_action := Some "";
     retry_count := Some n;
     messages := Some [] |}.

(** A model that recommends a retry with a replacement query, and answers a
    request for SQL with a fenced query. *)
Definition suggest_reply : string :=
  "{" +:+ quoted "action" +:+ ": " +:+ quoted "retry" +:+ ", "
  +:+ quoted "suggested_sql" +:+ ": " +:+ quoted "SELECT 1" +:+ "}".

Definition fenced_sql : string :=
  "```sql" +:+ LF +:+ "SELECT number FROM incidents" +:+ LF +:+ "```".

Definition suggesting_model : nat -> string -> result string :=
  fun _ prompt =>
    if starts_with "Error: " prompt then Ok suggest_reply
    else if starts_with "Query: " prompt then Ok fenced_sql
    else Ok classify_reply.

(** The state in which the turn of the stubborn model goes round the cycle. *)
Definition loop_state (err action : string) : AgentState :=
  {| user_prompt := Some "Show me incidents";
     intent := Some (PStr "data_query");
     rephrased_prompt := Some (PStr "Show me incidents");
     relevant_schemas := Some "=== INCIDENTS ===";
     sql_query := Some (PStr "");
     results := Some "";
     final_response := Some "";
     error_msg := Some err;
     analysis := Some (PStr "");
     analysis_action := Some action;
     retry_count := Some 0;
     messages := Some [] |}.

(** A model that answers the classification with a label of its own. *)
Definition offtopic_model : nat -> string -> result string :=
  fun _ _ => Ok ("{" +:+ quoted "intent" +:+ ": " +:+ quoted "chitchat" +:+ "}").

(** The environments of the scenarios.  Their texts are ASCII, so that
    [lower_unicode], for which [env] has a stand-in that lowers A-Z only, is
    not consulted. *)
Definition stubborn_env : Env := env stubborn_model no_engine.
Definition silent_env : Env := env silent_model no_engine.
Definition suggesting_env (rows : nat) : Env := env suggesting_model (engine rows).

(** The reply of a chatty model around its object. *)
Definition chatty_reply : string :=
  "  Sure! " +:+ suggest_reply +:+ " Hope this helps." +:+ LF.

(** A reply with two objects. *)
Definition two_objects : string :=
  "{" +:+ quoted "a" +:+ ": " +:+ quoted "b" +:+ "} {"
  +:+ quoted "c" +:+ ": " +:+ quoted "d" +:+ "}".

(** A feedback entry as [record_feedback] writes it. *)
Definition liked (q now : string) : FeedbackEntry :=
  {| query := q; feedback := "like";
     comments := "user did not provide comments"; timestamp := now |}.

(** A store in which user u1 has given feedback on two queries. *)
Definition two_entries : DataAssistant :=
  with_feedback assistant0
    {[ "u1" := [liked "How many incidents?" "t0"; liked "Show critical problems" "t1"] ]}.


(** A reply with white space of both kinds around a text that is no JSON:
    a no-break space (U+00A0) and a blank before it, a blank and a line
    feed after it. *)
Definition padded_reply : string :=
  bytes [194; 160]%nat +:+ " {oops} " +:+ LF.

End Demo.

(** ** Predicates of the further properties, the feedback endpoint and the
    engine adapter *)

(** The three ways a model step can give nothing to use: its prompt does
    not render, the call raises, or the reply is not [usable] (what a node
    can use of a reply is the parameter). *)
Definition no_answer (E : Env) (w : World) (prompt : result string)
    (usable : string -> Prop) : Prop :=
  match prompt with
  | Raise _ => True
  | Ok p =>
      match llm_invoke E (length (llm_log w)) p with
      | Raise _ => True
      | Ok reply => ~ usable reply
      end
  end.

(** The state of a turn in which a query has failed below the ceiling, and
    the model's answer to the diagnosis prompt parsed as an object. *)
Definition diagnosed (E : Env) (s : AgentState) (w : World) (msg : string)
    (d : list (string * pyval)) : Prop :=
  error_msg s = Some msg /\ msg <> ""
  /\ default 0 (retry_count s) < max_retries E
  /\ exists q p reply,
       sql_query s = Some q
       /\ get_error_analysis_prompt E msg q = Ok p
       /\ llm_invoke E (length (llm_log w)) p = Ok reply
       /\ parse_json_response E reply = PDict d.

(** The number of queries sent since the start of the turn, against the
    retry count, at each node. *)
Definition calls_inv (E : Env) (base : nat) (n : Node) (r : Run) : Prop :=
  let c := Z.of_nat (length (bq_log (world r))) - Z.of_nat base in
  let rc := default 0 (retry_count (state r)) in
  let top := Z.max 1 (max_retries E) in
  match n with
  | N_classify | N_retrieve | N_generate_sql | N_execute => c <= rc /\ rc < top
  | N_error_analyzer => c <= top /\ (c <= rc \/ error_msg (state r) = Some "")
  | N_general | N_update_history => c <= top
  end.

(** The stored exchanges a new turn draws its window from: those of blob
    storage when it has any, else those kept in memory, and none without a
    user identifier. *)
Definition window_source (E : Env) (self : DataAssistant)
    (user_id : option string) : list (string * string) :=
  match user_id with
  | Some uid =>
      if String.eqb uid "" then []
      else
        match (if use_blob_sessions self then load_user_conversations E uid else [])
        with
        | [] => default [] (user_conversation_histories self !! uid)
        | blob => blob
        end
  | None => []
  end.

(** The handler of POST /feedback in [run_flask_api], on a request body
    whose members are texts or absent: the label, when the request has a
    non-empty one, is recorded before the comment, when it has a non-empty
    one; the two messages of the response default to the empty text. *)
Definition feedback_endpoint (self : DataAssistant) (now_label now_comment : string)
    (user_id user_query : string) (feedback_type comments_ : option string)
  : DataAssistant * (string * string) :=
  let after_label :=
    match feedback_type with
    | Some label =>
        if negb (String.eqb label "")
        then record_feedback self now_label user_id user_query label
        else (self, "")
    | None => (self, "")
    end in
  let after_comment :=
    match comments_ with
    | Some c =>
        if negb (String.eqb c "")
        then record_comment (fst after_label) now_comment user_id user_query c
        else (fst after_label, "")
    | None => (fst after_label, "")
    end in
  (fst after_comment, (snd after_label, snd after_comment)).

(** What the BigQuery client does with a query: a frame, a BadRequest, another
    GoogleAPICallError, or any other exception, each with its text. *)
Inductive ClientOutcome : Type :=
| ClientFrame (df : DataFrame)
| BadRequest (msg : string)
| GoogleAPICallError (msg : string)
| OtherError (msg : string).

(** [BigQueryClient.execute_query] *)
Definition BigQueryClient_execute_query (outcome : ClientOutcome)
  : result (option DataFrame) :=
  match outcome with
  | ClientFrame df => Ok (Some df)
  | BadRequest msg => Raise ("Invalid SQL: " +:+ msg)
  | GoogleAPICallError msg => Raise ("BigQuery API error: " +:+ msg)
  | OtherError msg => Raise ("Unexpected error: " +:+ msg)
  end.

(** Further scenarios. *)
Module Scenario.

(** A model that cannot be reached. *)
Definition down_model : nat -> string -> result string :=
  fun _ _ => Raise "Connection error.".

Definition down_env : Env := Demo.env down_model Demo.no_engine.

(** The empty dict as a state. *)
Definition empty_state : AgentState :=
  {| user_prompt := None; intent := None; rephrased_prompt := None;
     relevant_schemas := None; sql_query := None; results := None;
     final_response := None; error_msg := None; analysis := None;
     analysis_action := None; retry_count := None; messages := None |}.

(** A state that holds nothing but the user's input. *)
Definition prompt_only (input : string) : AgentState :=
  {| user_prompt := Some input; intent := None; rephrased_prompt := None;
     relevant_schemas := None; sql_query := None; results := None;
     final_response := None; error_msg := None; analysis := None;
     analysis_action := None; retry_count := None; messages := None |}.

(** A model that labels the first prompt a greeting and then chats. *)
Definition greeting_label : string :=
  "{" +:+ quoted "intent" +:+ ": " +:+ quoted "greeting" +:+ "}".

Definition chatting_model : nat -> string -> result string :=
  fun i _ =>
    match i with
    | O => Ok greeting_label
    | _ => Ok "Hello! Ask me about incidents."
    end.

Definition chatting_env : Env := Demo.env chatting_model Demo.no_engine.

(** A model that recommends to rephrase, and suggests a query all the same. *)
Definition rephrase_reply : string :=
  "{" +:+ quoted "action" +:+ ": " +:+ quoted "rephrase" +:+ ", "
  +:+ quoted "suggested_sql" +:+ ": " +:+ quoted "SELECT 1" +:+ "}".

Definition rephrasing_env : Env :=
  Demo.env (fun _ _ => Ok rephrase_reply) Demo.no_engine.

(** A model whose diagnosis is prose. *)
Definition shrugging_env : Env :=
  Demo.env (fun _ _ => Ok "I cannot tell what went wrong.") Demo.no_engine.

(** An engine that rejects every query. *)
Definition rejecting_env : Env :=
  Demo.env Demo.silent_model (fun _ _ => Raise "Invalid SQL: 400 Syntax error").

(** What a rejected query leaves in the diagnosis of the shrugging model and
    of the rephrasing model. *)
Definition no_json : list (string * pyval) :=
  [("error", PStr "No JSON found in response")].

Definition rephrase_object : list (string * pyval) :=
  [("action", PStr "rephrase"); ("suggested_sql", PStr "SELECT 1")].

(** Four exchanges of user u1 kept in memory, and two kept in blob storage. *)
Definition four_exchanges : list (string * string) :=
  [("q1", "a1"); ("q2", "a2"); ("q3", "a3"); ("q4", "a4")].

Definition remembering (blob : bool) : DataAssistant :=
  {| use_blob_sessions := blob;
     user_conversation_histories := {[ "u1" := four_exchanges ]};
     conversation_data_db := [];
     feedback_and_comments := ∅ |}.

Definition blob_env : Env :=
  let base := Demo.silent_env in
  {| llm_invoke := llm_invoke base;
     execute_query := execute_query base;
     json_loads := json_loads base;
     lower_unicode := lower_unicode base;
     to_markdown := to_markdown base;
     get_classify_prompt := get_classify_prompt base;
     get_general_response_prompt := get_general_response_prompt base;
     get_sql_gen_prompt := get_sql_gen_prompt base;
     get_error_analysis_prompt := get_error_analysis_prompt base;
     SCHEMAS := SCHEMAS base;
     max_retries := max_retries base;
     recursion_limit := recursion_limit base;
     load_user_conversations := fun uid =>
       if String.eqb uid "u1" then [("b1", "c1"); ("b2", "c2")] else [] |}.

End Scenario.

Module Adapter.

(** A client whose engine rejects every query. *)
Definition rejecting_client : nat -> pyval -> ClientOutcome :=
  fun _ _ => BadRequest "400 Syntax error".

Definition adapter_env : Env :=
  Demo.env Demo.silent_model
    (fun i sql => BigQueryClient_execute_query (rejecting_client i sql)).

End Adapter.

(** ** Sanity checks of the text operations and of the decoder *)

Example strip_ex : strip "  ab c
 " = "ab c".
Proof. reflexivity. Qed.

(** White space beyond ASCII: a no-break space (U+00A0) in front, an
    ideographic space (U+3000) and a line separator (U+2028) behind; the
    two bytes of an a with grave accent stay. *)
Example strip_unicode :
  strip (bytes [194; 160]%nat +:+ " " +:+ bytes [195; 160]%nat +:+ " b"
         +:+ bytes [227; 128; 128; 226; 128; 168]%nat)
  = bytes [195; 160]%nat +:+ " b"
  /\ strip (bytes [194; 160]%nat) = ""
  /\ lstrip (" a" +:+ bytes [194; 160]%nat) = "a" +:+ bytes [194; 160]%nat
  /\ rstrip (bytes [194; 160]%nat +:+ "a ") = bytes [194; 160]%nat +:+ "a".
Proof. repeat split; reflexivity. Qed.

Example lower_ex :
  ascii_lower "Hi THERE, 42!" = "hi there, 42!"
  /\ is_ascii "Hi THERE, 42!" = true
  /\ is_ascii (bytes [72; 196; 176]%nat) = false.
Proof. repeat split; reflexivity. Qed.

Example find_ex : find "}" "a}b}" = Some 1%nat /\ rfind "}" "a}b}" = Some 3%nat.
Proof. split; reflexivity. Qed.
Example split_ex : split_second "```" "x```sql
SELECT 1```y" = Some "sql
SELECT 1".
Proof. reflexivity. Qed.
Example str_ex : str_of_Z 150 = "150" /\ str_of_Z (-3) = "-3" /\ str_of_nat 0 = "0".
Proof. repeat split; reflexivity. Qed.

Example flat_ok :
  json_loads_flat
    ("{" +:+ quoted "action" +:+ ": " +:+ quoted "retry" +:+ ", "
     +:+ quoted "suggested_sql" +:+ ": " +:+ quoted "SELECT 1" +:+ "}")
  = JsonOk (PDict [("action", PStr "retry"); ("suggested_sql", PStr "SELECT 1")]).
Proof. reflexivity. Qed.

Example flat_extra :
  json_loads_flat
    ("{" +:+ quoted "a" +:+ ": " +:+ quoted "b" +:+ "} {"
     +:+ quoted "c" +:+ ": " +:+ quoted "d" +:+ "}")
  = JsonDecodeError "Extra data".
Proof. reflexivity. Qed.

(** ** Properties *)

Ltac run_node :=
  cbv beta delta
    [mbind mret M_bind M_ret try_except lift get index assign pass sleep
     state world] iota zeta.

(** *** Text lemmas: prefixes, suffixes and white space *)

Lemma starts_with_take (p s : string) (n : nat) :
  starts_with p (str_take n s) = true -> starts_with p s = true.
Proof.
  revert s n. induction p as [|a p IH]; intros s n; [reflexivity|].
  destruct s as [|b s], n as [|n]; cbn; try discriminate.
  intros H. apply andb_prop in H as [Hab Hp]. rewrite Hab. cbn. eauto.
Qed.

Lemma contains_take (p s : string) (n : nat) :
  contains p (str_take n s) = true -> contains p s = true.
Proof.
  unfold contains. revert n. induction s as [|c s IH]; intros n.
  - destruct n; exact (fun H => H).
  - destruct n as [|n].
    + cbn [str_take find]. destruct (starts_with p "") eqn:Hp; [|discriminate].
      destruct p; [reflexivity|discriminate].
    + cbn [str_take find].
      destruct (starts_with p (String c (str_take n s))) eqn:Hs.
      * change (String c (str_take n s)) with (str_take (S n) (String c s)) in Hs.
        apply starts_with_take in Hs. rewrite Hs. reflexivity.
      * destruct (starts_with p (String c s)); [reflexivity|].
        specialize (IH n). destruct (find p (str_take n s)); [|discriminate].
        intros _. destruct (find p s); [reflexivity|]. discriminate IH. reflexivity.
Qed.

Lemma contains_cons (p s : string) (c : ascii) :
  contains p s = true -> contains p (String c s) = true.
Proof.
  unfold contains. cbn [find]. destruct (starts_with p (String c s)); [reflexivity|].
  destruct (find p s); [reflexivity|discriminate].
Qed.

Lemma contains_drop (p s : string) (n : nat) :
  contains p (str_drop n s) = true -> contains p s = true.
Proof.
  revert s. induction n as [|n IH]; intros s; [exact (fun H => H)|].
  destruct s as [|c s]; [exact (fun H => H)|]. cbn [str_drop].
  intros H. apply contains_cons, IH, H.
Qed.

Lemma ends_with_cons (p s : string) (c : ascii) :
  ends_with p s = true -> ends_with p (String c s) = true.
Proof. intros H. cbn [ends_with]. rewrite H. apply orb_true_r. Qed.

Lemma starts_with_length (p s : string) :
  starts_with p s = true -> (String.length p <= String.length s)%nat.
Proof.
  revert s. induction p as [|a p IH]; intros s; cbn; [lia|].
  destruct s as [|b s]; [discriminate|]. intros H.
  apply andb_prop in H as [_ H]. apply IH in H. cbn. lia.
Qed.

Lemma ends_with_length (p s : string) :
  ends_with p s = true -> (String.length p <= String.length s)%nat.
Proof.
  induction s as [|c s IH]; cbn [ends_with]; intros H;
    apply orb_prop in H as [H|H]; try discriminate.
  - apply String.eqb_eq in H. subst p. lia.
  - apply String.eqb_eq in H. subst p. lia.
  - apply IH in H. cbn. lia.
Qed.

Lemma str_drop_length (n : nat) (s : string) :
  String.length (str_drop n s) = (String.length s - n)%nat.
Proof.
  revert s. induction n as [|n IH]; intros s; cbn; [lia|].
  destruct s as [|c s]; [reflexivity|]. cbn. apply IH.
Qed.

Lemma str_take_length (n : nat) (s : string) :
  (String.length (str_take n s) <= n)%nat.
Proof.
  revert s. induction n as [|n IH]; intros s; [destruct s; cbn; lia|].
  destruct s as [|c s]; cbn; [lia|]. specialize (IH s). lia.
Qed.

Lemma str_drop_drop (j k : nat) (s : string) :
  str_drop k (str_drop j s) = str_drop (j + k) s.
Proof.
  revert s. induction j as [|j IH]; intros s; [reflexivity|].
  destruct s as [|c s]; [destruct k; reflexivity|]. cbn. apply IH.
Qed.

Lemma str_take_take (j k : nat) (s : string) :
  str_take k (str_take j s) = str_take (Nat.min k j) s.
Proof.
  revert j s. induction k as [|k IH]; intros j s; [destruct (str_take j s); reflexivity|].
  destruct j as [|j]; [reflexivity|].
  destruct s as [|c s]; [reflexivity|]. cbn. rewrite IH. reflexivity.
Qed.

(** Every entry of the white-space table has at least one byte. *)
Lemma whitespace_nonempty (ws : string) :
  In ws whitespace -> (1 <= String.length ws)%nat.
Proof.
  assert (H : Forall (fun ws => (1 <= String.length ws)%nat) whitespace).
  { unfold whitespace. cbn. repeat (constructor; [cbn; lia|]). constructor. }
  rewrite List.Forall_forall in H. apply H.
Qed.

Lemma drop_space_shorter (x t : string) :
  drop_space x = Some t -> (String.length t < String.length x)%nat.
Proof.
  unfold drop_space.
  destruct (List.find _ whitespace) as [ws|] eqn:Hf; [|discriminate].
  intros [= <-]. apply List.find_some in Hf as [Hin Hs].
  apply whitespace_nonempty in Hin. apply starts_with_length in Hs.
  rewrite str_drop_length. lia.
Qed.

Lemma drop_space_end_shorter (x t : string) :
  drop_space_end x = Some t -> (String.length t < String.length x)%nat.
Proof.
  unfold drop_space_end.
  destruct (List.find _ whitespace) as [ws|] eqn:Hf; [|discriminate].
  intros [= <-]. apply List.find_some in Hf as [Hin Hs].
  apply whitespace_nonempty in Hin. apply ends_with_length in Hs.
  pose proof (str_take_length (String.length x - String.length ws) x). lia.
Qed.

(** With as many rounds as the text has bytes the loop runs to its end. *)
Lemma strip_loop_done (drop : string -> option string) (n : nat) (s : string) :
  (forall x t, drop x = Some t -> (String.length t < String.length x)%nat) ->
  (String.length s <= n)%nat ->
  drop (strip_loop drop n s) = None.
Proof.
  intros Hdrop. revert s. induction n as [|n IH]; intros s Hn; cbn [strip_loop].
  - destruct (drop s) as [t|] eqn:Hd; [|reflexivity].
    apply Hdrop in Hd. lia.
  - destruct (drop s) as [t|] eqn:Hd; [|exact Hd].
    apply IH. apply Hdrop in Hd. lia.
Qed.

Lemma strip_loop_rel (drop : string -> option string)
    (R : string -> string -> Prop) (n : nat) (s : string) :
  (forall x, R x x) ->
  (forall x t u, drop x = Some t -> R t u -> R x u) ->
  R s (strip_loop drop n s).
Proof.
  intros Hrefl Hstep. revert s. induction n as [|n IH]; intros s;
    cbn [strip_loop]; [apply Hrefl|].
  destruct (drop s) as [t|] eqn:Hd; [|apply Hrefl].
  eapply Hstep; [exact Hd|apply IH].
Qed.

Lemma lstrip_drop (s : string) : exists k, lstrip s = str_drop k s.
Proof.
  unfold lstrip.
  apply (strip_loop_rel drop_space (fun x u => exists k, u = str_drop k x)).
  - intros x. exists O. reflexivity.
  - intros x t u Hd [k ->]. unfold drop_space in Hd.
    destruct (List.find _ whitespace) as [ws|]; [|discriminate].
    injection Hd as <-. rewrite str_drop_drop. eauto.
Qed.

Lemma rstrip_take (s : string) : exists k, rstrip s = str_take k s.
Proof.
  unfold rstrip.
  apply (strip_loop_rel drop_space_end (fun x u => exists k, u = str_take k x)).
  - intros x. exists (String.length x).
    induction x as [|c x IH]; [reflexivity|]. cbn. rewrite <- IH. reflexivity.
  - intros x t u Hd [k ->]. unfold drop_space_end in Hd.
    destruct (List.find _ whitespace) as [ws|]; [|discriminate].
    injection Hd as <-. rewrite str_take_take. eauto.
Qed.

(** What [strip] returns neither starts nor ends with white space. *)
Lemma strip_no_space (s : string) :
  Forall (fun ws => starts_with ws (strip s) = false
                    /\ ends_with ws (strip s) = false) whitespace.
Proof.
  apply List.Forall_forall. intros ws Hin. unfold strip. split.
  - destruct (starts_with ws (rstrip (lstrip s))) eqn:Hs; [|reflexivity].
    destruct (rstrip_take (lstrip s)) as [k Hk]. rewrite Hk in Hs.
    apply starts_with_take in Hs.
    pose proof (strip_loop_done drop_space (String.length s) s
                  drop_space_shorter (Nat.le_refl _)) as Hd.
    fold (lstrip s) in Hd. unfold drop_space in Hd.
    destruct (List.find _ whitespace) as [ws'|] eqn:Hf; [discriminate|].
    rewrite (List.find_none _ _ Hf ws Hin) in Hs. discriminate.
  - pose proof (strip_loop_done drop_space_end (String.length (lstrip s))
                  (lstrip s) drop_space_end_shorter (Nat.le_refl _)) as Hd.
    fold (rstrip (lstrip s)) in Hd. unfold drop_space_end in Hd.
    destruct (List.find _ whitespace) as [ws'|] eqn:Hf; [discriminate|].
    exact (List.find_none _ _ Hf ws Hin).
Qed.

Lemma contains_strip (p s : string) :
  contains p (strip s) = true -> contains p s = true.
Proof.
  unfold strip. destruct (rstrip_take (lstrip s)) as [n ->].
  destruct (lstrip_drop s) as [k ->].
  intros H. apply contains_drop with k, contains_take with n, H.
Qed.

(** The text before the leftmost occurrence holds no occurrence. *)
Lemma find_take_none (p s : string) (i : nat) :
  p <> "" -> find p s = Some i -> find p (str_take i s) = None.
Proof.
  intros Hp. revert i. induction s as [|c s IH]; intros i.
  - cbn. destruct p; [congruence|]. discriminate.
  - cbn [find]. destruct (starts_with p (String c s)) eqn:Hs.
    + intros [= <-]. cbn. destruct p; [congruence|reflexivity].
    + destruct (find p s) as [i'|] eqn:Hf; [|discriminate].
      intros [= <-]. cbn [str_take find].
      destruct (starts_with p (String c (str_take i' s))) eqn:Hs'.
      * change (String c (str_take i' s)) with (str_take (S i') (String c s)) in Hs'.
        apply starts_with_take in Hs'. congruence.
      * rewrite (IH i' eq_refl). reflexivity.
Qed.

Lemma split_head_clean (sep s : string) :
  sep <> "" -> contains sep (split_head sep s) = false.
Proof.
  intros Hsep. unfold split_head, contains.
  destruct (find sep s) as [i|] eqn:Hf.
  - rewrite (find_take_none sep s i Hsep Hf). reflexivity.
  - rewrite Hf. reflexivity.
Qed.

Lemma strip_clean (sep s : string) :
  contains sep s = false -> contains sep (strip s) = false.
Proof.
  intros H. destruct (contains sep (strip s)) eqn:Hc; [|reflexivity].
  apply contains_strip in Hc. congruence.
Qed.

Section Properties.

Variable E : Env.

(** C2.  With a non-empty [error_msg] and [retry_count] at or above
    [max_retries], [error_analyzer] returns with [analysis_action] equal to
    "fail" and [final_response] equal to
    "Failed after <max_retries> attempts: <error_msg>"; the world is returned
    as it was received, so the model is not invoked and nothing it could
    answer changes the outcome; the error, the count, the query and the
    analysis stay as they were. *)
Theorem error_analyzer_ceiling (s : AgentState) (w : World) (msg : string) :
  error_msg s = Some msg ->
  msg <> "" ->
  max_retries E <= default 0 (retry_count s) ->
  let r' := snd (error_analyzer E {| state := s; world := w |}) in
  fst (error_analyzer E {| state := s; world := w |}) = Ok tt
  /\ analysis_action (state r') = Some "fail"
  /\ final_response (state r')
     = Some ("Failed after " +:+ str_of_Z (max_retries E) +:+ " attempts: " +:+ msg)
  /\ world r' = w
  /\ error_msg (state r') = Some msg
  /\ retry_count (state r') = retry_count s
  /\ sql_query (state r') = sql_query s
  /\ analysis (state r') = analysis s.
Proof.
  intros Hmsg Hne Hmax r'. subst r'.
  unfold error_analyzer. run_node. rewrite Hmsg. cbn [from_option].
  destruct (String.eqb_spec msg "") as [->|_]; [congruence|]. cbn [negb].
  apply Z.leb_le in Hmax. rewrite Hmax. cbn. rewrite Hmsg. cbn.
  repeat split. exact Hmsg.
Qed.

(** C5.  For a count [n >= 0] the pause of [exponential_backoff] is
    [min(2^n, 16)]: 1, 2, 4, 8, 16 for 0 to 4, and 16 from 4 on. *)
Theorem exponential_backoff_delay (n : Z) (r : Run) :
  0 <= n ->
  exponential_backoff n r
  = (Ok tt,
     {| state := state r;
        world := {| llm_log := llm_log (world r); bq_log := bq_log (world r);
                    sleep_log := Z.min (2 ^ n) 16 :: sleep_log (world r) |} |})
  /\ map backoff_delay [0; 1; 2; 3; 4] = [1; 2; 4; 8; 16]
  /\ (n < 4 -> backoff_delay n = 2 ^ n)
  /\ (4 <= n -> backoff_delay n = 16).
Proof.
  intros Hn. repeat split.
  - intros Hlt. unfold backoff_delay. apply Z.min_l.
    assert (n = 0 \/ n = 1 \/ n = 2 \/ n = 3) as [-> | [-> | [-> | ->]]] by lia;
      vm_compute; discriminate.
  - intros Hge. unfold backoff_delay. apply Z.min_r.
    change 16 with (2 ^ 4). apply Z.pow_le_mono_r; lia.
Qed.

(** The first branch of [execute_sql] is not taken for a query that is set
    and not empty, and the engine is asked. *)
Lemma execute_sql_runs (s : AgentState) (w : World) (q : pyval) :
  sql_query s = Some q ->
  truthy q = true ->
  execute_sql E {| state := s; world := w |}
  = try_except
      (df ← bq_execute E q;
       match df with
       | Some d =>
           if negb (df_empty d) then
             (if (100 <? df_len d)%nat then
                assign (set_results
                  (to_markdown E (df_head 100 d) +:+ LF +:+ LF
                   +:+ truncation_note (df_len d)))
              else assign (set_results (to_markdown E d)));;
             up ← index "user_prompt" user_prompt;
             res ← index "results" results;
             assign (set_final_response
               ("Results for '" +:+ up +:+ "':" +:+ LF +:+ res));;
             assign (set_error_msg "")
           else no_data
       | None => no_data
       end)
      (fun e =>
       assign (set_error_msg e);;
       rc ← get (fun s => default 0 (retry_count s));
       assign (set_retry_count (rc + 1)))
      {| state := s; world := w |}.
Proof.
  intros Hq Ht. unfold execute_sql. run_node. rewrite Hq. cbn [from_option].
  rewrite Ht. cbn [negb]. rewrite Hq. reflexivity.
Qed.

(** C4.  When the engine answers a non-empty query with more than 100 rows,
    [execute_sql] renders the first 100 rows only, appends the note with the
    true total, puts "Results for '<user_prompt>':" and the rendering in
    [final_response], and empties [error_msg]. *)
Theorem execute_sql_truncates (s : AgentState) (w : World) (q : pyval)
    (d : DataFrame) (up : string) :
  sql_query s = Some q ->
  truthy q = true ->
  user_prompt s = Some up ->
  execute_query E (length (bq_log w)) q = Ok (Some d) ->
  df_columns d <> [] ->
  (100 < df_len d)%nat ->
  let shown :=
    to_markdown E (df_head 100 d) +:+ LF +:+ LF
    +:+ "(Showing first 100 rows of " +:+ str_of_nat (df_len d) +:+ " total)" in
  let r' := snd (execute_sql E {| state := s; world := w |}) in
  fst (execute_sql E {| state := s; world := w |}) = Ok tt
  /\ df_rows (df_head 100 d) = firstn 100 (df_rows d)
  /\ df_len (df_head 100 d) = 100%nat
  /\ results (state r') = Some shown
  /\ final_response (state r') = Some ("Results for '" +:+ up +:+ "':" +:+ LF +:+ shown)
  /\ error_msg (state r') = Some ""
  /\ retry_count (state r') = retry_count s.
Proof.
  intros Hq Ht Hup Hbq Hcols Hlen shown r'. subst r'.
  rewrite (execute_sql_runs s w q Hq Ht).
  unfold bq_execute. run_node. rewrite Hbq.
  assert (df_empty d = false) as ->.
  { unfold df_empty, df_len in *. destruct (df_columns d); [congruence|].
    destruct (df_rows d); [cbn in Hlen; lia|reflexivity]. }
  apply Nat.ltb_lt in Hlen. rewrite Hlen. cbn. rewrite Hup. cbn.
  repeat split.
  unfold df_len in *. cbn. apply Nat.ltb_lt in Hlen.
  rewrite length_firstn. lia.
Qed.

(** C6.  When the engine answers a non-empty query with a frame of zero rows,
    [execute_sql] returns with [final_response] equal to "No data found
    matching your query.", [error_msg] equal to the empty text and
    [results] equal to "No data found"; it counts no retry, and the query
    is the one sent to the engine. *)
Theorem execute_sql_no_rows (s : AgentState) (w : World) (q : pyval)
    (d : DataFrame) :
  sql_query s = Some q ->
  truthy q = true ->
  execute_query E (length (bq_log w)) q = Ok (Some d) ->
  df_len d = 0%nat ->
  let r' := snd (execute_sql E {| state := s; world := w |}) in
  fst (execute_sql E {| state := s; world := w |}) = Ok tt
  /\ final_response (state r') = Some "No data found matching your query."
  /\ error_msg (state r') = Some ""
  /\ results (state r') = Some "No data found"
  /\ retry_count (state r') = retry_count s
  /\ bq_log (world r') = q :: bq_log w.
Proof.
  intros Hq Ht Hbq Hlen r'. subst r'.
  rewrite (execute_sql_runs s w q Hq Ht).
  unfold bq_execute, no_data. run_node. rewrite Hbq.
  assert (df_empty d = true) as ->.
  { unfold df_empty, df_len in *. destruct (df_rows d); [|discriminate].
    destruct (df_columns d); reflexivity. }
  cbn. repeat split.
Qed.



(** What a missing query leaves. *)
Lemma execute_sql_skips (s : AgentState) (w : World) :
  from_option truthy false (sql_query s) = false ->
  execute_sql E {| state := s; world := w |}
  = (Ok tt, {| state := set_error_msg "No SQL query to execute" s; world := w |}).
Proof.
  intros Hq. unfold execute_sql. run_node. rewrite Hq. reflexivity.
Qed.

(** X8.  A query that is absent, or present and falsy ([None], the empty
    text, 0, an empty list), is not sent and not counted: [execute_sql]
    returns normally with [error_msg] equal to "No SQL query to execute";
    the world, [retry_count], the query and the final response are as they
    were. *)
Theorem execute_sql_without_query (s : AgentState) (w : World) :
  from_option truthy false (sql_query s) = false ->
  let r' := snd (execute_sql E {| state := s; world := w |}) in
  fst (execute_sql E {| state := s; world := w |}) = Ok tt
  /\ error_msg (state r') = Some "No SQL query to execute"
  /\ retry_count (state r') = retry_count s
  /\ world r' = w
  /\ sql_query (state r') = sql_query s
  /\ final_response (state r') = final_response s.
Proof.
  intros Hq r'. subst r'. rewrite (execute_sql_skips s w Hq). cbn.
  repeat split.
Qed.

(** *** The response parser *)

Lemma find_starts_with (p s : string) (i : nat) :
  find p s = Some i -> starts_with p (str_drop i s) = true.
Proof.
  revert i. induction s as [|c s IH]; intros i.
  - cbn. destruct (starts_with p "") eqn:Hs; [|discriminate].
    intros [= <-]. exact Hs.
  - cbn [find]. destruct (starts_with p (String c s)) eqn:Hs.
    + intros [= <-]. exact Hs.
    + destruct (find p s) as [i'|]; [|discriminate].
      intros [= <-]. cbn. apply IH. reflexivity.
Qed.

Lemma rfind_of_find (p s : string) (i : nat) :
  find p s = Some i -> exists j, rfind p s = Some j.
Proof.
  revert i. induction s as [|c s IH]; intros i.
  - cbn. destruct (starts_with p ""); [eauto|discriminate].
  - cbn [find rfind]. destruct (starts_with p (String c s)) eqn:Hs.
    + intros _. destruct (rfind p s); eauto.
    + destruct (find p s) as [i'|]; [|discriminate].
      intros _. destruct (IH i' eq_refl) as [j ->]. eauto.
Qed.

Lemma json_str_shape (r : string) (i : nat) :
  find "{" r = Some i ->
  json_str r = "" \/ exists rest, json_str r = String "{"%char rest.
Proof.
  intros Hi. unfold json_str, slice. cbv zeta. rewrite Hi. cbn [from_option id].
  apply find_starts_with in Hi.
  destruct (str_drop i r) as [|c t]; [discriminate|].
  cbn [starts_with] in Hi. apply andb_prop in Hi as [Hc _].
  apply Ascii.eqb_eq in Hc. subst c.
  destruct (S (default 0%nat (rfind "}" r)) - i)%nat; cbn; eauto.
Qed.

(** C7 (amended).  The parser is total and, for a decoder with the two facts
    above, always answers a dict.  It works on the stripped reply, which
    neither starts nor ends with white space; it decodes the text between the
    first opening brace and the last closing brace of the stripped reply;
    when that decoding fails the answer holds an error tag and the stripped
    reply; a reply without a brace of either kind is answered with an error
    tag alone. *)
Theorem parse_json_response_spec (reply : string) :
  json_facts (json_loads E) ->
  let r := strip reply in
  (exists d, parse_json_response E reply = PDict d)
  /\ Forall (fun ws => starts_with ws r = false /\ ends_with ws r = false)
       whitespace
  /\ (contains "{" r && contains "}" r = true ->
      exists i j,
        find "{" r = Some i /\ rfind "}" r = Some j
        /\ match json_loads E (slice i (S j) r) with
           | JsonOk v => parse_json_response E reply = v
           | JsonDecodeError _ =>
               parse_json_response E reply
               = PDict [("error", PStr "Invalid JSON"); ("raw_response", PStr r)]
           | JsonError _ =>
               parse_json_response E reply
               = PDict [("error", PStr "Parse error"); ("raw_response", PStr r)]
           end)
  /\ (contains "{" r && contains "}" r = false ->
      parse_json_response E reply
      = PDict [("error", PStr "No JSON found in response")]).
Proof.
  intros [Hobj Hempty] r. unfold parse_json_response. fold r.
  destruct (contains "{" r && contains "}" r) eqn:Hc.
  - apply andb_prop in Hc as [Ho Hcl]. unfold contains in Ho, Hcl.
    destruct (find "{" r) as [i|] eqn:Hi; [|discriminate].
    destruct (find "}" r) as [i'|] eqn:Hi'; [|discriminate].
    destruct (rfind_of_find _ _ _ Hi') as [j Hj].
    assert (Hs : json_str r = slice i (S j) r).
    { unfold json_str. rewrite Hi, Hj. reflexivity. }
    split; [|split; [apply strip_no_space|split; [|discriminate]]].
    + destruct (json_loads E (json_str r)) eqn:Hl; eauto.
      destruct (json_str_shape r i Hi) as [Hz|[rest Hz]]; rewrite Hz in Hl.
      * destruct (Hempty _ Hl).
      * eapply Hobj, Hl.
    + intros _. exists i, j. rewrite <- Hs.
      destruct (json_loads E (json_str r)); auto.
  - split; [eauto|]. split; [apply strip_no_space|].
    split; [discriminate|reflexivity].
Qed.

(** *** The retry edge *)


Lemma generate_sql_outcome (s : AgentState) (w : World) (rp : pyval)
    (schemas : string) :
  rephrased_prompt s = Some rp ->
  relevant_schemas s = Some schemas ->
  generate_sql E {| state := s; world := w |}
  = match get_sql_gen_prompt E rp schemas with
    | Ok p =>
        let w' := {| llm_log := p :: llm_log w; bq_log := bq_log w;
                     sleep_log := sleep_log w |} in
        match llm_invoke E (length (llm_log w)) p with
        | Ok fresh =>
            (Ok tt, {| state := set_sql_query (PStr (clean_sql fresh)) s;
                       world := w' |})
        | Raise e =>
            (Ok tt,
             {| state := set_error_msg ("Failed to generate SQL query: " +:+ e) s;
                world := w' |})
        end
    | Raise e =>
        (Ok tt,
         {| state := set_error_msg ("Failed to generate SQL query: " +:+ e) s;
            world := w |})
    end.
Proof.
  intros Hrp Hsch. unfold generate_sql. run_node. rewrite Hrp, Hsch.
  destruct (get_sql_gen_prompt E rp schemas) as [p|e]; [|reflexivity].
  unfold invoke_llm. run_node.
  destruct (llm_invoke E (length (llm_log w)) p); reflexivity.
Qed.




(** *** The history step *)

(** With a user prompt in the state, [update_history] appends one entry; its
    [bot] field is the default text exactly when the key is absent. *)
Lemma update_history_appends (s : AgentState) (w : World) (up : string) :
  user_prompt s = Some up ->
  update_history {| state := s; world := w |}
  = (Ok tt,
     {| state :=
          set_messages
            (default [] (messages s)
             ++ [{| user := up;
                    bot := default "No response generated" (final_response s) |}])
            s;
        world := w |}).
Proof.
  intros Hup. unfold update_history. run_node.
  destruct (messages s) as [msgs|] eqn:Hm; cbn; rewrite ?Hm, Hup; reflexivity.
Qed.

(** C8, at a state whose [final_response] is the empty text.  The entry
    appended by [update_history] carries the empty text in its [bot] field:
    no default is substituted, because the key is present. *)
Theorem update_history_empty_reply (s : AgentState) (w : World) (up : string)
    (msgs : list Message) :
  user_prompt s = Some up ->
  messages s = Some msgs ->
  final_response s = Some "" ->
  update_history {| state := s; world := w |}
  = (Ok tt,
     {| state := set_messages (msgs ++ [{| user := up; bot := "" |}]) s;
        world := w |}).
Proof.
  intros Hup Hm Hf. rewrite (update_history_appends s w up Hup), Hm, Hf.
  reflexivity.
Qed.

(** *** Feedback *)

Lemma entries_of_insert (self : DataAssistant) (user_id : string)
    (l : list FeedbackEntry) :
  entries_of
    (with_feedback self (<[user_id := l]> (feedback_and_comments self))) user_id
  = l.
Proof. unfold entries_of, with_feedback. cbn. by rewrite lookup_insert_eq. Qed.

Lemma record_feedback_appends (self : DataAssistant)
    (now user_id user_query feedback_type : string) :
  entries_of (fst (record_feedback self now user_id user_query feedback_type)) user_id
  = entries_of self user_id
    ++ [{| query := user_query;
           feedback := or_else feedback_type
                         "user did not provide feedback like or dislike";
           comments := "user did not provide comments";
           timestamp := now |}].
Proof. unfold record_feedback. cbn [fst]. apply entries_of_insert. Qed.

Lemma attach_comment_first (q c : string) (pre post : list FeedbackEntry)
    (e : FeedbackEntry) :
  Forall (fun x => query x <> q) pre ->
  query e = q ->
  attach_comment q c (pre ++ e :: post)
  = Some (pre ++ {| query := query e; feedback := feedback e;
                    comments := or_else c "user did not provide comments";
                    timestamp := timestamp e |} :: post).
Proof.
  intros Hpre He. induction Hpre as [|x pre Hx _ IH]; cbn.
  - apply String.eqb_eq in He. rewrite He. reflexivity.
  - apply String.eqb_neq in Hx. rewrite Hx, IH. reflexivity.
Qed.

(** C9 (amended).  A comment recorded for a query text that has an entry is
    put into the first entry with that text, and no entry is added; a
    feedback label recorded with [record_feedback] is always a new entry at
    the end of the list, also when the query text has one already. *)
Theorem record_comment_updates_first (self : DataAssistant)
    (now user_id q c : string) (pre post : list FeedbackEntry)
    (e : FeedbackEntry) :
  entries_of self user_id = pre ++ e :: post ->
  Forall (fun x => query x <> q) pre ->
  query e = q ->
  entries_of (fst (record_comment self now user_id q c)) user_id
  = pre ++ {| query := q; feedback := feedback e;
              comments := or_else c "user did not provide comments";
              timestamp := timestamp e |} :: post
  /\ forall now' label,
       entries_of (fst (record_feedback self now' user_id q label)) user_id
       = pre ++ e :: post
         ++ [{| query := q;
                feedback := or_else label
                              "user did not provide feedback like or dislike";
                comments := "user did not provide comments";
                timestamp := now' |}].
Proof.
  intros Hl Hpre He. split.
  - unfold record_comment. cbn [fst]. rewrite entries_of_insert, Hl.
    rewrite (attach_comment_first q c pre post e Hpre He), He. reflexivity.
  - intros now' label. rewrite record_feedback_appends, Hl.
    rewrite <- app_assoc. reflexivity.
Qed.
End Properties.

(** The flat decoder has the two facts. *)
Lemma scan_dict (st : FlatJson.pstate) (s : string) (v : pyval) :
  FlatJson.scan st s = JsonOk v -> exists d, v = PDict d.
Proof.
  revert st. induction s as [|c s IH]; intros st; cbn [FlatJson.scan].
  - destruct st; intros [= <-] || discriminate; eauto.
  - destruct st; repeat (match goal with
      | |- context [if ?b then _ else _] => destruct b
      end); try discriminate; apply IH.
Qed.

Lemma json_loads_flat_facts : json_facts json_loads_flat.
Proof.
  split.
  - intros rest v. apply scan_dict.
  - intros v. discriminate.
Qed.

(** ** The workflow on concrete turns *)

(** An intent label outside the path map makes the graph raise; the turn
    answers with the fixed apology. *)
Example process_query_unknown_intent (user_input now : string) :
  fst (fst (process_query (Demo.env Demo.offtopic_model Demo.no_engine)
              Demo.assistant0 world0 now user_input None))
  = {| qr_user_input := user_input;
       generated_sql_query := PStr "Error occurred";
       model_response :=
         "I encountered an error while processing your request. Please try again.";
       qr_intent := None; success := false; error := Some "'chitchat'" |}.
Proof. reflexivity. Qed.

Lemma walk_add (E : Env) (a b : nat) (n : Node) (r : Run) :
  walk E (a + b) n r
  = match walk E a n r with
    | (Ok (Some n'), r') => walk E b n' r'
    | other => other
    end.
Proof.
  revert n r. induction a as [|a IH]; intros n r; [reflexivity|].
  cbn [Nat.add walk]. unfold mbind, M_bind.
  destruct (step E n r) as [[[n'|]|e] r']; try reflexivity. apply IH.
Qed.

(** The dispatch loop and the walk agree: a run under a limit ends as the
    walk of that many executions does, and raises the library's exception
    when the walk has not passed [END] by then. *)
Lemma run_graph_walk (E : Env) (limit : nat) (n : Node) (r : Run) :
  run_graph E limit n r
  = match walk E limit n r with
    | (Ok (Some _), r') =>
        (Raise "Recursion limit reached without hitting a stop condition", r')
    | (Ok None, r') => (Ok tt, r')
    | (Raise e, r') => (Raise e, r')
    end.
Proof.
  revert n r. induction limit as [|limit IH]; intros n r; [reflexivity|].
  cbn [run_graph walk]. unfold mbind, M_bind.
  destruct (step E n r) as [[[n'|]|e] r']; try reflexivity. apply IH.
Qed.

Lemma walk_prefix (E : Env) (a b : nat) (n n' : Node) (r r' : Run) :
  walk E (a + b) n r = (Ok (Some n'), r') ->
  exists n'' r'', walk E a n r = (Ok (Some n''), r'').
Proof.
  rewrite walk_add. destruct (walk E a n r) as [[[n''|]|e] r'']; eauto;
    discriminate.
Qed.

(** One passage round the cycle with the stubborn model: the state comes
    back with [retry_count] unchanged. *)
Lemma stubborn_passage (err action : string) (w : World) :
  walk Demo.stubborn_env 3 N_generate_sql
    {| state := Demo.loop_state err action; world := w |}
  = (Ok (Some N_generate_sql),
     {| state := Demo.loop_state "No SQL query to execute" "retry";
        world :=
          {| llm_log :=
               ("Error: No SQL query to execute" +:+ LF +:+ "Query: ")
               :: ("Query: Show me incidents" +:+ LF +:+ "Schemas: === INCIDENTS ===")
               :: llm_log w;
             bq_log := bq_log w;
             sleep_log := 1 :: sleep_log w |} |}).
Proof. reflexivity. Qed.

(** C1, on the turn of a model that returns an empty completion when asked
    for SQL and recommends "retry" for every error.  After any number [k] of
    passages round generate_sql, execute, error_analyzer the walk is at
    generate_sql again, has paused [k] times, has never reached the engine,
    and [retry_count] is still 0, below the ceiling; under any limit [k] of
    the graph library the turn ends with the library's exception. *)
Theorem retry_cycle_without_progress (k : nat) :
  exists r,
    walk Demo.stubborn_env (2 + 3 * k) N_classify
      {| state := create_initial_state Demo.stubborn_env Demo.assistant0
                    "Show me incidents" None;
         world := world0 |}
    = (Ok (Some N_generate_sql), r)
    /\ retry_count (state r) = Some 0
    /\ 0 < max_retries Demo.stubborn_env
    /\ length (sleep_log (world r)) = k
    /\ bq_log (world r) = []
    /\ fst (run_graph Demo.stubborn_env k N_classify
              {| state := create_initial_state Demo.stubborn_env Demo.assistant0
                            "Show me incidents" None;
                 world := world0 |})
       = Raise "Recursion limit reached without hitting a stop condition".
Proof.
  set (E := Demo.stubborn_env).
  set (start := {| state := create_initial_state E _ _ _; world := world0 |}).
  assert (Inv : exists err action w,
             walk E (2 + 3 * k) N_classify start
             = (Ok (Some N_generate_sql),
                {| state := Demo.loop_state err action; world := w |})
             /\ length (sleep_log w) = k /\ bq_log w = []).
  { induction k as [|k (err & action & w & Hw & Hs & Hb)].
    - exists "", "", {| llm_log := ["History: " +:+ LF +:+ "Current input: Show me incidents"];
                         bq_log := []; sleep_log := [] |}.
      repeat split.
    - replace (2 + 3 * S k)%nat with ((2 + 3 * k) + 3)%nat by lia.
      rewrite walk_add, Hw. subst E. rewrite stubborn_passage.
      eexists _, _, _. split; [reflexivity|]. cbn. split; congruence. }
  destruct Inv as (err & action & w & Hw & Hs & Hb).
  eexists. split; [exact Hw|]. repeat split; try assumption.
  replace (2 + 3 * k)%nat with (k + (2 + 2 * k))%nat in Hw by lia.
  apply walk_prefix in Hw as (n'' & r'' & Hk).
  rewrite run_graph_walk, Hk. reflexivity.
Qed.

(** C3, on a turn whose model returns empty completions.  Whatever the
    input, [process_query] reports success with an empty [model_response]:
    the fallback text is not used, because the key [final_response] is
    present in the result with the empty text. *)
Theorem process_query_empty_answer (user_input now : string) :
  let res :=
    fst (fst (process_query Demo.silent_env Demo.assistant0 world0 now
                user_input None)) in
  success res = true
  /\ model_response res = ""
  /\ qr_intent res = Some (PStr "general").
Proof. repeat split. Qed.

(** ** Instances and counterexamples *)

Lemma error_analyzer_ceiling_witness :
  error_msg (Demo.failed_state 3) = Some "Invalid SQL: syntax error"
  /\ "Invalid SQL: syntax error" <> ""
  /\ max_retries (Demo.suggesting_env 3) <= default 0 (retry_count (Demo.failed_state 3))
  /\ analysis_action
       (state (snd (error_analyzer (Demo.suggesting_env 3)
                      {| state := Demo.failed_state 3; world := world0 |})))
     = Some "fail"
  /\ final_response
       (state (snd (error_analyzer (Demo.suggesting_env 3)
                      {| state := Demo.failed_state 3; world := world0 |})))
     = Some "Failed after 3 attempts: Invalid SQL: syntax error"
  /\ world (snd (error_analyzer (Demo.suggesting_env 3)
                   {| state := Demo.failed_state 3; world := world0 |}))
     = {| llm_log := []; bq_log := []; sleep_log := [] |}.
Proof.
  assert (H1 : error_msg (Demo.failed_state 3) = Some "Invalid SQL: syntax error")
    by reflexivity.
  assert (H2 : "Invalid SQL: syntax error" <> "") by (vm_compute; discriminate).
  assert (H3 : max_retries (Demo.suggesting_env 3)
               <= default 0 (retry_count (Demo.failed_state 3)))
    by (vm_compute; discriminate).
  refine (conj H1 (conj H2 (conj H3 _))).
  pose proof (error_analyzer_ceiling (Demo.suggesting_env 3) (Demo.failed_state 3)
                world0 _ H1 H2 H3) as H.
  cbv zeta in H. destruct H as (_ & Ha & Hf & Hw & _).
  exact (conj Ha (conj Hf Hw)).
Defined.

Lemma exponential_backoff_delay_witness :
  0 <= 2
  /\ exponential_backoff 2 {| state := Demo.failed_state 2; world := world0 |}
     = (Ok tt,
        {| state := Demo.failed_state 2;
           world := {| llm_log := []; bq_log := []; sleep_log := [4] |} |})
  /\ map backoff_delay [0; 1; 2; 3; 4] = [1; 2; 4; 8; 16]
  /\ (2 < 4 -> backoff_delay 2 = 2 ^ 2)
  /\ (4 <= 2 -> backoff_delay 2 = 16).
Proof.
  assert (H : 0 <= 2) by lia.
  split; [exact H|].
  exact (exponential_backoff_delay 2
           {| state := Demo.failed_state 2; world := world0 |} H).
Defined.

Lemma execute_sql_truncates_witness :
  sql_query (Demo.failed_state 0) = Some (PStr "SELEC number FROM incidents")
  /\ truthy (PStr "SELEC number FROM incidents") = true
  /\ user_prompt (Demo.failed_state 0) = Some "Show me incidents"
  /\ execute_query (Demo.suggesting_env 150) (length (bq_log world0))
       (PStr "SELEC number FROM incidents") = Ok (Some (Demo.frame 150))
  /\ df_columns (Demo.frame 150) <> []
  /\ (100 < df_len (Demo.frame 150))%nat
  /\ results
       (state (snd (execute_sql (Demo.suggesting_env 150)
                      {| state := Demo.failed_state 0; world := world0 |})))
     = Some (Demo.plain_table (Demo.frame 100) +:+ LF +:+ LF
             +:+ "(Showing first 100 rows of 150 total)")
  /\ error_msg
       (state (snd (execute_sql (Demo.suggesting_env 150)
                      {| state := Demo.failed_state 0; world := world0 |})))
     = Some "".
Proof.
  assert (H1 : sql_query (Demo.failed_state 0)
               = Some (PStr "SELEC number FROM incidents")) by reflexivity.
  assert (H2 : truthy (PStr "SELEC number FROM incidents") = true) by reflexivity.
  assert (H3 : user_prompt (Demo.failed_state 0) = Some "Show me incidents")
    by reflexivity.
  assert (H4 : execute_query (Demo.suggesting_env 150) (length (bq_log world0))
                 (PStr "SELEC number FROM incidents") = Ok (Some (Demo.frame 150)))
    by reflexivity.
  assert (H5 : df_columns (Demo.frame 150) <> []) by (vm_compute; discriminate).
  assert (H6 : (100 < df_len (Demo.frame 150))%nat) by (vm_compute; lia).
  repeat (split; [assumption|]).
  pose proof (execute_sql_truncates (Demo.suggesting_env 150) (Demo.failed_state 0)
                world0 _ _ _ H1 H2 H3 H4 H5 H6) as H.
  cbv zeta in H. destruct H as (_ & _ & _ & Hres & _ & Herr & _).
  split; [exact Hres|exact Herr].
Defined.

Lemma execute_sql_no_rows_witness :
  sql_query (Demo.failed_state 0) = Some (PStr "SELEC number FROM incidents")
  /\ truthy (PStr "SELEC number FROM incidents") = true
  /\ execute_query (Demo.suggesting_env 0) (length (bq_log world0))
       (PStr "SELEC number FROM incidents") = Ok (Some (Demo.frame 0))
  /\ df_len (Demo.frame 0) = 0%nat
  /\ final_response
       (state (snd (execute_sql (Demo.suggesting_env 0)
                      {| state := Demo.failed_state 0; world := world0 |})))
     = Some "No data found matching your query."
  /\ error_msg
       (state (snd (execute_sql (Demo.suggesting_env 0)
                      {| state := Demo.failed_state 0; world := world0 |})))
     = Some ""
  /\ retry_count
       (state (snd (execute_sql (Demo.suggesting_env 0)
                      {| state := Demo.failed_state 0; world := world0 |})))
     = Some 0.
Proof.
  assert (H1 : sql_query (Demo.failed_state 0)
               = Some (PStr "SELEC number FROM incidents")) by reflexivity.
  assert (H2 : truthy (PStr "SELEC number FROM incidents") = true) by reflexivity.
  assert (H3 : execute_query (Demo.suggesting_env 0) (length (bq_log world0))
                 (PStr "SELEC number FROM incidents") = Ok (Some (Demo.frame 0)))
    by reflexivity.
  assert (H4 : df_len (Demo.frame 0) = 0%nat) by reflexivity.
  refine (conj H1 (conj H2 (conj H3 (conj H4 _)))).
  pose proof (execute_sql_no_rows (Demo.suggesting_env 0) (Demo.failed_state 0)
                world0 _ _ H1 H2 H3 H4) as H.
  cbv zeta in H. destruct H as (_ & Hf & He & _ & Hr & _).
  exact (conj Hf (conj He Hr)).
Defined.

Lemma parse_json_response_spec_witness :
  json_facts (json_loads Demo.silent_env)
  /\ parse_json_response Demo.silent_env Demo.chatty_reply
     = PDict [("action", PStr "retry"); ("suggested_sql", PStr "SELECT 1")]
  /\ parse_json_response Demo.silent_env "not json at all"
     = PDict [("error", PStr "No JSON found in response")]
  /\ parse_json_response Demo.silent_env Demo.padded_reply
     = PDict [("error", PStr "Invalid JSON"); ("raw_response", PStr "{oops}")].
Proof.
  assert (H : json_facts (json_loads Demo.silent_env))
    by exact json_loads_flat_facts.
  split; [exact H|].
  pose proof (parse_json_response_spec Demo.silent_env Demo.chatty_reply H) as H1.
  pose proof (parse_json_response_spec Demo.silent_env "not json at all" H) as H2.
  pose proof (parse_json_response_spec Demo.silent_env Demo.padded_reply H) as H3.
  cbv zeta in H1, H2, H3.
  destruct H1 as (_ & _ & H1 & _). destruct H2 as (_ & _ & _ & H2).
  destruct H3 as (_ & _ & H3 & _).
  split; [|split; [exact (H2 eq_refl)|]].
  - destruct (H1 eq_refl) as (i & j & Hi & Hj & Hd).
    vm_compute in Hi, Hj. injection Hi as <-. injection Hj as <-. exact Hd.
  - destruct (H3 eq_refl) as (i & j & Hi & Hj & Hd).
    vm_compute in Hi, Hj. injection Hi as <-. injection Hj as <-. exact Hd.
Defined.

(** The parser does not answer with the first brace-delimited object of a
    reply that holds two: the text it decodes runs to the last closing
    brace, and the decoder rejects it. *)
Lemma first_object_not_decoded :
  spec_first_object (strip Demo.two_objects)
  = Some ("{" +:+ quoted "a" +:+ ": " +:+ quoted "b" +:+ "}")
  /\ json_loads Demo.silent_env ("{" +:+ quoted "a" +:+ ": " +:+ quoted "b" +:+ "}")
     = JsonOk (PDict [("a", PStr "b")])
  /\ parse_json_response Demo.silent_env Demo.two_objects
     = PDict [("error", PStr "Invalid JSON");
              ("raw_response", PStr Demo.two_objects)]
  /\ ~ spec_decodes_first_object Demo.silent_env.
Proof.
  repeat split.
  intros H. specialize (H Demo.two_objects _ _ eq_refl eq_refl). discriminate H.
Qed.

Lemma update_history_empty_reply_witness :
  user_prompt (create_initial_state Demo.silent_env Demo.assistant0 "Hi there!" None)
  = Some "Hi there!"
  /\ messages (create_initial_state Demo.silent_env Demo.assistant0 "Hi there!" None)
     = Some []
  /\ final_response
       (create_initial_state Demo.silent_env Demo.assistant0 "Hi there!" None)
     = Some ""
  /\ messages
       (state (snd (update_history
          {| state := create_initial_state Demo.silent_env Demo.assistant0
                        "Hi there!" None;
             world := world0 |})))
     = Some [{| user := "Hi there!"; bot := "" |}].
Proof.
  repeat (split; [reflexivity|]).
  rewrite (update_history_empty_reply
             (create_initial_state Demo.silent_env Demo.assistant0 "Hi there!" None)
             world0 "Hi there!" [] eq_refl eq_refl eq_refl).
  reflexivity.
Defined.

Lemma record_comment_updates_first_witness :
  entries_of Demo.two_entries "u1"
  = [Demo.liked "How many incidents?" "t0"]
    ++ Demo.liked "Show critical problems" "t1" :: []
  /\ Forall (fun x => query x <> "Show critical problems")
       [Demo.liked "How many incidents?" "t0"]
  /\ query (Demo.liked "Show critical problems" "t1") = "Show critical problems"
  /\ entries_of
       (fst (record_comment Demo.two_entries "t2" "u1" "Show critical problems"
               "wrong table")) "u1"
     = [Demo.liked "How many incidents?" "t0";
        {| query := "Show critical problems"; feedback := "like";
           comments := "wrong table"; timestamp := "t1" |}]
  /\ entries_of
       (fst (record_feedback Demo.two_entries "t2" "u1" "Show critical problems"
               "dislike")) "u1"
     = [Demo.liked "How many incidents?" "t0";
        Demo.liked "Show critical problems" "t1";
        {| query := "Show critical problems"; feedback := "dislike";
           comments := "user did not provide comments"; timestamp := "t2" |}].
Proof.
  assert (H1 : entries_of Demo.two_entries "u1"
               = [Demo.liked "How many incidents?" "t0"]
                 ++ Demo.liked "Show critical problems" "t1" :: [])
    by (vm_compute; reflexivity).
  assert (H2 : Forall (fun x => query x <> "Show critical problems")
                 [Demo.liked "How many incidents?" "t0"])
    by (repeat constructor; vm_compute; discriminate).
  assert (H3 : query (Demo.liked "Show critical problems" "t1")
               = "Show critical problems") by reflexivity.
  repeat (split; [assumption|]).
  destruct (record_comment_updates_first Demo.two_entries "t2" "u1"
              "Show critical problems" "wrong table" _ _ _ H1 H2 H3) as [Hc Hf].
  split; [exact Hc|exact (Hf "t2" "dislike")].
Defined.

(** Recording a feedback label twice for one query text leaves two entries
    with that text. *)
Lemma record_feedback_twice_duplicates :
  map query
    (entries_of
       (fst (record_feedback
               (fst (record_feedback Demo.assistant0 "t0" "u1"
                       "How many incidents?" "like"))
               "t1" "u1" "How many incidents?" "dislike")) "u1")
  = ["How many incidents?"; "How many incidents?"]
  /\ ~ spec_feedback_not_duplicated.
Proof.
  split.
  - rewrite !record_feedback_appends. reflexivity.
  - intros H.
    specialize (H (fst (record_feedback Demo.assistant0 "t0" "u1"
                          "How many incidents?" "like"))
                  "t1" "u1" "How many incidents?" "dislike").
    rewrite !record_feedback_appends in H.
    change (entries_of Demo.assistant0 "u1") with (@nil FeedbackEntry) in H.
    assert (Hex : Exists (fun e => query e = "How many incidents?")
                    ([] ++ [Demo.liked "How many incidents?" "t0"]))
      by (constructor; reflexivity).
    specialize (H Hex). cbn in H. discriminate H.
Qed.



(** ** Further properties of the nodes *)

Ltac unfold_nodes :=
  unfold create_nodes, classify_intent, general_response, retrieve_schemas,
    generate_sql, execute_sql, error_analyzer, update_history, no_data,
    invoke_llm, bq_execute, exponential_backoff;
  cbv beta delta
    [mbind mret M_bind M_ret try_except lift get index assign pass sleep
     state world key_error] iota zeta.

Ltac simp_state :=
  cbn [user_prompt intent rephrased_prompt relevant_schemas sql_query results
       final_response error_msg analysis analysis_action retry_count messages
       set_intent set_rephrased_prompt set_relevant_schemas set_sql_query
       set_results set_final_response set_error_msg set_analysis
       set_analysis_action set_retry_count set_messages
       state world llm_log bq_log sleep_log fst snd] in *.

Ltac split_cases :=
  repeat (simp_state; match goal with
  | |- context [match ?x with _ => _ end] =>
      lazymatch x with
      | context [match _ with _ => _ end] => fail
      | _ => destruct x eqn:?
      end
  end).

Ltac finish :=
  simp_state; subst;
  repeat match goal with
  | H : ?x = _, H' : context [?x] |- _ => rewrite H in H'
  end;
  cbn in *; try congruence; try discriminate; auto.

(** X1.  A node returns normally whenever the state holds a user prompt;
    retrieve, generate_sql, execute, error_analyzer and update_history
    return normally on every state. *)
Theorem nodes_never_raise (E : Env) (n : Node) (r : Run) :
  user_prompt (state r) <> None \/ (n <> N_classify /\ n <> N_general) ->
  fst (create_nodes E n r) = Ok tt.
Proof.
  destruct r as [s w]. intros [Hup|[Hc Hg]];
    destruct n; try congruence; unfold_nodes; split_cases; finish.
Qed.

(** X2.  On a state without the key user_prompt, classify_intent raises the
    KeyError of that key out of its handler, after the handler has set
    intent to "general" (the rephrased prompt and the world are as they
    were); general_response raises it with state and world untouched.
    Neither reaches the model. *)
Theorem missing_user_prompt_raises (E : Env) (s : AgentState) (w : World) :
  user_prompt s = None ->
  let r1 := snd (classify_intent E {| state := s; world := w |}) in
  fst (classify_intent E {| state := s; world := w |}) = Raise "'user_prompt'"
  /\ intent (state r1) = Some (PStr "general")
  /\ rephrased_prompt (state r1) = rephrased_prompt s
  /\ world r1 = w
  /\ general_response E {| state := s; world := w |}
     = (Raise "'user_prompt'", {| state := s; world := w |}).
Proof.
  intros Hup r1. subst r1.
  assert (Hc : classify_intent E {| state := s; world := w |}
               = (Raise "'user_prompt'",
                  {| state := set_intent (PStr "general") s; world := w |})).
  { unfold_nodes; rewrite Hup; simp_state; rewrite ?Hup; reflexivity. }
  rewrite Hc. simp_state. repeat split.
  unfold_nodes; rewrite Hup; simp_state; rewrite ?Hup; reflexivity.
Qed.

Lemma classify_intent_no_answer (E : Env) (s : AgentState) (w : World)
    (up : string) :
  user_prompt s = Some up ->
  no_answer E w
    (get_classify_prompt E (history_str (default [] (messages s))) up)
    (fun reply =>
       exists d, parse_json_response E reply = PDict d
                 /\ (assoc "intent" d <> None \/ assoc "rephrased" d <> None)) ->
  exists w',
    classify_intent E {| state := s; world := w |}
    = (Ok tt,
       {| state := set_rephrased_prompt (PStr up) (set_intent (PStr "general") s);
          world := w' |})
    /\ bq_log w' = bq_log w /\ sleep_log w' = sleep_log w.
Proof.
  intros Hup Hno. unfold no_answer in Hno. unfold_nodes. rewrite Hup.
  destruct (get_classify_prompt E _ up) as [p|e]; simp_state;
    rewrite ?Hup; [|eexists; (split; [reflexivity|split; reflexivity])].
  destruct (llm_invoke E (length (llm_log w)) p) as [reply|e]; simp_state;
    rewrite ?Hup; [|eexists; (split; [reflexivity|split; reflexivity])].
  destruct (parse_json_response E reply) as [| | | | | |d] eqn:Hp;
    cbn [dict_get]; simp_state; rewrite ?Hup; try (eexists; (split; [reflexivity|split; reflexivity])).
  destruct (assoc "intent" d) eqn:Hi.
  { destruct Hno. exists d. split; [reflexivity|]. left. congruence. }
  destruct (assoc "rephrased" d) eqn:Hr.
  { destruct Hno. exists d. split; [reflexivity|]. right. congruence. }
  cbn. eexists. split; [reflexivity|split; reflexivity].
Qed.

(** X3.  When the classification prompt does not render, the model call
    raises, or the parsed reply is not an object with an "intent" or a
    "rephrased" member (no JSON found, invalid JSON, another object),
    classify_intent returns normally with intent equal to "general" and the
    rephrased prompt equal to the raw input; the query, the final response,
    the error and the count stay as they were, and neither the engine is
    asked nor a pause taken. *)
Theorem classify_intent_fallback (E : Env) (s : AgentState) (w : World)
    (up : string) :
  user_prompt s = Some up ->
  no_answer E w
    (get_classify_prompt E (history_str (default [] (messages s))) up)
    (fun reply =>
       exists d, parse_json_response E reply = PDict d
                 /\ (assoc "intent" d <> None \/ assoc "rephrased" d <> None)) ->
  let r' := snd (classify_intent E {| state := s; world := w |}) in
  fst (classify_intent E {| state := s; world := w |}) = Ok tt
  /\ intent (state r') = Some (PStr "general")
  /\ rephrased_prompt (state r') = Some (PStr up)
  /\ user_prompt (state r') = Some up
  /\ sql_query (state r') = sql_query s
  /\ final_response (state r') = final_response s
  /\ error_msg (state r') = error_msg s
  /\ retry_count (state r') = retry_count s
  /\ bq_log (world r') = bq_log w
  /\ sleep_log (world r') = sleep_log w.
Proof.
  intros Hup Hno r'. subst r'.
  destruct (classify_intent_no_answer E s w up Hup Hno) as (w' & -> & Hb & Hs).
  simp_state. repeat split; assumption.
Qed.

Lemma general_response_no_answer (E : Env) (s : AgentState) (w : World)
    (up : string) :
  user_prompt s = Some up ->
  no_answer E w
    (get_general_response_prompt E (history_str (default [] (messages s))) up)
    (fun _ => True) ->
  exists w',
    general_response E {| state := s; world := w |}
    = (Ok tt,
       {| state :=
            set_final_response
              (if existsb (fun greeting => contains greeting (lower E up))
                    ["hi"; "hello"; "hey"]
               then greeting_reply else capability_reply) s;
          world := w' |})
    /\ bq_log w' = bq_log w /\ sleep_log w' = sleep_log w.
Proof.
  intros Hup Hno. unfold no_answer in Hno. unfold_nodes. rewrite Hup.
  destruct (get_general_response_prompt E _ up) as [p|e]; simp_state;
    rewrite ?Hup.
  - destruct (llm_invoke E (length (llm_log w)) p) as [reply|e]; simp_state;
      rewrite ?Hup; [destruct Hno; exact I|].
    destruct (existsb _ _); eexists; (split; [reflexivity|split; reflexivity]).
  - destruct (existsb _ _); eexists; (split; [reflexivity|split; reflexivity]).
Qed.

(** X4.  When the prompt of general_response does not render or the model
    call raises, general_response returns normally and the final response
    is the canned greeting if the lower-cased input contains "hi", "hello"
    or "hey" anywhere, and the canned capability statement otherwise; every
    other key of the state is as it was.  On ASCII input the lower-casing
    is that of A-Z. *)
Theorem general_response_fallback (E : Env) (s : AgentState) (w : World)
    (up : string) :
  user_prompt s = Some up ->
  no_answer E w
    (get_general_response_prompt E (history_str (default [] (messages s))) up)
    (fun _ => True) ->
  fst (general_response E {| state := s; world := w |}) = Ok tt
  /\ state (snd (general_response E {| state := s; world := w |}))
     = {| user_prompt := Some up; intent := intent s;
          rephrased_prompt := rephrased_prompt s;
          relevant_schemas := relevant_schemas s;
          sql_query := sql_query s; results := results s;
          final_response :=
            Some (if existsb (fun greeting => contains greeting (lower E up))
                       ["hi"; "hello"; "hey"]
                  then "Hello! I'm your H&M data assistant. How can I help you with incident or problem data today?"
                  else "I can help you query and analyze your H&M incident and problem data. What would you like to know?");
          error_msg := error_msg s; analysis := analysis s;
          analysis_action := analysis_action s;
          retry_count := retry_count s; messages := messages s |}
  /\ (is_ascii up = true -> lower E up = ascii_lower up).
Proof.
  intros Hup Hno.
  destruct (general_response_no_answer E s w up Hup Hno) as (w' & -> & _).
  split; [reflexivity|]. split.
  - unfold set_final_response. cbn [snd state]. rewrite Hup.
    destruct (existsb _ _); reflexivity.
  - intros Ha. unfold lower. rewrite Ha. reflexivity.
Qed.

(** *** The clean-up of generated SQL *)

(** X5.  Whatever the model replied, the query generate_sql stores holds no
    code-fence marker, and neither starts nor ends with a white-space code
    point: none of those str.strip() removes, in or beyond ASCII. *)
Theorem clean_sql_no_fence (response : string) :
  contains "```" (clean_sql response) = false
  /\ Forall (fun ws => starts_with ws (clean_sql response) = false
                       /\ ends_with ws (clean_sql response) = false)
       (map bytes
          [[9]; [10]; [11]; [12]; [13]; [28]; [29]; [30]; [31]; [32];
           [194; 133]; [194; 160]; [225; 154; 128];
           [226; 128; 128]; [226; 128; 129]; [226; 128; 130]; [226; 128; 131];
           [226; 128; 132]; [226; 128; 133]; [226; 128; 134]; [226; 128; 135];
           [226; 128; 136]; [226; 128; 137]; [226; 128; 138];
           [226; 128; 168]; [226; 128; 169]; [226; 128; 175];
           [226; 129; 159]; [227; 128; 128]]%nat).
Proof.
  assert (Hne : "```" <> "") by discriminate.
  change (map bytes _) with whitespace.
  unfold clean_sql. cbv zeta.
  destruct (contains "```sql" (strip response)) eqn:Hsql.
  - split; [|apply strip_no_space]. apply strip_clean, split_head_clean, Hne.
  - destruct (contains "```" (strip response)) eqn:Hf.
    + split; [|apply strip_no_space]. apply strip_clean.
      unfold split_second. destruct (find "```" (strip response)); [|reflexivity].
      cbn [default from_option id]. apply split_head_clean, Hne.
    + split; [exact Hf|apply strip_no_space].
Qed.

(** *** Execution and diagnosis *)

(** What a result of one to one hundred rows leaves. *)
Lemma whole_table_outcome (E : Env) (s : AgentState) (w : World)
    (q : pyval) (d : DataFrame) (up : string) :
  sql_query s = Some q ->
  truthy q = true ->
  user_prompt s = Some up ->
  execute_query E (length (bq_log w)) q = Ok (Some d) ->
  df_empty d = false ->
  (df_len d <= 100)%nat ->
  execute_sql E {| state := s; world := w |}
  = (Ok tt,
     {| state :=
          set_error_msg ""
            (set_final_response
               ("Results for '" +:+ up +:+ "':" +:+ LF +:+ to_markdown E d)
               (set_results (to_markdown E d) s));
        world := {| llm_log := llm_log w; bq_log := q :: bq_log w;
                    sleep_log := sleep_log w |} |}).
Proof.
  intros Hq Ht Hup Hbq Hne Hlen. rewrite (execute_sql_runs E s w q Hq Ht).
  unfold_nodes. rewrite Hbq, Hne. cbn [negb].
  apply Nat.ltb_ge in Hlen. rewrite Hlen. simp_state. rewrite Hup. reflexivity.
Qed.

(** X6.  A result of one to one hundred rows is shown whole:
    [execute_sql] returns normally with [results] equal to the rendering of
    the full frame, without a note, [final_response] equal to the "Results
    for" heading and that rendering, and [error_msg] empty; the retry count
    is as it was and the query is the one sent to the engine.  The boundary
    of truncation lies above 100 rows. *)
Theorem execute_sql_whole_table (E : Env) (s : AgentState) (w : World)
    (q : pyval) (d : DataFrame) (up : string) :
  sql_query s = Some q ->
  truthy q = true ->
  user_prompt s = Some up ->
  execute_query E (length (bq_log w)) q = Ok (Some d) ->
  df_empty d = false ->
  (df_len d <= 100)%nat ->
  let r' := snd (execute_sql E {| state := s; world := w |}) in
  fst (execute_sql E {| state := s; world := w |}) = Ok tt
  /\ results (state r') = Some (to_markdown E d)
  /\ final_response (state r')
     = Some ("Results for '" +:+ up +:+ "':" +:+ LF +:+ to_markdown E d)
  /\ error_msg (state r') = Some ""
  /\ retry_count (state r') = retry_count s
  /\ bq_log (world r') = q :: bq_log w.
Proof.
  intros Hq Ht Hup Hbq Hne Hlen r'. subst r'.
  rewrite (whole_table_outcome E s w q d up Hq Ht Hup Hbq Hne Hlen).
  simp_state. repeat split.
Qed.

(** X9.  Whatever the model does, error_analyzer leaves an action the
    conditional edge knows: the edge never raises and leads to generate_sql
    or to update_history; it leads back to generate_sql only from a state
    with a non-empty error message and a retry count below max_retries. *)
Theorem error_analyzer_edge (E : Env) (r : Run) :
  exists n,
    edges N_error_analyzer (state (snd (error_analyzer E r))) = Ok (Some n)
    /\ (n = N_generate_sql \/ n = N_update_history)
    /\ (n = N_generate_sql ->
        default 0 (retry_count (state r)) < max_retries E
        /\ exists msg, error_msg (state r) = Some msg /\ msg <> "").
Proof.
  destruct r as [s w]. unfold_nodes. split_cases; simp_state;
    (eexists; split; [reflexivity|]; split; [auto|]);
    try discriminate; intros _.
  all: match goal with
       | H : (max_retries _ <=? _) = false |- _ => apply Z.leb_gt in H
       end.
  all: split; [assumption|].
  all: match goal with
       | |- exists msg, Some ?m = Some msg /\ _ =>
           exists m; split; [reflexivity|]; intros ->; discriminate
       end.
Qed.

(** X10.  When the diagnosis prompt does not render or the model call
    raises, error_analyzer returns normally with analysis_action equal to
    "fail" and final_response equal to "An unexpected error occurred:
    <error>"; the error, the count, the query and the analysis are as they
    were, the engine is not asked and no pause is taken. *)
Theorem error_analyzer_model_failure (E : Env) (s : AgentState) (w : World)
    (msg : string) (q : pyval) :
  error_msg s = Some msg ->
  msg <> "" ->
  default 0 (retry_count s) < max_retries E ->
  sql_query s = Some q ->
  no_answer E w (get_error_analysis_prompt E msg q) (fun _ => True) ->
  let r' := snd (error_analyzer E {| state := s; world := w |}) in
  fst (error_analyzer E {| state := s; world := w |}) = Ok tt
  /\ analysis_action (state r') = Some "fail"
  /\ final_response (state r') = Some ("An unexpected error occurred: " +:+ msg)
  /\ error_msg (state r') = Some msg
  /\ retry_count (state r') = retry_count s
  /\ sql_query (state r') = Some q
  /\ analysis (state r') = analysis s
  /\ bq_log (world r') = bq_log w
  /\ sleep_log (world r') = sleep_log w.
Proof.
  intros Hmsg Hne Hrc Hq Hno r'. subst r'. unfold no_answer in Hno. unfold_nodes.
  rewrite Hmsg. cbn [from_option].
  destruct (String.eqb_spec msg "") as [->|_]; [congruence|]. cbn [negb].
  apply Z.leb_gt in Hrc. rewrite Hrc. rewrite Hmsg, Hq.
  destruct (get_error_analysis_prompt E msg q) as [p|e]; simp_state;
    rewrite ?Hmsg; simp_state; [|repeat split; assumption].
  destruct (llm_invoke E (length (llm_log w)) p) as [reply|e]; simp_state;
    rewrite ?Hmsg; simp_state; [destruct Hno; exact I|repeat split; assumption].
Qed.

Lemma diagnosed_run (E : Env) (s : AgentState) (w : World) (msg : string)
    (d : list (string * pyval)) :
  diagnosed E s w msg d ->
  exists p,
    error_analyzer E {| state := s; world := w |}
    = try_except
      (let parsed := PDict d in
       a ← lift (dict_get parsed "analysis" (PStr ""));
       assign (set_analysis a);;
       action ← lift (dict_get parsed "action" (PStr "fail"));
       if str_eq action "retry" then
         assign (set_analysis_action "retry");;
         match dict_lookup parsed "suggested_sql" with
         | Some suggested => assign (set_sql_query suggested)
         | None => pass
         end;;
         n ← index "retry_count" retry_count;
         exponential_backoff n
       else if str_eq action "rephrase" then
         assign (set_analysis_action "rephrase")
       else if str_eq action "ask_user" then
         assign (set_analysis_action "ask_user");;
         msg' ← index "error_msg" error_msg;
         assign (set_final_response
           ("Error: " +:+ msg' +:+ ". Could you please clarify your question?"))
       else
         assign (set_analysis_action "fail");;
         msg' ← index "error_msg" error_msg;
         assign (set_final_response
           ("Unable to process your request: " +:+ msg')))
      (fun _ =>
       assign (set_analysis_action "fail");;
       msg ← index "error_msg" error_msg;
       assign (set_final_response ("An unexpected error occurred: " +:+ msg)))
      {| state := s;
         world := {| llm_log := p :: llm_log w; bq_log := bq_log w;
                     sleep_log := sleep_log w |} |}.
Proof.
  intros (Hmsg & Hne & Hrc & q & p & reply & Hq & Hp & Hllm & Hparse).
  exists p. unfold error_analyzer at 1.
  cbv beta delta
    [mbind mret M_bind M_ret try_except lift get index assign pass sleep
     state world key_error invoke_llm] iota zeta.
  rewrite Hmsg. cbn [from_option].
  destruct (String.eqb_spec msg "") as [->|_]; [congruence|]. cbn [negb].
  apply Z.leb_gt in Hrc. rewrite Hrc. rewrite Hmsg, Hq, Hp, Hllm, Hparse.
  cbn [dict_get dict_lookup]. simp_state.
  destruct (str_eq (default (PStr "fail") (assoc "action" d)) "retry") eqn:H1.
  - destruct (assoc "suggested_sql" d); simp_state;
      destruct (retry_count s) eqn:Hr; simp_state; rewrite ?Hmsg; reflexivity.
  - destruct (str_eq (default (PStr "fail") (assoc "action" d)) "rephrase");
      [reflexivity|].
    destruct (str_eq (default (PStr "fail") (assoc "action" d)) "ask_user");
      simp_state; rewrite Hmsg; reflexivity.
Qed.

(** X11.  An action the code does not know (also a missing one, as in the
    sentinel of an unparsable reply) counts as "fail": error_analyzer
    returns normally with analysis_action equal to "fail", final_response
    equal to "Unable to process your request: <error>" and analysis equal
    to the reply's "analysis" member or the empty text; the query and the
    count are as they were, and there is no pause. *)
Theorem error_analyzer_unknown_action (E : Env) (s : AgentState) (w : World)
    (msg : string) (d : list (string * pyval)) :
  diagnosed E s w msg d ->
  str_eq (default (PStr "fail") (assoc "action" d)) "retry" = false ->
  str_eq (default (PStr "fail") (assoc "action" d)) "rephrase" = false ->
  str_eq (default (PStr "fail") (assoc "action" d)) "ask_user" = false ->
  let r' := snd (error_analyzer E {| state := s; world := w |}) in
  fst (error_analyzer E {| state := s; world := w |}) = Ok tt
  /\ analysis_action (state r') = Some "fail"
  /\ final_response (state r')
     = Some ("Unable to process your request: " +:+ msg)
  /\ analysis (state r') = Some (default (PStr "") (assoc "analysis" d))
  /\ sql_query (state r') = sql_query s
  /\ retry_count (state r') = retry_count s
  /\ bq_log (world r') = bq_log w
  /\ sleep_log (world r') = sleep_log w.
Proof.
  intros Hd H1 H2 H3 r'. subst r'.
  destruct (diagnosed_run E s w msg d Hd) as [p ->].
  destruct Hd as (Hmsg & _). unfold_nodes. cbn [dict_get].
  rewrite H1, H2, H3. simp_state. rewrite Hmsg. simp_state. repeat split.
Qed.

(** X12.  On "rephrase" error_analyzer changes nothing but analysis and
    analysis_action: a suggested query in the same reply is ignored, no
    pause is taken, and the edge leads back to generate_sql with the query,
    the rephrased prompt and the schemas it had before. *)
Theorem error_analyzer_rephrase (E : Env) (s : AgentState) (w : World)
    (msg : string) (d : list (string * pyval)) :
  diagnosed E s w msg d ->
  assoc "action" d = Some (PStr "rephrase") ->
  fst (step E N_error_analyzer {| state := s; world := w |})
  = Ok (Some N_generate_sql)
  /\ state (snd (step E N_error_analyzer {| state := s; world := w |}))
     = set_analysis_action "rephrase"
         (set_analysis (default (PStr "") (assoc "analysis" d)) s)
  /\ sleep_log (world (snd (step E N_error_analyzer {| state := s; world := w |})))
     = sleep_log w.
Proof.
  intros Hd Ha. unfold step.
  cbv beta delta [mbind M_bind get lift state] iota zeta. cbn [create_nodes].
  destruct (diagnosed_run E s w msg d Hd) as [p ->].
  unfold_nodes. cbn [dict_get]. rewrite Ha. cbn. repeat split.
Qed.

(** X13.  On a state whose retry count is not negative, error_analyzer
    pauses at most once, and only when it decides "retry": the pause is the
    back-off for the retry count of the state, between 1 and 16 time units,
    and the count is below max_retries. *)
Theorem error_analyzer_pause (E : Env) (r : Run) :
  0 <= default 0 (retry_count (state r)) ->
  sleep_log (world (snd (error_analyzer E r))) = sleep_log (world r)
  \/ exists n,
       retry_count (state r) = Some n
       /\ n < max_retries E
       /\ analysis_action (state (snd (error_analyzer E r))) = Some "retry"
       /\ sleep_log (world (snd (error_analyzer E r)))
          = backoff_delay n :: sleep_log (world r)
       /\ 1 <= backoff_delay n <= 16.
Proof.
  destruct r as [s w]. intros Hnn. revert Hnn. unfold_nodes.
  split_cases; simp_state; intros Hnn; try (left; reflexivity).
  all: right; eexists; split; [reflexivity|].
  all: match goal with
       | H : (max_retries _ <=? _) = false |- _ => apply Z.leb_gt in H
       end.
  all: cbn [default from_option id] in Hnn.
  all: repeat split; try assumption; unfold backoff_delay;
    try apply Z.le_min_r.
  all: apply Z.min_glb; [|lia].
  all: match goal with
       | |- 1 <= 2 ^ ?n =>
           assert (0 < 2 ^ n) by (apply Z.pow_pos_nonneg; lia); lia
       end.
Qed.

(** X14.  When the key final_response is absent, the entry update_history
    appends carries the default text; when the key messages is absent, the
    list is created first. *)
Theorem update_history_absent_keys (s : AgentState) (w : World) (up : string) :
  user_prompt s = Some up ->
  final_response s = None ->
  update_history {| state := s; world := w |}
  = (Ok tt,
     {| state :=
          set_messages
            (default [] (messages s)
             ++ [{| user := up; bot := "No response generated" |}]) s;
        world := w |}).
Proof.
  intros Hup Hf. rewrite (update_history_appends s w up Hup), Hf. reflexivity.
Qed.

(** ** Invariants of a turn *)

Lemma step_spec (E : Env) (n : Node) (r : Run) :
  step E n r
  = (match fst (create_nodes E n r) with
     | Ok _ => edges n (state (snd (create_nodes E n r)))
     | Raise e => Raise e
     end,
     snd (create_nodes E n r)).
Proof.
  unfold step. cbv beta delta [mbind M_bind get lift] iota zeta.
  destruct (create_nodes E n r) as [[[]|e] r']; reflexivity.
Qed.

Lemma walk_S (E : Env) (k : nat) (n : Node) (r : Run) :
  walk E (S k) n r
  = match step E n r with
    | (Ok (Some n'), r') => walk E k n' r'
    | (Ok None, r') => (Ok None, r')
    | (Raise e, r') => (Raise e, r')
    end.
Proof.
  cbn [walk]. unfold mbind, M_bind.
  destruct (step E n r) as [[[n'|]|e] r']; reflexivity.
Qed.

(** A property kept by every node is kept by every walk. *)
Lemma walk_invariant (E : Env) (P : Run -> Prop) :
  (forall n r, P r -> P (snd (create_nodes E n r))) ->
  forall k n r, P r -> P (snd (walk E k n r)).
Proof.
  intros Hnode. induction k as [|k IH]; intros n r Hr; [exact Hr|].
  rewrite walk_S, step_spec.
  specialize (Hnode n r Hr).
  destruct (fst (create_nodes E n r)); [|exact Hnode].
  destruct (edges n _) as [[n'|]|e]; [apply IH| |]; exact Hnode.
Qed.

(** The same for a property that depends on the node about to run. *)
Lemma walk_invariant_at (E : Env) (I : Node -> Run -> Prop) (Q : Run -> Prop) :
  (forall n r, I n r -> Q r) ->
  (forall n r, I n r -> Q (snd (create_nodes E n r))) ->
  (forall n n' r,
     I n r -> edges n (state (snd (create_nodes E n r))) = Ok (Some n') ->
     I n' (snd (create_nodes E n r))) ->
  forall k n r, I n r -> Q (snd (walk E k n r)).
Proof.
  intros HQ Hnode Hedge. induction k as [|k IH]; intros n r Hr; [eapply HQ, Hr|].
  rewrite walk_S, step_spec.
  pose proof (Hnode n r Hr) as Hq.
  destruct (fst (create_nodes E n r)); [|exact Hq].
  destruct (edges n _) as [[n'|]|e] eqn:He; [|exact Hq..].
  apply IH. eapply Hedge; eassumption.
Qed.

Lemma run_graph_snd (E : Env) (limit : nat) (n : Node) (r : Run) :
  snd (run_graph E limit n r) = snd (walk E limit n r).
Proof.
  rewrite run_graph_walk. destruct (walk E limit n r) as [[[n'|]|e] r'];
    reflexivity.
Qed.

Lemma process_query_world (E : Env) (self : DataAssistant) (w : World)
    (now user_input : string) (user_id : option string) :
  snd (process_query E self w now user_input user_id)
  = world (snd (walk E (recursion_limit E) N_classify
                  {| state := create_initial_state E self user_input user_id;
                     world := w |})).
Proof.
  unfold process_query, invoke. rewrite <- run_graph_snd.
  destruct (run_graph E _ _ _) as [[[]|e] r']; reflexivity.
Qed.

Lemma node_keeps (E : Env) (n : Node) (r : Run) :
  user_prompt (state (snd (create_nodes E n r))) = user_prompt (state r)
  /\ (retry_count (state (snd (create_nodes E n r))) = retry_count (state r)
      \/ (n = N_execute
          /\ retry_count (state (snd (create_nodes E n r)))
             = Some (default 0 (retry_count (state r)) + 1))).
Proof.
  destruct r as [s w].
  destruct n; unfold_nodes; split_cases; simp_state;
    (split; [congruence|]);
    first [left; congruence | right; split; congruence].
Qed.

(** X15.  In the course of a turn no node changes user_prompt, and
    retry_count never decreases: after any number of node executions from
    any node it is at least what it was (an absent count reads as 0). *)
Theorem retry_count_only_increases (E : Env) (k : nat) (n : Node) (r : Run) :
  user_prompt (state (snd (walk E k n r))) = user_prompt (state r)
  /\ default 0 (retry_count (state r))
     <= default 0 (retry_count (state (snd (walk E k n r)))).
Proof.
  apply (walk_invariant E
           (fun r' => user_prompt (state r') = user_prompt (state r)
                      /\ default 0 (retry_count (state r))
                         <= default 0 (retry_count (state r')))).
  - intros n' r' [Hu Hr]. destruct (node_keeps E n' r') as [Hu' [Hk|[_ Hk]]];
      rewrite Hu', Hk; split; auto. cbn [default from_option id]. lia.
  - split; [reflexivity|lia].
Qed.

Lemma node_model_calls (E : Env) (n : Node) (r : Run) :
  (length (llm_log (world (snd (create_nodes E n r))))
   <= S (length (llm_log (world r))))%nat.
Proof.
  destruct r as [s w].
  destruct n; unfold_nodes; split_cases; simp_state; cbn [length]; lia.
Qed.

Lemma walk_model_calls (E : Env) (k : nat) (n : Node) (r : Run) :
  (length (llm_log (world (snd (walk E k n r))))
   <= k + length (llm_log (world r)))%nat.
Proof.
  revert n r. induction k as [|k IH]; intros n r; [cbn; lia|].
  rewrite walk_S, step_spec. pose proof (node_model_calls E n r) as Hn.
  destruct (fst (create_nodes E n r)); [|cbn [snd]; lia].
  destruct (edges n _) as [[n'|]|e]; cbn [snd]; try lia.
  specialize (IH n' (snd (create_nodes E n r))). lia.
Qed.

(** X17.  A turn sends at most recursion_limit prompts to the model: every
    node calls it at most once. *)
Theorem model_calls_bounded (E : Env) (self : DataAssistant) (w : World)
    (now user_input : string) (user_id : option string) :
  (length (llm_log (snd (process_query E self w now user_input user_id)))
   <= recursion_limit E + length (llm_log w))%nat.
Proof. rewrite process_query_world. apply walk_model_calls. Qed.

(** What execute_sql does to the engine log and to the retry count. *)
Lemma execute_sql_effect (E : Env) (r : Run) :
  (bq_log (world (snd (execute_sql E r))) = bq_log (world r)
   /\ retry_count (state (snd (execute_sql E r))) = retry_count (state r))
  \/ (exists q,
        bq_log (world (snd (execute_sql E r))) = q :: bq_log (world r)
        /\ (retry_count (state (snd (execute_sql E r)))
            = Some (default 0 (retry_count (state r)) + 1)
            \/ (retry_count (state (snd (execute_sql E r))) = retry_count (state r)
                /\ error_msg (state (snd (execute_sql E r))) = Some ""))).
Proof.
  destruct r as [s w]. unfold_nodes. split_cases; simp_state;
    first [ discriminate
          | left; split; congruence
          | right; eexists; split; [reflexivity|]; left; congruence
          | right; eexists; split; [reflexivity|]; right; split; congruence ].
Qed.

Lemma node_quiet (E : Env) (n : Node) (r : Run) :
  n <> N_execute ->
  bq_log (world (snd (create_nodes E n r))) = bq_log (world r)
  /\ retry_count (state (snd (create_nodes E n r))) = retry_count (state r).
Proof.
  destruct r as [s w]. intros Hn.
  destruct n; try congruence; unfold_nodes; split_cases; simp_state; auto.
Qed.

Lemma error_analyzer_edge_aux (E : Env) (r : Run) (n : Node) :
  edges N_error_analyzer (state (snd (error_analyzer E r))) = Ok (Some n) ->
  n = N_update_history
  \/ (n = N_generate_sql
      /\ default 0 (retry_count (state r)) < max_retries E
      /\ error_msg (state r) <> Some "").
Proof.
  destruct r as [s w]. unfold_nodes. split_cases; simp_state; cbn;
    intros [= <-]; auto; right.
  all: match goal with
       | H : (max_retries _ <=? _) = false |- _ => apply Z.leb_gt in H
       end.
  all: repeat split; try assumption; intros [= ->]; discriminate.
Qed.

Lemma calls_inv_bound (E : Env) (base : nat) (n : Node) (r : Run) :
  calls_inv E base n r ->
  Z.of_nat (length (bq_log (world r))) - Z.of_nat base <= Z.max 1 (max_retries E).
Proof. unfold calls_inv. destruct n; cbv zeta; lia. Qed.

Lemma calls_inv_node (E : Env) (base : nat) (n : Node) (r : Run) :
  calls_inv E base n r ->
  Z.of_nat (length (bq_log (world (snd (create_nodes E n r))))) - Z.of_nat base
  <= Z.max 1 (max_retries E).
Proof.
  intros Hi.
  assert (Hq : n <> N_execute ->
               Z.of_nat (length (bq_log (world (snd (create_nodes E n r)))))
               - Z.of_nat base <= Z.max 1 (max_retries E)).
  { intros Hn. destruct (node_quiet E n r Hn) as [Hb _]. rewrite Hb.
    eapply calls_inv_bound, Hi. }
  destruct n; try (apply Hq; discriminate).
  cbn [create_nodes]. unfold calls_inv in Hi. cbv zeta in Hi.
  destruct (execute_sql_effect E r) as [[Hb _]|(q & Hb & _)]; rewrite Hb;
    cbn [length]; lia.
Qed.

Lemma calls_inv_edge (E : Env) (base : nat) (n n' : Node) (r : Run) :
  calls_inv E base n r ->
  edges n (state (snd (create_nodes E n r))) = Ok (Some n') ->
  calls_inv E base n' (snd (create_nodes E n r)).
Proof.
  intros Hi He. destruct n.
  - destruct (node_quiet E N_classify r ltac:(discriminate)) as [Hb Hr].
    unfold calls_inv in *. cbv zeta in *. rewrite Hb, Hr.
    cbn [edges] in He. destruct (intent _) as [[]|]; try discriminate.
    cbn [path_lookup List.find fst snd] in He.
    repeat match type of He with
           | context [if ?b then _ else _] => destruct b
           end; try discriminate; injection He as <-; lia.
  - destruct (node_quiet E N_general r ltac:(discriminate)) as [Hb Hr].
    injection He as <-. unfold calls_inv in *. cbv zeta in *. rewrite Hb. lia.
  - destruct (node_quiet E N_retrieve r ltac:(discriminate)) as [Hb Hr].
    injection He as <-. unfold calls_inv in *. cbv zeta in *. rewrite Hb, Hr. lia.
  - destruct (node_quiet E N_generate_sql r ltac:(discriminate)) as [Hb Hr].
    injection He as <-. unfold calls_inv in *. cbv zeta in *. rewrite Hb, Hr. lia.
  - injection He as <-. cbn [create_nodes]. unfold calls_inv in *. cbv zeta in *.
    destruct (execute_sql_effect E r) as [[Hb Hr]|(q & Hb & [Hr|[Hr Hm]])];
      rewrite Hb, Hr; cbn [length default from_option id]; try lia.
    split; [lia|]. right. exact Hm.
  - cbn [create_nodes] in *.
    destruct (node_quiet E N_error_analyzer r ltac:(discriminate)) as [Hb Hr].
    cbn [create_nodes] in Hb, Hr.
    destruct (error_analyzer_edge_aux E r n' He) as [->|(-> & Hlt & Hm)];
      unfold calls_inv in *; cbv zeta in *; rewrite Hb, ?Hr; [lia|].
    destruct Hi as [_ [Hc|Hc]]; [lia|congruence].
  - discriminate.
Qed.

(** X16.  A turn sends at most max_retries queries to the engine (one when
    max_retries is below 1), whatever the model and the engine answer. *)
Theorem engine_calls_bounded (E : Env) (self : DataAssistant) (w : World)
    (now user_input : string) (user_id : option string) :
  Z.of_nat (length (bq_log (snd (process_query E self w now user_input user_id))))
  <= Z.of_nat (length (bq_log w)) + Z.max 1 (max_retries E).
Proof.
  rewrite process_query_world.
  enough (Z.of_nat (length (bq_log (world (snd (walk E (recursion_limit E) N_classify
            {| state := create_initial_state E self user_input user_id;
               world := w |})))))
          - Z.of_nat (length (bq_log w)) <= Z.max 1 (max_retries E)) by lia.
  apply (walk_invariant_at E (calls_inv E (length (bq_log w)))
           (fun r => Z.of_nat (length (bq_log (world r)))
                     - Z.of_nat (length (bq_log w)) <= Z.max 1 (max_retries E))).
  - apply calls_inv_bound.
  - apply calls_inv_node.
  - apply calls_inv_edge.
  - unfold calls_inv. cbn. lia.
Qed.

(** ** Whole turns *)

Lemma walk_done (E : Env) (a b : nat) (n : Node) (r r' : Run) :
  walk E a n r = (Ok None, r') -> walk E (a + b) n r = (Ok None, r').
Proof. intros H. rewrite walk_add, H. reflexivity. Qed.

(** The answer of a turn whose walk passes END within the limit. *)
Lemma process_query_done (E : Env) (self : DataAssistant) (w : World)
    (now user_input : string) (user_id : option string) (k : nat) (r' : Run) :
  walk E k N_classify
    {| state := create_initial_state E self user_input user_id; world := w |}
  = (Ok None, r') ->
  (k <= recursion_limit E)%nat ->
  fst (fst (process_query E self w now user_input user_id))
  = {| qr_user_input := user_input;
       generated_sql_query := default (PStr "No SQL generated") (sql_query (state r'));
       model_response :=
         default "Sorry, I couldn't process your request." (final_response (state r'));
       qr_intent := Some (default (PStr "unknown") (intent (state r')));
       success := true; error := None |}
  /\ snd (process_query E self w now user_input user_id) = world r'.
Proof.
  intros Hw Hk. unfold process_query, invoke. rewrite run_graph_walk.
  replace (recursion_limit E) with (k + (recursion_limit E - k))%nat by lia.
  rewrite (walk_done E k _ _ _ _ Hw). split; reflexivity.
Qed.

Lemma walk_cons (E : Env) (k : nat) (n n' : Node) (r r' : Run)
    (res : result (option Node) * Run) :
  create_nodes E n r = (Ok tt, r') ->
  edges n (state r') = Ok (Some n') ->
  walk E k n' r' = res ->
  walk E (S k) n r = res.
Proof.
  intros Hn He Hw. rewrite walk_S, step_spec, Hn. cbn [fst snd].
  rewrite He. exact Hw.
Qed.

Lemma walk_end (E : Env) (k : nat) (n : Node) (r r' : Run) :
  create_nodes E n r = (Ok tt, r') ->
  edges n (state r') = Ok None ->
  walk E (S k) n r = (Ok None, r').
Proof.
  intros Hn He. rewrite walk_S, step_spec, Hn. cbn [fst snd].
  rewrite He. reflexivity.
Qed.

Lemma model_down_no_answer (E : Env) (w : World) (prompt : result string)
    (usable : string -> Prop) :
  (forall i p, exists e, llm_invoke E i p = Raise e) ->
  no_answer E w prompt usable.
Proof.
  intros Hdown. unfold no_answer. destruct prompt as [p|e]; [|exact I].
  destruct (Hdown (length (llm_log w)) p) as [e ->]. exact I.
Qed.

(** X18.  When every call of the model raises, a turn still succeeds: it
    takes the general branch and answers with the canned greeting if the
    lower-cased input contains "hi", "hello" or "hey", and with the canned
    capability statement otherwise; no SQL is generated and the engine is
    not asked.  On ASCII input the lower-casing is that of A-Z. *)
Theorem model_down_turn (E : Env) (self : DataAssistant) (w : World)
    (now user_input : string) (user_id : option string) :
  (forall i p, exists e, llm_invoke E i p = Raise e) ->
  (3 <= recursion_limit E)%nat ->
  fst (fst (process_query E self w now user_input user_id))
  = {| qr_user_input := user_input;
       generated_sql_query := PStr "";
       model_response :=
         if existsb (fun greeting => contains greeting (lower E user_input))
              ["hi"; "hello"; "hey"]
         then "Hello! I'm your H&M data assistant. How can I help you with incident or problem data today?"
         else "I can help you query and analyze your H&M incident and problem data. What would you like to know?";
       qr_intent := Some (PStr "general");
       success := true; error := None |}
  /\ bq_log (snd (process_query E self w now user_input user_id)) = bq_log w
  /\ (is_ascii user_input = true -> lower E user_input = ascii_lower user_input).
Proof.
  intros Hdown Hlim.
  set (s0 := create_initial_state E self user_input user_id).
  assert (Hup : user_prompt s0 = Some user_input) by reflexivity.
  destruct (classify_intent_no_answer E s0 w user_input Hup
              (model_down_no_answer E w _ _ Hdown)) as (w1 & H1 & Hb1 & _).
  set (s1 := set_rephrased_prompt (PStr user_input) (set_intent (PStr "general") s0))
    in H1.
  destruct (general_response_no_answer E s1 w1 user_input Hup
              (model_down_no_answer E w1 _ _ Hdown)) as (w2 & H2 & Hb2 & _).
  set (s2 := set_final_response _ s1) in H2.
  pose proof (update_history_appends s2 w2 user_input Hup) as H3.
  assert (Hw : walk E 3 N_classify {| state := s0; world := w |}
               = (Ok None, snd (update_history {| state := s2; world := w2 |}))).
  { eapply (walk_cons E 2 N_classify N_general); [exact H1|reflexivity|].
    eapply (walk_cons E 1 N_general N_update_history); [exact H2|reflexivity|].
    eapply (walk_end E 0 N_update_history); [rewrite H3|]; reflexivity. }
  destruct (process_query_done E self w now user_input user_id 3 _ Hw Hlim)
    as [-> ->].
  rewrite H3. cbn [snd state world]. split; [|split; [congruence|]].
  - subst s2. simp_state. destruct (existsb _ _); reflexivity.
  - intros Ha. unfold lower. rewrite Ha. reflexivity.
Qed.

Lemma classify_intent_parsed (E : Env) (s : AgentState) (w : World)
    (up p reply : string) (d : list (string * pyval)) :
  user_prompt s = Some up ->
  get_classify_prompt E (history_str (default [] (messages s))) up = Ok p ->
  llm_invoke E (length (llm_log w)) p = Ok reply ->
  parse_json_response E reply = PDict d ->
  classify_intent E {| state := s; world := w |}
  = (Ok tt,
     {| state :=
          set_rephrased_prompt (default (PStr up) (assoc "rephrased" d))
            (set_intent (default (PStr "general") (assoc "intent" d)) s);
        world := {| llm_log := p :: llm_log w; bq_log := bq_log w;
                    sleep_log := sleep_log w |} |}).
Proof.
  intros Hup Hp Hllm Hparse. unfold_nodes.
  rewrite Hup, Hp, Hllm, Hparse. cbn [dict_get]. simp_state.
  rewrite Hup. reflexivity.
Qed.

Lemma general_response_answers (E : Env) (s : AgentState) (w : World)
    (up p reply : string) :
  user_prompt s = Some up ->
  get_general_response_prompt E (history_str (default [] (messages s))) up = Ok p ->
  llm_invoke E (length (llm_log w)) p = Ok reply ->
  general_response E {| state := s; world := w |}
  = (Ok tt,
     {| state := set_final_response reply s;
        world := {| llm_log := p :: llm_log w; bq_log := bq_log w;
                    sleep_log := sleep_log w |} |}).
Proof.
  intros Hup Hp Hllm. unfold_nodes. rewrite Hup, Hp, Hllm. reflexivity.
Qed.

(** X19.  A turn whose input the model labels "greeting" or "general" runs
    classify, general, update_history and ends: the answer is the model's
    second completion, the query stays the empty text of the initial state,
    the engine is not asked and no pause is taken. *)
Theorem general_turn (E : Env) (self : DataAssistant) (w : World)
    (now user_input : string) (user_id : option string)
    (p1 r1 label p2 r2 : string) (d : list (string * pyval)) :
  let s0 := create_initial_state E self user_input user_id in
  let history := history_str (default [] (messages s0)) in
  get_classify_prompt E history user_input = Ok p1 ->
  llm_invoke E (length (llm_log w)) p1 = Ok r1 ->
  parse_json_response E r1 = PDict d ->
  default (PStr "general") (assoc "intent" d) = PStr label ->
  label = "greeting" \/ label = "general" ->
  get_general_response_prompt E history user_input = Ok p2 ->
  llm_invoke E (S (length (llm_log w))) p2 = Ok r2 ->
  (3 <= recursion_limit E)%nat ->
  fst (fst (process_query E self w now user_input user_id))
  = {| qr_user_input := user_input;
       generated_sql_query := PStr "";
       model_response := r2;
       qr_intent := Some (PStr label);
       success := true; error := None |}
  /\ snd (process_query E self w now user_input user_id)
     = {| llm_log := p2 :: p1 :: llm_log w; bq_log := bq_log w;
          sleep_log := sleep_log w |}.
Proof.
  intros s0 history Hp1 Hr1 Hd Hlab Hlabel Hp2 Hr2 Hlim.
  assert (Hup : user_prompt s0 = Some user_input) by reflexivity.
  pose proof (classify_intent_parsed E s0 w user_input p1 r1 d Hup Hp1 Hr1 Hd)
    as H1.
  rewrite Hlab in H1.
  set (s1 := set_rephrased_prompt _ (set_intent (PStr label) s0)) in H1.
  set (w1 := {| llm_log := p1 :: llm_log w; bq_log := bq_log w;
                sleep_log := sleep_log w |}) in H1.
  pose proof (general_response_answers E s1 w1 user_input p2 r2 Hup Hp2 Hr2)
    as H2.
  set (s2 := set_final_response r2 s1) in H2.
  set (w2 := {| llm_log := p2 :: llm_log w1; bq_log := bq_log w1;
                sleep_log := sleep_log w1 |}) in H2.
  pose proof (update_history_appends s2 w2 user_input Hup) as H3.
  assert (He : edges N_classify s1 = Ok (Some N_general)).
  { destruct Hlabel as [-> | ->]; reflexivity. }
  assert (Hw : walk E 3 N_classify {| state := s0; world := w |}
               = (Ok None, snd (update_history {| state := s2; world := w2 |}))).
  { eapply (walk_cons E 2 N_classify N_general); [exact H1|exact He|].
    eapply (walk_cons E 1 N_general N_update_history); [exact H2|reflexivity|].
    eapply (walk_end E 0 N_update_history); [rewrite H3|]; reflexivity. }
  destruct (process_query_done E self w now user_input user_id 3 _ Hw Hlim)
    as [-> ->].
  rewrite H3. split; reflexivity.
Qed.

(** X20.  A turn whose input the model labels "data_query", whose generated
    query is not empty after the clean-up, and which the engine answers with
    one to one hundred rows, runs classify, retrieve, generate_sql, execute,
    error_analyzer, update_history and ends: the answer is "Results for
    '<input>':" and the rendered frame, the reported query is the cleaned
    one, the model is called twice (not for a diagnosis), the engine once,
    and no pause is taken. *)
Theorem data_query_turn (E : Env) (self : DataAssistant) (w : World)
    (now user_input : string) (user_id : option string)
    (p1 r1 p2 r2 : string) (d : list (string * pyval)) (df : DataFrame) :
  let s0 := create_initial_state E self user_input user_id in
  get_classify_prompt E (history_str (default [] (messages s0))) user_input
  = Ok p1 ->
  llm_invoke E (length (llm_log w)) p1 = Ok r1 ->
  parse_json_response E r1 = PDict d ->
  assoc "intent" d = Some (PStr "data_query") ->
  get_sql_gen_prompt E (default (PStr user_input) (assoc "rephrased" d)) (SCHEMAS E)
  = Ok p2 ->
  llm_invoke E (S (length (llm_log w))) p2 = Ok r2 ->
  clean_sql r2 <> "" ->
  execute_query E (length (bq_log w)) (PStr (clean_sql r2)) = Ok (Some df) ->
  df_empty df = false ->
  (df_len df <= 100)%nat ->
  (6 <= recursion_limit E)%nat ->
  fst (fst (process_query E self w now user_input user_id))
  = {| qr_user_input := user_input;
       generated_sql_query := PStr (clean_sql r2);
       model_response :=
         "Results for '" +:+ user_input +:+ "':" +:+ LF +:+ to_markdown E df;
       qr_intent := Some (PStr "data_query");
       success := true; error := None |}
  /\ snd (process_query E self w now user_input user_id)
     = {| llm_log := p2 :: p1 :: llm_log w;
          bq_log := PStr (clean_sql r2) :: bq_log w;
          sleep_log := sleep_log w |}.
Proof.
  intros s0 Hp1 Hr1 Hd Hint Hp2 Hr2 Hne Hbq Hrows Hlen Hlim.
  assert (Hup : user_prompt s0 = Some user_input) by reflexivity.
  pose proof (classify_intent_parsed E s0 w user_input p1 r1 d Hup Hp1 Hr1 Hd)
    as H1.
  rewrite Hint in H1. cbn [default from_option id] in H1.
  set (rp := from_option id (PStr user_input) (assoc "rephrased" d)) in *.
  set (s1 := set_rephrased_prompt rp (set_intent (PStr "data_query") s0)) in H1.
  set (w1 := {| llm_log := p1 :: llm_log w; bq_log := bq_log w;
                sleep_log := sleep_log w |}) in H1.
  assert (H2 : retrieve_schemas E {| state := s1; world := w1 |}
               = (Ok tt, {| state := set_relevant_schemas (SCHEMAS E) s1;
                            world := w1 |})) by reflexivity.
  set (s2 := set_relevant_schemas (SCHEMAS E) s1) in H2.
  pose proof (generate_sql_outcome E s2 w1 rp (SCHEMAS E) eq_refl eq_refl) as H3.
  rewrite Hp2 in H3. cbv zeta in H3.
  change (length (llm_log w1)) with (S (length (llm_log w))) in H3.
  rewrite Hr2 in H3.
  set (s3 := set_sql_query (PStr (clean_sql r2)) s2) in H3.
  set (w3 := {| llm_log := p2 :: llm_log w1; bq_log := bq_log w1;
                sleep_log := sleep_log w1 |}) in H3.
  assert (Ht : truthy (PStr (clean_sql r2)) = true).
  { cbn [truthy].
    destruct (String.eqb_spec (clean_sql r2) ""); [congruence|reflexivity]. }
  assert (H4 : execute_sql E {| state := s3; world := w3 |}
               = (Ok tt,
                  {| state :=
                       set_error_msg ""
                         (set_final_response
                            ("Results for '" +:+ user_input +:+ "':" +:+ LF
                             +:+ to_markdown E df)
                            (set_results (to_markdown E df) s3));
                     world := {| llm_log := llm_log w3;
                                 bq_log := PStr (clean_sql r2) :: bq_log w3;
                                 sleep_log := sleep_log w3 |} |})).
  { rewrite (execute_sql_runs E s3 w3 _ eq_refl Ht). unfold_nodes.
    change (length (bq_log w3)) with (length (bq_log w)). rewrite Hbq, Hrows.
    cbn [negb]. apply Nat.ltb_ge in Hlen. rewrite Hlen. reflexivity. }
  set (s4 := set_error_msg "" _) in H4.
  set (w4 := {| llm_log := llm_log w3; bq_log := _; sleep_log := _ |}) in H4.
  assert (H5 : error_analyzer E {| state := s4; world := w4 |}
               = (Ok tt, {| state := set_analysis_action "end" s4; world := w4 |}))
    by reflexivity.
  set (s5 := set_analysis_action "end" s4) in H5.
  pose proof (update_history_appends s5 w4 user_input Hup) as H6.
  assert (Hw : walk E 6 N_classify {| state := s0; world := w |}
               = (Ok None, snd (update_history {| state := s5; world := w4 |}))).
  { eapply (walk_cons E 5 N_classify N_retrieve); [exact H1|reflexivity|].
    eapply (walk_cons E 4 N_retrieve N_generate_sql); [exact H2|reflexivity|].
    eapply (walk_cons E 3 N_generate_sql N_execute); [exact H3|reflexivity|].
    eapply (walk_cons E 2 N_execute N_error_analyzer); [exact H4|reflexivity|].
    eapply (walk_cons E 1 N_error_analyzer N_update_history);
      [exact H5|reflexivity|].
    eapply (walk_end E 0 N_update_history); [rewrite H6|]; reflexivity. }
  destruct (process_query_done E self w now user_input user_id 6 _ Hw Hlim)
    as [-> ->].
  rewrite H6. split; reflexivity.
Qed.

(** ** Sessions and the turn-level entry point *)

Lemma last3_length {A} (l : list A) : (length (last3 l) <= 3)%nat.
Proof. unfold last3. rewrite length_skipn. lia. Qed.

Lemma last3_nil {A} (l : list A) : last3 l = [] -> l = [].
Proof.
  unfold last3. intros H. apply (f_equal (@length A)) in H.
  rewrite length_skipn in H. cbn in H. destruct l; [reflexivity|cbn in H; lia].
Qed.

Lemma last3_snoc {A} (l : list A) (x : A) :
  last3 (l ++ [x]) = skipn (length l - 2) l ++ [x].
Proof.
  unfold last3. rewrite length_app. cbn [length].
  replace (length l + 1 - 3)%nat with (length l - 2)%nat by lia.
  rewrite skipn_app.
  replace (length l - 2 - length l)%nat with 0%nat by lia. reflexivity.
Qed.

(** X21.  The history a new turn starts with is the last three stored
    exchanges, in their stored order, each as a message with its question
    as [user] and its answer as [bot]: the stored exchanges are some older
    ones followed by the window, and the window has at most three.  They
    are those of blob storage when it returns any, else those in memory;
    every other field starts empty and retry_count at 0. *)
Theorem create_initial_state_window (E : Env) (self : DataAssistant)
    (user_prompt_ : string) (user_id : option string) :
  let stored := window_source E self user_id in
  let window := skipn (length stored - 3) stored in
  create_initial_state E self user_prompt_ user_id
  = {| user_prompt := Some user_prompt_; intent := Some (PStr "");
       rephrased_prompt := Some (PStr ""); relevant_schemas := Some "";
       sql_query := Some (PStr ""); results := Some "";
       final_response := Some ""; error_msg := Some "";
       analysis := Some (PStr ""); analysis_action := Some "";
       retry_count := Some 0;
       messages :=
         Some (map (fun ex => {| user := fst ex; bot := snd ex |}) window) |}
  /\ stored = firstn (length stored - 3) stored ++ window
  /\ (length window <= 3)%nat.
Proof.
  cbv zeta. split; [|split].
  - change (create_initial_state E self user_prompt_ user_id
            = {| user_prompt := Some user_prompt_; intent := Some (PStr "");
                 rephrased_prompt := Some (PStr ""); relevant_schemas := Some "";
                 sql_query := Some (PStr ""); results := Some "";
                 final_response := Some ""; error_msg := Some "";
                 analysis := Some (PStr ""); analysis_action := Some "";
                 retry_count := Some 0;
                 messages :=
                   Some (to_messages (last3 (window_source E self user_id))) |}).
    unfold create_initial_state, window_source. f_equal. f_equal.
    destruct user_id as [uid|]; [|reflexivity].
    destruct (String.eqb uid ""); [reflexivity|]. cbn [negb].
    assert (Hsel : forall blob : list (string * string),
               match to_messages (last3 blob),
                     user_conversation_histories self !! uid with
               | [], Some history => to_messages (last3 history)
               | _, _ => to_messages (last3 blob)
               end
               = to_messages
                   (last3 match blob with
                          | [] => default [] (user_conversation_histories self !! uid)
                          | x :: rest => x :: rest
                          end)).
    { intros [|x blob].
      - cbn. destruct (user_conversation_histories self !! uid); reflexivity.
      - destruct (to_messages (last3 (x :: blob))) eqn:Hm; [|reflexivity].
        apply map_eq_nil, last3_nil in Hm. discriminate. }
    destruct (use_blob_sessions self); [apply Hsel|apply (Hsel [])].
  - symmetry. apply firstn_skipn.
  - apply (last3_length (window_source E self user_id)).
Qed.

(** X22.  Every turn, answered or failed, appends exactly one entry to
    conversation_data_db, holding the input, the reported query, the
    reported answer and the clock reading; it changes neither the feedback
    store nor the history of any other user. *)
Theorem process_query_logs_one_entry (E : Env) (self : DataAssistant)
    (w : World) (now user_input : string) (user_id : option string) :
  let res := fst (fst (process_query E self w now user_input user_id)) in
  let self' := snd (fst (process_query E self w now user_input user_id)) in
  conversation_data_db self'
  = conversation_data_db self
    ++ [{| ce_user_query := user_input;
           ce_sql_query := generated_sql_query res;
           ce_response := model_response res;
           ce_timestamp := now |}]
  /\ qr_user_input res = user_input
  /\ feedback_and_comments self' = feedback_and_comments self
  /\ use_blob_sessions self' = use_blob_sessions self
  /\ forall other,
       user_id <> Some other ->
       user_conversation_histories self' !! other
       = user_conversation_histories self !! other.
Proof.
  cbv zeta. unfold process_query.
  destruct (invoke E _) as [[[]|e] r']; cbn [fst snd conversation_data_db
    qr_user_input feedback_and_comments use_blob_sessions
    user_conversation_histories generated_sql_query model_response];
    repeat split.
  intros other Hne. destruct user_id as [uid|]; [|reflexivity].
  destruct (String.eqb uid ""); [reflexivity|]. cbn [negb].
  apply lookup_insert_ne. congruence.
Qed.

(** X23.  After an answered turn of a user whose history is not served from
    blob storage, the next turn of that user starts with a history whose
    last exchange is the input and the answer just given, after at most
    two earlier ones. *)
Theorem process_query_history_round_trip (E : Env) (self : DataAssistant)
    (w : World) (now user_input uid next_prompt : string) :
  uid <> "" ->
  (if use_blob_sessions self then load_user_conversations E uid else []) = [] ->
  success (fst (fst (process_query E self w now user_input (Some uid)))) = true ->
  exists earlier,
    messages
      (create_initial_state E
         (snd (fst (process_query E self w now user_input (Some uid))))
         next_prompt (Some uid))
    = Some (earlier
            ++ [{| user := user_input;
                   bot := model_response
                            (fst (fst (process_query E self w now user_input
                                         (Some uid)))) |}])
    /\ (length earlier <= 2)%nat.
Proof.
  intros Huid Hblob Hok. unfold process_query in *.
  destruct (invoke E _) as [[[]|e] r']; [|discriminate Hok].
  cbn [fst snd model_response]. unfold create_initial_state.
  apply String.eqb_neq in Huid. rewrite Huid. cbn [negb].
  cbn [use_blob_sessions user_conversation_histories].
  assert (Hm : (if use_blob_sessions self
                then to_messages (last3 (load_user_conversations E uid))
                else []) = []).
  { destruct (use_blob_sessions self); [rewrite Hblob|]; reflexivity. }
  rewrite Hm, lookup_insert_eq. cbn [messages].
  rewrite last3_snoc. unfold to_messages. rewrite map_app. cbn [map fst snd].
  eexists. split; [reflexivity|].
  rewrite length_map, length_skipn. lia.
Qed.

(** X24.  A turn that reports failure answers with the fixed apology and
    the query "Error occurred", names no intent, carries the exception
    text, and leaves every conversation history as it was. *)
Theorem process_query_failure (E : Env) (self : DataAssistant) (w : World)
    (now user_input : string) (user_id : option string) :
  success (fst (fst (process_query E self w now user_input user_id))) = false ->
  exists e,
    fst (fst (process_query E self w now user_input user_id))
    = {| qr_user_input := user_input;
         generated_sql_query := PStr "Error occurred";
         model_response :=
           "I encountered an error while processing your request. Please try again.";
         qr_intent := None; success := false; error := Some e |}
    /\ user_conversation_histories
         (snd (fst (process_query E self w now user_input user_id)))
       = user_conversation_histories self.
Proof.
  unfold process_query. destruct (invoke E _) as [[[]|e] r']; [discriminate|].
  intros _. exists e. split; reflexivity.
Qed.

(** ** The parser on a reply with prose around its object *)

Lemma str_app_cons (c : ascii) (a b : string) :
  String c a +:+ b = String c (a +:+ b).
Proof. reflexivity. Qed.

Lemma str_length_app (a b : string) :
  String.length (a +:+ b) = (String.length a + String.length b)%nat.
Proof.
  induction a as [|c a IH]; [reflexivity|].
  rewrite str_app_cons. cbn [String.length]. rewrite IH. reflexivity.
Qed.

Lemma str_app_assoc (a b c : string) : (a +:+ b) +:+ c = a +:+ (b +:+ c).
Proof.
  induction a as [|x a IH]; [reflexivity|].
  rewrite !str_app_cons, IH. reflexivity.
Qed.

Lemma str_drop_app (a b : string) : str_drop (String.length a) (a +:+ b) = b.
Proof.
  induction a as [|c a IH]; [destruct b; reflexivity|].
  rewrite str_app_cons. exact IH.
Qed.

Lemma str_take_app (a b : string) : str_take (String.length a) (a +:+ b) = a.
Proof.
  induction a as [|c a IH]; [destruct b; reflexivity|].
  rewrite str_app_cons. cbn [String.length str_take]. rewrite IH. reflexivity.
Qed.

Lemma find_char_app (c : ascii) (a b : string) :
  contains (String c "") a = false ->
  find (String c "") (a +:+ String c b) = Some (String.length a).
Proof.
  unfold contains. induction a as [|x a IH]; intros Ha.
  - change ("" +:+ String c b) with (String c b). cbn [find starts_with].
    rewrite Ascii.eqb_refl. reflexivity.
  - rewrite str_app_cons. cbn [find starts_with String.length] in *.
    destruct (Ascii.eqb c x); cbn [andb] in *; [discriminate|].
    destruct a; cbn [starts_with] in *; rewrite IH; try reflexivity;
      destruct (find (String c "") _); (discriminate || reflexivity).
Qed.

Lemma rfind_none (p s : string) : find p s = None -> rfind p s = None.
Proof.
  induction s as [|x s IH]; cbn [find rfind].
  - destruct (starts_with p ""); [discriminate|reflexivity].
  - destruct (starts_with p (String x s)); [discriminate|].
    destruct (find p s); [discriminate|]. rewrite IH; reflexivity.
Qed.

Lemma rfind_char_app (c : ascii) (a b : string) :
  contains (String c "") b = false ->
  rfind (String c "") (a +:+ String c b) = Some (String.length a).
Proof.
  unfold contains. intros Hb.
  assert (Hn : rfind (String c "") b = None).
  { apply rfind_none. destruct (find (String c "") b); [discriminate|reflexivity]. }
  induction a as [|x a IH].
  - change ("" +:+ String c b) with (String c b). cbn [rfind starts_with].
    rewrite Hn, Ascii.eqb_refl. reflexivity.
  - rewrite str_app_cons. cbn [rfind String.length]. rewrite IH. reflexivity.
Qed.

(** X25.  Prose around the object is ignored: when the stripped reply is
    some text without an opening brace, then a brace-delimited span, then
    some text without a closing brace, the parser hands exactly the span to
    the decoder, answers with what it decodes, and with the sentinel that
    quotes the whole stripped reply when the decoder rejects the span. *)
Theorem parse_json_response_prose (E : Env) (reply pre body post : string) :
  strip reply = pre +:+ "{" +:+ body +:+ "}" +:+ post ->
  contains "{" pre = false ->
  contains "}" post = false ->
  parse_json_response E reply
  = match json_loads E ("{" +:+ body +:+ "}") with
    | JsonOk v => v
    | JsonDecodeError _ =>
        PDict [("error", PStr "Invalid JSON"); ("raw_response", PStr (strip reply))]
    | JsonError _ =>
        PDict [("error", PStr "Parse error"); ("raw_response", PStr (strip reply))]
    end.
Proof.
  intros Hr Hpre Hpost. unfold parse_json_response. cbv zeta.
  assert (Hf : find "{" (strip reply) = Some (String.length pre)).
  { rewrite Hr. apply (find_char_app "{" pre (body +:+ "}" +:+ post) Hpre). }
  assert (Hrf : rfind "}" (strip reply)
                = Some (String.length (pre +:+ "{" +:+ body))).
  { rewrite Hr.
    replace (pre +:+ "{" +:+ body +:+ "}" +:+ post)
      with ((pre +:+ "{" +:+ body) +:+ String "}" post)
      by (rewrite !str_app_assoc; reflexivity).
    apply rfind_char_app, Hpost. }
  assert (Hc : contains "{" (strip reply) && contains "}" (strip reply) = true).
  { unfold contains. rewrite Hf.
    destruct (find "}" (strip reply)) eqn:Hfc; [reflexivity|].
    apply rfind_none in Hfc. congruence. }
  rewrite Hc.
  assert (Hs : json_str (strip reply) = "{" +:+ body +:+ "}").
  { unfold json_str, slice. cbv zeta. rewrite Hf, Hrf. cbn [default from_option id].
    rewrite Hr, str_drop_app.
    replace (S (String.length (pre +:+ "{" +:+ body)) - String.length pre)%nat
      with (String.length ("{" +:+ body +:+ "}")).
    - replace ("{" +:+ body +:+ "}" +:+ post)
        with (("{" +:+ body +:+ "}") +:+ post)
        by (rewrite !str_app_assoc; reflexivity).
      apply str_take_app.
    - rewrite !str_length_app. cbn [String.length]. lia. }
  rewrite Hs. reflexivity.
Qed.

(** ** Feedback and comments *)

Lemma attach_comment_none (q c : string) (l : list FeedbackEntry) :
  attach_comment q c l = None -> Forall (fun x => query x <> q) l.
Proof.
  induction l as [|e l IH]; cbn; [constructor|].
  destruct (String.eqb_spec (query e) q); [discriminate|].
  destruct (attach_comment q c l); [discriminate|]. intros _.
  constructor; auto.
Qed.

Lemma attach_comment_idem (q c : string) (l l' : list FeedbackEntry) :
  attach_comment q c l = Some l' -> attach_comment q c l' = Some l'.
Proof.
  revert l'. induction l as [|e l IH]; intros l'; cbn; [discriminate|].
  destruct (String.eqb (query e) q) eqn:He.
  - intros [= <-]. cbn. rewrite He. reflexivity.
  - destruct (attach_comment q c l) as [l1|]; [|discriminate].
    intros [= <-]. cbn. rewrite He, (IH l1 eq_refl). reflexivity.
Qed.

(** X26.  Recording the same comment for the same query a second time
    changes nothing: the user's entries are those left by the first call,
    whatever the two clock readings. *)
Theorem record_comment_idempotent (self : DataAssistant)
    (now1 now2 user_id q c : string) :
  entries_of
    (fst (record_comment (fst (record_comment self now1 user_id q c))
            now2 user_id q c)) user_id
  = entries_of (fst (record_comment self now1 user_id q c)) user_id.
Proof.
  unfold record_comment at 1. cbn [fst]. rewrite entries_of_insert.
  unfold record_comment. cbn [fst]. rewrite entries_of_insert.
  destruct (attach_comment q c (entries_of self user_id)) as [l'|] eqn:Ha.
  - rewrite (attach_comment_idem q c _ l' Ha). reflexivity.
  - apply attach_comment_none in Ha.
    rewrite (attach_comment_first q c (entries_of self user_id) []
               {| query := q;
                  feedback := "user did not provide feedback like or dislike";
                  comments := or_else c "user did not provide comments";
                  timestamp := now1 |} Ha eq_refl).
    reflexivity.
Qed.

(** X27.  A comment for a query text without an entry creates one at the
    end of the list, with the default feedback text and the clock reading. *)
Theorem record_comment_creates_entry (self : DataAssistant)
    (now user_id q c : string) :
  Forall (fun x => query x <> q) (entries_of self user_id) ->
  entries_of (fst (record_comment self now user_id q c)) user_id
  = entries_of self user_id
    ++ [{| query := q;
           feedback := "user did not provide feedback like or dislike";
           comments := or_else c "user did not provide comments";
           timestamp := now |}].
Proof.
  intros Hnone. unfold record_comment. cbn [fst]. rewrite entries_of_insert.
  assert (Ha : attach_comment q c (entries_of self user_id) = None).
  { induction Hnone as [|x l Hx _ IH]; [reflexivity|]. cbn.
    apply String.eqb_neq in Hx. rewrite Hx, IH. reflexivity. }
  rewrite Ha. reflexivity.
Qed.

(** X28.  Feedback and comments of one user never touch another user's
    entries, the conversation log or the conversation histories: each of
    the three is unchanged by record_feedback and by record_comment. *)
Theorem feedback_isolated (self : DataAssistant)
    (now user_id other q text : string) :
  other <> user_id ->
  entries_of (fst (record_feedback self now user_id q text)) other
  = entries_of self other
  /\ entries_of (fst (record_comment self now user_id q text)) other
     = entries_of self other
  /\ conversation_data_db (fst (record_feedback self now user_id q text))
     = conversation_data_db self
  /\ conversation_data_db (fst (record_comment self now user_id q text))
     = conversation_data_db self
  /\ user_conversation_histories (fst (record_feedback self now user_id q text))
     = user_conversation_histories self
  /\ user_conversation_histories (fst (record_comment self now user_id q text))
     = user_conversation_histories self.
Proof.
  intros Hne. unfold record_feedback, record_comment, entries_of, with_feedback.
  cbn [fst feedback_and_comments conversation_data_db user_conversation_histories].
  rewrite !lookup_insert_ne by congruence. repeat split.
Qed.

Lemma attach_comment_snoc (q c : string) (l : list FeedbackEntry)
    (e : FeedbackEntry) :
  query e = q ->
  attach_comment q c (l ++ [e])
  = Some match attach_comment q c l with
         | Some l' => l' ++ [e]
         | None =>
             l ++ [{| query := query e; feedback := feedback e;
                      comments := or_else c "user did not provide comments";
                      timestamp := timestamp e |}]
         end.
Proof.
  intros He. induction l as [|x l IH]; cbn.
  - apply String.eqb_eq in He. rewrite He. reflexivity.
  - destruct (String.eqb (query x) q); [reflexivity|].
    rewrite IH. destruct (attach_comment q c l); reflexivity.
Qed.

(** X29.  A feedback request with a label and a comment adds exactly one
    entry.  When the query text had no entry, the new entry carries both;
    when it had one, the comment goes into the first old entry for that
    text and the new entry keeps the default comment. *)
Theorem feedback_endpoint_one_entry (self : DataAssistant)
    (now_label now_comment user_id q label c : string) :
  label <> "" ->
  c <> "" ->
  entries_of
    (fst (feedback_endpoint self now_label now_comment user_id q
            (Some label) (Some c))) user_id
  = match attach_comment q c (entries_of self user_id) with
    | Some updated =>
        updated
        ++ [{| query := q; feedback := label;
               comments := "user did not provide comments";
               timestamp := now_label |}]
    | None =>
        entries_of self user_id
        ++ [{| query := q; feedback := label; comments := c;
               timestamp := now_label |}]
    end
  /\ snd (feedback_endpoint self now_label now_comment user_id q
            (Some label) (Some c))
     = ("Feedback recorded successfully.", "Comment recorded successfully.").
Proof.
  intros Hl Hc. unfold feedback_endpoint. cbv zeta.
  apply String.eqb_neq in Hl, Hc. rewrite Hl, Hc. cbn [negb fst snd].
  split; [|reflexivity].
  unfold record_comment. cbn [fst]. rewrite entries_of_insert.
  rewrite record_feedback_appends, attach_comment_snoc by reflexivity.
  unfold or_else. rewrite Hl, Hc.
  destruct (attach_comment q c (entries_of self user_id)); reflexivity.
Qed.

(** ** The engine adapter *)

(** X30.  Through the adapter, the error message execute_sql stores tells
    the category of the failure by its prefix and keeps the client's text;
    each failure counts one retry, and an answered query counts none and
    empties the message. *)
Theorem engine_failure_categories (E : Env)
    (client : nat -> pyval -> ClientOutcome) (s : AgentState) (w : World)
    (q : pyval) (up : string) :
  (forall i sql, execute_query E i sql = BigQueryClient_execute_query (client i sql)) ->
  sql_query s = Some q ->
  truthy q = true ->
  user_prompt s = Some up ->
  let s' := state (snd (execute_sql E {| state := s; world := w |})) in
  match client (length (bq_log w)) q with
  | ClientFrame _ =>
      error_msg s' = Some "" /\ retry_count s' = retry_count s
  | BadRequest msg =>
      error_msg s' = Some ("Invalid SQL: " +:+ msg)
      /\ retry_count s' = Some (default 0 (retry_count s) + 1)
  | GoogleAPICallError msg =>
      error_msg s' = Some ("BigQuery API error: " +:+ msg)
      /\ retry_count s' = Some (default 0 (retry_count s) + 1)
  | OtherError msg =>
      error_msg s' = Some ("Unexpected error: " +:+ msg)
      /\ retry_count s' = Some (default 0 (retry_count s) + 1)
  end.
Proof.
  intros Hadapt Hq Ht Hup s'. subst s'.
  rewrite (execute_sql_runs E s w q Hq Ht). unfold_nodes. rewrite Hadapt.
  destruct (client (length (bq_log w)) q) as [df| | |];
    cbn [BigQueryClient_execute_query]; simp_state; try (split; reflexivity).
  destruct (df_empty df); cbn [negb]; [split; reflexivity|].
  destruct (100 <? df_len df)%nat; simp_state; rewrite Hup; split; reflexivity.
Qed.

(** ** Instances of the further properties *)

Lemma nodes_never_raise_witness :
  (user_prompt (state {| state := Scenario.prompt_only "Hi there!"; world := world0 |})
   <> None
   \/ (N_classify <> N_classify /\ N_classify <> N_general))
  /\ fst (create_nodes Scenario.down_env N_classify
            {| state := Scenario.prompt_only "Hi there!"; world := world0 |})
     = Ok tt.
Proof.
  assert (H : user_prompt
                (state {| state := Scenario.prompt_only "Hi there!"; world := world0 |})
              <> None
              \/ (N_classify <> N_classify /\ N_classify <> N_general))
    by (left; vm_compute; discriminate).
  split; [exact H|].
  exact (nodes_never_raise Scenario.down_env N_classify _ H).
Defined.

Lemma missing_user_prompt_raises_witness :
  user_prompt Scenario.empty_state = None
  /\ fst (classify_intent Demo.silent_env
            {| state := Scenario.empty_state; world := world0 |})
     = Raise "'user_prompt'"
  /\ intent (state (snd (classify_intent Demo.silent_env
                           {| state := Scenario.empty_state; world := world0 |})))
     = Some (PStr "general")
  /\ rephrased_prompt
       (state (snd (classify_intent Demo.silent_env
                      {| state := Scenario.empty_state; world := world0 |})))
     = None
  /\ llm_log (world (snd (classify_intent Demo.silent_env
                            {| state := Scenario.empty_state; world := world0 |})))
     = [].
Proof.
  assert (H : user_prompt Scenario.empty_state = None) by reflexivity.
  split; [exact H|].
  pose proof (missing_user_prompt_raises Demo.silent_env Scenario.empty_state
                world0 H) as H'.
  cbv zeta in H'. destruct H' as (Hr & Hi & Hp & Hw & _).
  refine (conj Hr (conj Hi (conj Hp _))). rewrite Hw. reflexivity.
Defined.

Lemma classify_intent_fallback_witness :
  user_prompt (Scenario.prompt_only "Show me incidents") = Some "Show me incidents"
  /\ intent (state (snd (classify_intent Scenario.down_env
                           {| state := Scenario.prompt_only "Show me incidents";
                              world := world0 |})))
     = Some (PStr "general")
  /\ rephrased_prompt
       (state (snd (classify_intent Scenario.down_env
                      {| state := Scenario.prompt_only "Show me incidents";
                         world := world0 |})))
     = Some (PStr "Show me incidents").
Proof.
  assert (H : user_prompt (Scenario.prompt_only "Show me incidents")
              = Some "Show me incidents") by reflexivity.
  split; [exact H|].
  assert (Hno : no_answer Scenario.down_env world0
                  (get_classify_prompt Scenario.down_env
                     (history_str
                        (default [] (messages (Scenario.prompt_only "Show me incidents"))))
                     "Show me incidents")
                  (fun reply =>
                     exists d, parse_json_response Scenario.down_env reply = PDict d
                               /\ (assoc "intent" d <> None
                                   \/ assoc "rephrased" d <> None)))
    by (vm_compute; exact I).
  pose proof (classify_intent_fallback Scenario.down_env
                (Scenario.prompt_only "Show me incidents") world0
                "Show me incidents" H Hno) as H'.
  cbv zeta in H'. destruct H' as (_ & Hi & Hr & _).
  exact (conj Hi Hr).
Defined.

Lemma general_response_fallback_witness :
  user_prompt (Scenario.prompt_only "HEY, which tables exist?")
  = Some "HEY, which tables exist?"
  /\ final_response
       (state (snd (general_response Scenario.down_env
                      {| state := Scenario.prompt_only "HEY, which tables exist?";
                         world := world0 |})))
     = Some "Hello! I'm your H&M data assistant. How can I help you with incident or problem data today?"
  /\ intent
       (state (snd (general_response Scenario.down_env
                      {| state := Scenario.prompt_only "HEY, which tables exist?";
                         world := world0 |})))
     = None.
Proof.
  assert (H : user_prompt (Scenario.prompt_only "HEY, which tables exist?")
              = Some "HEY, which tables exist?") by reflexivity.
  split; [exact H|].
  assert (Hno : no_answer Scenario.down_env world0
                  (get_general_response_prompt Scenario.down_env
                     (history_str
                        (default []
                           (messages (Scenario.prompt_only "HEY, which tables exist?"))))
                     "HEY, which tables exist?")
                  (fun _ => True))
    by (vm_compute; exact I).
  destruct (general_response_fallback Scenario.down_env
              (Scenario.prompt_only "HEY, which tables exist?") world0
              "HEY, which tables exist?" H Hno) as (_ & Hs & _).
  rewrite Hs. split; reflexivity.
Defined.

Lemma execute_sql_whole_table_witness :
  sql_query (Demo.failed_state 0) = Some (PStr "SELEC number FROM incidents")
  /\ truthy (PStr "SELEC number FROM incidents") = true
  /\ user_prompt (Demo.failed_state 0) = Some "Show me incidents"
  /\ execute_query (Demo.suggesting_env 2) (length (bq_log world0))
       (PStr "SELEC number FROM incidents") = Ok (Some (Demo.frame 2))
  /\ df_empty (Demo.frame 2) = false
  /\ (df_len (Demo.frame 2) <= 100)%nat
  /\ results
       (state (snd (execute_sql (Demo.suggesting_env 2)
                      {| state := Demo.failed_state 0; world := world0 |})))
     = Some ("number" +:+ LF +:+ "INC0001" +:+ LF +:+ "INC0001")
  /\ final_response
       (state (snd (execute_sql (Demo.suggesting_env 2)
                      {| state := Demo.failed_state 0; world := world0 |})))
     = Some ("Results for 'Show me incidents':" +:+ LF
             +:+ "number" +:+ LF +:+ "INC0001" +:+ LF +:+ "INC0001")
  /\ error_msg
       (state (snd (execute_sql (Demo.suggesting_env 2)
                      {| state := Demo.failed_state 0; world := world0 |})))
     = Some "".
Proof.
  assert (H1 : sql_query (Demo.failed_state 0)
               = Some (PStr "SELEC number FROM incidents")) by reflexivity.
  assert (H2 : truthy (PStr "SELEC number FROM incidents") = true) by reflexivity.
  assert (H3 : user_prompt (Demo.failed_state 0) = Some "Show me incidents")
    by reflexivity.
  assert (H4 : execute_query (Demo.suggesting_env 2) (length (bq_log world0))
                 (PStr "SELEC number FROM incidents") = Ok (Some (Demo.frame 2)))
    by reflexivity.
  assert (H5 : df_empty (Demo.frame 2) = false) by reflexivity.
  assert (H6 : (df_len (Demo.frame 2) <= 100)%nat) by (vm_compute; lia).
  refine (conj H1 (conj H2 (conj H3 (conj H4 (conj H5 (conj H6 _)))))).
  pose proof (execute_sql_whole_table (Demo.suggesting_env 2) (Demo.failed_state 0)
                world0 _ _ _ H1 H2 H3 H4 H5 H6) as H.
  cbv zeta in H. destruct H as (_ & Hr & Hf & He & _).
  exact (conj Hr (conj Hf He)).
Defined.


Lemma execute_sql_without_query_witness :
  from_option truthy false (sql_query (Demo.loop_state "" "")) = false
  /\ error_msg
       (state (snd (execute_sql Scenario.rejecting_env
                      {| state := Demo.loop_state "" ""; world := world0 |})))
     = Some "No SQL query to execute"
  /\ retry_count
       (state (snd (execute_sql Scenario.rejecting_env
                      {| state := Demo.loop_state "" ""; world := world0 |})))
     = Some 0
  /\ bq_log
       (world (snd (execute_sql Scenario.rejecting_env
                      {| state := Demo.loop_state "" ""; world := world0 |})))
     = [].
Proof.
  assert (H : from_option truthy false (sql_query (Demo.loop_state "" "")) = false)
    by reflexivity.
  split; [exact H|].
  pose proof (execute_sql_without_query Scenario.rejecting_env
                (Demo.loop_state "" "") world0 H) as H'.
  cbv zeta in H'. destruct H' as (_ & He & Hr & Hw & _).
  refine (conj He (conj Hr _)). rewrite Hw. reflexivity.
Defined.

Lemma error_analyzer_model_failure_witness :
  error_msg (Demo.failed_state 1) = Some "Invalid SQL: syntax error"
  /\ "Invalid SQL: syntax error" <> ""
  /\ default 0 (retry_count (Demo.failed_state 1)) < max_retries Scenario.down_env
  /\ sql_query (Demo.failed_state 1) = Some (PStr "SELEC number FROM incidents")
  /\ analysis_action
       (state (snd (error_analyzer Scenario.down_env
                      {| state := Demo.failed_state 1; world := world0 |})))
     = Some "fail"
  /\ final_response
       (state (snd (error_analyzer Scenario.down_env
                      {| state := Demo.failed_state 1; world := world0 |})))
     = Some "An unexpected error occurred: Invalid SQL: syntax error".
Proof.
  assert (H1 : error_msg (Demo.failed_state 1) = Some "Invalid SQL: syntax error")
    by reflexivity.
  assert (H2 : "Invalid SQL: syntax error" <> "") by (vm_compute; discriminate).
  assert (H3 : default 0 (retry_count (Demo.failed_state 1))
               < max_retries Scenario.down_env) by (vm_compute; reflexivity).
  assert (H4 : sql_query (Demo.failed_state 1)
               = Some (PStr "SELEC number FROM incidents")) by reflexivity.
  assert (H5 : no_answer Scenario.down_env world0
                 (get_error_analysis_prompt Scenario.down_env
                    "Invalid SQL: syntax error"
                    (PStr "SELEC number FROM incidents"))
                 (fun _ => True)) by (vm_compute; exact I).
  refine (conj H1 (conj H2 (conj H3 (conj H4 _)))).
  pose proof (error_analyzer_model_failure Scenario.down_env
                (Demo.failed_state 1) world0 _ _ H1 H2 H3 H4 H5) as H.
  cbv zeta in H. destruct H as (_ & Ha & Hf & _).
  exact (conj Ha Hf).
Defined.

Lemma error_analyzer_unknown_action_witness :
  diagnosed Scenario.shrugging_env (Demo.failed_state 1) world0
    "Invalid SQL: syntax error" Scenario.no_json
  /\ str_eq (default (PStr "fail") (assoc "action" Scenario.no_json)) "retry" = false
  /\ str_eq (default (PStr "fail") (assoc "action" Scenario.no_json)) "rephrase" = false
  /\ str_eq (default (PStr "fail") (assoc "action" Scenario.no_json)) "ask_user" = false
  /\ analysis_action
       (state (snd (error_analyzer Scenario.shrugging_env
                      {| state := Demo.failed_state 1; world := world0 |})))
     = Some "fail"
  /\ final_response
       (state (snd (error_analyzer Scenario.shrugging_env
                      {| state := Demo.failed_state 1; world := world0 |})))
     = Some "Unable to process your request: Invalid SQL: syntax error"
  /\ sleep_log
       (world (snd (error_analyzer Scenario.shrugging_env
                      {| state := Demo.failed_state 1; world := world0 |})))
     = [].
Proof.
  assert (H0 : diagnosed Scenario.shrugging_env (Demo.failed_state 1) world0
                 "Invalid SQL: syntax error" Scenario.no_json).
  { split; [reflexivity|]. split; [vm_compute; discriminate|].
    split; [vm_compute; reflexivity|].
    exists (PStr "SELEC number FROM incidents"),
      ("Error: Invalid SQL: syntax error" +:+ LF
       +:+ "Query: SELEC number FROM incidents"),
      "I cannot tell what went wrong.".
    repeat split. }
  assert (H1 : str_eq (default (PStr "fail") (assoc "action" Scenario.no_json))
                 "retry" = false) by reflexivity.
  assert (H2 : str_eq (default (PStr "fail") (assoc "action" Scenario.no_json))
                 "rephrase" = false) by reflexivity.
  assert (H3 : str_eq (default (PStr "fail") (assoc "action" Scenario.no_json))
                 "ask_user" = false) by reflexivity.
  refine (conj H0 (conj H1 (conj H2 (conj H3 _)))).
  pose proof (error_analyzer_unknown_action Scenario.shrugging_env
                (Demo.failed_state 1) world0 _ _ H0 H1 H2 H3) as H.
  cbv zeta in H. destruct H as (_ & Ha & Hf & _ & _ & _ & _ & Hs).
  exact (conj Ha (conj Hf Hs)).
Defined.

Lemma error_analyzer_rephrase_witness :
  diagnosed Scenario.rephrasing_env (Demo.failed_state 1) world0
    "Invalid SQL: syntax error" Scenario.rephrase_object
  /\ assoc "action" Scenario.rephrase_object = Some (PStr "rephrase")
  /\ fst (step Scenario.rephrasing_env N_error_analyzer
            {| state := Demo.failed_state 1; world := world0 |})
     = Ok (Some N_generate_sql)
  /\ sql_query
       (state (snd (step Scenario.rephrasing_env N_error_analyzer
                      {| state := Demo.failed_state 1; world := world0 |})))
     = Some (PStr "SELEC number FROM incidents").
Proof.
  assert (H0 : diagnosed Scenario.rephrasing_env (Demo.failed_state 1) world0
                 "Invalid SQL: syntax error" Scenario.rephrase_object).
  { split; [reflexivity|]. split; [vm_compute; discriminate|].
    split; [vm_compute; reflexivity|].
    exists (PStr "SELEC number FROM incidents"),
      ("Error: Invalid SQL: syntax error" +:+ LF
       +:+ "Query: SELEC number FROM incidents"),
      Scenario.rephrase_reply.
    repeat split. }
  assert (H1 : assoc "action" Scenario.rephrase_object = Some (PStr "rephrase"))
    by reflexivity.
  refine (conj H0 (conj H1 _)).
  destruct (error_analyzer_rephrase Scenario.rephrasing_env (Demo.failed_state 1)
              world0 _ _ H0 H1) as (He & Hs & _).
  split; [exact He|]. rewrite Hs. reflexivity.
Defined.

Lemma update_history_absent_keys_witness :
  user_prompt (Scenario.prompt_only "Hi there!") = Some "Hi there!"
  /\ final_response (Scenario.prompt_only "Hi there!") = None
  /\ messages
       (state (snd (update_history
                      {| state := Scenario.prompt_only "Hi there!";
                         world := world0 |})))
     = Some [{| user := "Hi there!"; bot := "No response generated" |}].
Proof.
  assert (H1 : user_prompt (Scenario.prompt_only "Hi there!") = Some "Hi there!")
    by reflexivity.
  assert (H2 : final_response (Scenario.prompt_only "Hi there!") = None)
    by reflexivity.
  refine (conj H1 (conj H2 _)).
  rewrite (update_history_absent_keys (Scenario.prompt_only "Hi there!") world0
             "Hi there!" H1 H2).
  reflexivity.
Defined.

Lemma model_down_turn_witness :
  (forall i p, exists e, llm_invoke Scenario.down_env i p = Raise e)
  /\ (3 <= recursion_limit Scenario.down_env)%nat
  /\ fst (fst (process_query Scenario.down_env Demo.assistant0 world0
                 "2025-01-01T09:00:00" "Hi there!" None))
     = {| qr_user_input := "Hi there!";
          generated_sql_query := PStr "";
          model_response := "Hello! I'm your H&M data assistant. How can I help you with incident or problem data today?";
          qr_intent := Some (PStr "general");
          success := true; error := None |}
  /\ bq_log (snd (process_query Scenario.down_env Demo.assistant0 world0
                    "2025-01-01T09:00:00" "Hi there!" None))
     = [].
Proof.
  assert (H1 : forall i p, exists e, llm_invoke Scenario.down_env i p = Raise e)
    by (intros i p; eexists; reflexivity).
  assert (H2 : (3 <= recursion_limit Scenario.down_env)%nat) by (vm_compute; lia).
  refine (conj H1 (conj H2 _)).
  destruct (model_down_turn Scenario.down_env Demo.assistant0 world0
              "2025-01-01T09:00:00" "Hi there!" None H1 H2) as (Hr & Hb & _).
  rewrite Hr, Hb. split; reflexivity.
Defined.

Lemma general_turn_witness :
  get_classify_prompt Scenario.chatting_env "" "Hello"
  = Ok ("History: " +:+ LF +:+ "Current input: Hello")
  /\ llm_invoke Scenario.chatting_env 0 ("History: " +:+ LF +:+ "Current input: Hello")
     = Ok Scenario.greeting_label
  /\ parse_json_response Scenario.chatting_env Scenario.greeting_label
     = PDict [("intent", PStr "greeting")]
  /\ get_general_response_prompt Scenario.chatting_env "" "Hello"
     = Ok ("History: " +:+ LF +:+ "Respond naturally to: Hello")
  /\ llm_invoke Scenario.chatting_env 1
       ("History: " +:+ LF +:+ "Respond naturally to: Hello")
     = Ok "Hello! Ask me about incidents."
  /\ (3 <= recursion_limit Scenario.chatting_env)%nat
  /\ fst (fst (process_query Scenario.chatting_env Demo.assistant0 world0
                 "2025-01-01T09:00:00" "Hello" None))
     = {| qr_user_input := "Hello";
          generated_sql_query := PStr "";
          model_response := "Hello! Ask me about incidents.";
          qr_intent := Some (PStr "greeting");
          success := true; error := None |}
  /\ snd (process_query Scenario.chatting_env Demo.assistant0 world0
            "2025-01-01T09:00:00" "Hello" None)
     = {| llm_log := ["History: " +:+ LF +:+ "Respond naturally to: Hello";
                      "History: " +:+ LF +:+ "Current input: Hello"];
          bq_log := []; sleep_log := [] |}.
Proof.
  assert (H1 : get_classify_prompt Scenario.chatting_env "" "Hello"
               = Ok ("History: " +:+ LF +:+ "Current input: Hello")) by reflexivity.
  assert (H2 : llm_invoke Scenario.chatting_env 0
                 ("History: " +:+ LF +:+ "Current input: Hello")
               = Ok Scenario.greeting_label) by reflexivity.
  assert (H3 : parse_json_response Scenario.chatting_env Scenario.greeting_label
               = PDict [("intent", PStr "greeting")]) by reflexivity.
  assert (H4 : get_general_response_prompt Scenario.chatting_env "" "Hello"
               = Ok ("History: " +:+ LF +:+ "Respond naturally to: Hello"))
    by reflexivity.
  assert (H5 : llm_invoke Scenario.chatting_env 1
                 ("History: " +:+ LF +:+ "Respond naturally to: Hello")
               = Ok "Hello! Ask me about incidents.") by reflexivity.
  assert (H6 : (3 <= recursion_limit Scenario.chatting_env)%nat)
    by (vm_compute; lia).
  refine (conj H1 (conj H2 (conj H3 (conj H4 (conj H5 (conj H6 _)))))).
  exact (general_turn Scenario.chatting_env Demo.assistant0 world0
           "2025-01-01T09:00:00" "Hello" None _ _ "greeting" _ _ _
           H1 H2 H3 eq_refl (or_introl eq_refl) H4 H5 H6).
Defined.

Lemma data_query_turn_witness :
  llm_invoke (Demo.suggesting_env 3) 0
    ("History: " +:+ LF +:+ "Current input: Show me incidents")
  = Ok Demo.classify_reply
  /\ parse_json_response (Demo.suggesting_env 3) Demo.classify_reply
     = PDict [("intent", PStr "data_query")]
  /\ llm_invoke (Demo.suggesting_env 3) 1
       ("Query: Show me incidents" +:+ LF +:+ "Schemas: === INCIDENTS ===")
     = Ok Demo.fenced_sql
  /\ clean_sql Demo.fenced_sql <> ""
  /\ execute_query (Demo.suggesting_env 3) 0 (PStr (clean_sql Demo.fenced_sql))
     = Ok (Some (Demo.frame 3))
  /\ (6 <= recursion_limit (Demo.suggesting_env 3))%nat
  /\ fst (fst (process_query (Demo.suggesting_env 3) Demo.assistant0 world0
                 "2025-01-01T09:00:00" "Show me incidents" None))
     = {| qr_user_input := "Show me incidents";
          generated_sql_query := PStr "SELECT number FROM incidents";
          model_response :=
            "Results for 'Show me incidents':" +:+ LF
            +:+ Demo.plain_table (Demo.frame 3);
          qr_intent := Some (PStr "data_query");
          success := true; error := None |}.
Proof.
  assert (H1 : get_classify_prompt (Demo.suggesting_env 3) "" "Show me incidents"
               = Ok ("History: " +:+ LF +:+ "Current input: Show me incidents"))
    by reflexivity.
  assert (H2 : llm_invoke (Demo.suggesting_env 3) 0
                 ("History: " +:+ LF +:+ "Current input: Show me incidents")
               = Ok Demo.classify_reply) by reflexivity.
  assert (H3 : parse_json_response (Demo.suggesting_env 3) Demo.classify_reply
               = PDict [("intent", PStr "data_query")]) by reflexivity.
  assert (H4 : get_sql_gen_prompt (Demo.suggesting_env 3)
                 (PStr "Show me incidents") (SCHEMAS (Demo.suggesting_env 3))
               = Ok ("Query: Show me incidents" +:+ LF
                     +:+ "Schemas: === INCIDENTS ===")) by reflexivity.
  assert (H5 : llm_invoke (Demo.suggesting_env 3) 1
                 ("Query: Show me incidents" +:+ LF +:+ "Schemas: === INCIDENTS ===")
               = Ok Demo.fenced_sql) by reflexivity.
  assert (H6 : clean_sql Demo.fenced_sql <> "") by (vm_compute; discriminate).
  assert (H7 : execute_query (Demo.suggesting_env 3) 0
                 (PStr (clean_sql Demo.fenced_sql)) = Ok (Some (Demo.frame 3)))
    by reflexivity.
  assert (H8 : (6 <= recursion_limit (Demo.suggesting_env 3))%nat)
    by (vm_compute; lia).
  refine (conj H2 (conj H3 (conj H5 (conj H6 (conj H7 (conj H8 _)))))).
  exact (proj1 (data_query_turn (Demo.suggesting_env 3) Demo.assistant0 world0
                  "2025-01-01T09:00:00" "Show me incidents" None _ _ _ _ _
                  (Demo.frame 3) H1 H2 H3 eq_refl H4 H5 H6 H7 eq_refl
                  ltac:(vm_compute; lia) H8)).
Defined.

Lemma error_analyzer_pause_witness :
  0 <= default 0 (retry_count (Demo.failed_state 1))
  /\ sleep_log (world (snd (error_analyzer (Demo.suggesting_env 3)
                              {| state := Demo.failed_state 1; world := world0 |})))
     = [2].
Proof.
  assert (H : 0 <= default 0 (retry_count (Demo.failed_state 1)))
    by (vm_compute; discriminate).
  split; [exact H|].
  destruct (error_analyzer_pause (Demo.suggesting_env 3)
              {| state := Demo.failed_state 1; world := world0 |} H)
    as [Hsame|(n & Hn & _ & _ & Hlog & _)].
  - vm_compute in Hsame. discriminate Hsame.
  - injection Hn as <-. exact Hlog.
Defined.

Lemma process_query_history_round_trip_witness :
  "u1" <> ""
  /\ (if use_blob_sessions Demo.assistant0
      then load_user_conversations Scenario.chatting_env "u1" else []) = []
  /\ success (fst (fst (process_query Scenario.chatting_env Demo.assistant0 world0
                          "t0" "Hello" (Some "u1")))) = true
  /\ exists earlier,
       messages
         (create_initial_state Scenario.chatting_env
            (snd (fst (process_query Scenario.chatting_env Demo.assistant0 world0
                         "t0" "Hello" (Some "u1"))))
            "And now?" (Some "u1"))
       = Some (earlier
               ++ [{| user := "Hello";
                      bot := model_response
                               (fst (fst (process_query Scenario.chatting_env
                                            Demo.assistant0 world0 "t0" "Hello"
                                            (Some "u1")))) |}])
       /\ (length earlier <= 2)%nat.
Proof.
  assert (H1 : "u1" <> "") by discriminate.
  assert (H2 : (if use_blob_sessions Demo.assistant0
                then load_user_conversations Scenario.chatting_env "u1" else [])
               = []) by reflexivity.
  assert (H3 : success (fst (fst (process_query Scenario.chatting_env
                                    Demo.assistant0 world0 "t0" "Hello"
                                    (Some "u1")))) = true)
    by (vm_compute; reflexivity).
  refine (conj H1 (conj H2 (conj H3 _))).
  exact (process_query_history_round_trip Scenario.chatting_env Demo.assistant0
           world0 "t0" "Hello" "u1" "And now?" H1 H2 H3).
Defined.

Lemma process_query_failure_witness :
  success (fst (fst (process_query (Demo.env Demo.offtopic_model Demo.no_engine)
                       Demo.assistant0 world0 "t0" "Tell me a joke" None)))
  = false
  /\ exists e,
       fst (fst (process_query (Demo.env Demo.offtopic_model Demo.no_engine)
                   Demo.assistant0 world0 "t0" "Tell me a joke" None))
       = {| qr_user_input := "Tell me a joke";
            generated_sql_query := PStr "Error occurred";
            model_response :=
              "I encountered an error while processing your request. Please try again.";
            qr_intent := None; success := false; error := Some e |}
       /\ user_conversation_histories
            (snd (fst (process_query (Demo.env Demo.offtopic_model Demo.no_engine)
                         Demo.assistant0 world0 "t0" "Tell me a joke" None)))
          = user_conversation_histories Demo.assistant0.
Proof.
  assert (H : success (fst (fst (process_query
                                   (Demo.env Demo.offtopic_model Demo.no_engine)
                                   Demo.assistant0 world0 "t0" "Tell me a joke"
                                   None))) = false)
    by (vm_compute; reflexivity).
  split; [exact H|].
  exact (process_query_failure (Demo.env Demo.offtopic_model Demo.no_engine)
           Demo.assistant0 world0 "t0" "Tell me a joke" None H).
Defined.

Lemma parse_json_response_prose_witness :
  strip Demo.chatty_reply
  = "Sure! " +:+ "{"
    +:+ (quoted "action" +:+ ": " +:+ quoted "retry" +:+ ", "
         +:+ quoted "suggested_sql" +:+ ": " +:+ quoted "SELECT 1")
    +:+ "}" +:+ " Hope this helps."
  /\ contains "{" "Sure! " = false
  /\ contains "}" " Hope this helps." = false
  /\ parse_json_response Demo.silent_env Demo.chatty_reply
     = PDict [("action", PStr "retry"); ("suggested_sql", PStr "SELECT 1")]
  /\ strip Demo.padded_reply = "" +:+ "{" +:+ "oops" +:+ "}" +:+ ""
  /\ parse_json_response Demo.silent_env Demo.padded_reply
     = PDict [("error", PStr "Invalid JSON"); ("raw_response", PStr "{oops}")].
Proof.
  assert (H1 : strip Demo.chatty_reply
               = "Sure! " +:+ "{"
                 +:+ (quoted "action" +:+ ": " +:+ quoted "retry" +:+ ", "
                      +:+ quoted "suggested_sql" +:+ ": " +:+ quoted "SELECT 1")
                 +:+ "}" +:+ " Hope this helps.")
    by (vm_compute; reflexivity).
  assert (H2 : contains "{" "Sure! " = false) by reflexivity.
  assert (H3 : contains "}" " Hope this helps." = false) by reflexivity.
  assert (H4 : strip Demo.padded_reply = "" +:+ "{" +:+ "oops" +:+ "}" +:+ "")
    by (vm_compute; reflexivity).
  refine (conj H1 (conj H2 (conj H3 _))).
  rewrite (parse_json_response_prose Demo.silent_env Demo.chatty_reply _ _ _
             H1 H2 H3).
  rewrite (parse_json_response_prose Demo.silent_env Demo.padded_reply _ _ _
             H4 eq_refl eq_refl).
  split; [vm_compute; reflexivity|]. split; [exact H4|].
  rewrite H4. vm_compute. reflexivity.
Defined.

Lemma record_comment_creates_entry_witness :
  Forall (fun x => query x <> "Open changes?") (entries_of Demo.two_entries "u1")
  /\ entries_of
       (fst (record_comment Demo.two_entries "t2" "u1" "Open changes?" "Too slow"))
       "u1"
     = [Demo.liked "How many incidents?" "t0";
        Demo.liked "Show critical problems" "t1";
        {| query := "Open changes?";
           feedback := "user did not provide feedback like or dislike";
           comments := "Too slow"; timestamp := "t2" |}].
Proof.
  assert (He : entries_of Demo.two_entries "u1"
               = [Demo.liked "How many incidents?" "t0";
                  Demo.liked "Show critical problems" "t1"])
    by (vm_compute; reflexivity).
  assert (H : Forall (fun x => query x <> "Open changes?")
                (entries_of Demo.two_entries "u1")).
  { rewrite He. constructor; [discriminate|]. constructor; [discriminate|].
    constructor. }
  split; [exact H|].
  rewrite (record_comment_creates_entry Demo.two_entries "t2" "u1"
             "Open changes?" "Too slow" H), He.
  reflexivity.
Defined.

Lemma feedback_isolated_witness :
  "u1" <> "u2"
  /\ entries_of
       (fst (record_feedback Demo.two_entries "t2" "u2" "How many incidents?"
               "dislike")) "u1"
     = [Demo.liked "How many incidents?" "t0";
        Demo.liked "Show critical problems" "t1"]
  /\ entries_of
       (fst (record_comment Demo.two_entries "t2" "u2" "How many incidents?"
               "dislike")) "u1"
     = [Demo.liked "How many incidents?" "t0";
        Demo.liked "Show critical problems" "t1"]
  /\ conversation_data_db
       (fst (record_feedback Demo.two_entries "t2" "u2" "How many incidents?"
               "dislike"))
     = [].
Proof.
  assert (H : "u1" <> "u2") by discriminate.
  split; [exact H|].
  destruct (feedback_isolated Demo.two_entries "t2" "u2" "u1"
              "How many incidents?" "dislike" H) as (H1 & H2 & H3 & _).
  rewrite H1, H2, H3. repeat split; vm_compute; reflexivity.
Defined.

Lemma feedback_endpoint_one_entry_witness :
  "like" <> ""
  /\ "Very helpful" <> ""
  /\ entries_of
       (fst (feedback_endpoint Demo.two_entries "t2" "t3" "u1"
               "How many incidents?" (Some "like") (Some "Very helpful"))) "u1"
     = [{| query := "How many incidents?"; feedback := "like";
           comments := "Very helpful"; timestamp := "t0" |};
        Demo.liked "Show critical problems" "t1";
        Demo.liked "How many incidents?" "t2"].
Proof.
  assert (H1 : "like" <> "") by discriminate.
  assert (H2 : "Very helpful" <> "") by discriminate.
  refine (conj H1 (conj H2 _)).
  rewrite (proj1 (feedback_endpoint_one_entry Demo.two_entries "t2" "t3" "u1"
                    "How many incidents?" "like" "Very helpful" H1 H2)).
  vm_compute. reflexivity.
Defined.

Lemma engine_failure_categories_witness :
  (forall i sql,
      execute_query Adapter.adapter_env i sql
      = BigQueryClient_execute_query (Adapter.rejecting_client i sql))
  /\ sql_query (Demo.failed_state 1) = Some (PStr "SELEC number FROM incidents")
  /\ truthy (PStr "SELEC number FROM incidents") = true
  /\ user_prompt (Demo.failed_state 1) = Some "Show me incidents"
  /\ error_msg (state (snd (execute_sql Adapter.adapter_env
                              {| state := Demo.failed_state 1; world := world0 |})))
     = Some "Invalid SQL: 400 Syntax error"
  /\ retry_count (state (snd (execute_sql Adapter.adapter_env
                                {| state := Demo.failed_state 1; world := world0 |})))
     = Some 2.
Proof.
  assert (H0 : forall i sql,
             execute_query Adapter.adapter_env i sql
             = BigQueryClient_execute_query (Adapter.rejecting_client i sql))
    by (intros; reflexivity).
  assert (H1 : sql_query (Demo.failed_state 1)
               = Some (PStr "SELEC number FROM incidents")) by reflexivity.
  assert (H2 : truthy (PStr "SELEC number FROM incidents") = true) by reflexivity.
  assert (H3 : user_prompt (Demo.failed_state 1) = Some "Show me incidents")
    by reflexivity.
  refine (conj H0 (conj H1 (conj H2 (conj H3 _)))).
  exact (engine_failure_categories Adapter.adapter_env Adapter.rejecting_client
           (Demo.failed_state 1) world0 _ _ H0 H1 H2 H3).
Defined.

Lemma clean_sql_no_fence_witness :
  clean_sql (bytes [194; 160]%nat +:+ Demo.fenced_sql +:+ bytes [227; 128; 128]%nat)
  = "SELECT number FROM incidents"
  /\ clean_sql (bytes [194; 160]%nat +:+ " " +:+ LF) = ""
  /\ contains "```" (clean_sql Demo.fenced_sql) = false
  /\ starts_with " " (clean_sql ("  SELECT 1  ")) = false
  /\ ends_with " " (clean_sql ("  SELECT 1  ")) = false.
Proof.
  split; [vm_compute; reflexivity|]. split; [vm_compute; reflexivity|].
  split; [exact (proj1 (clean_sql_no_fence Demo.fenced_sql))|].
  pose proof (proj2 (clean_sql_no_fence "  SELECT 1  ")) as H.
  rewrite List.Forall_forall in H.
  apply (H " "). vm_compute. tauto.
Defined.

Lemma create_initial_state_window_witness :
  messages (create_initial_state Demo.silent_env (Scenario.remembering false)
              "And now?" (Some "u1"))
  = Some [{| user := "q2"; bot := "a2" |}; {| user := "q3"; bot := "a3" |};
          {| user := "q4"; bot := "a4" |}]
  /\ messages (create_initial_state Scenario.blob_env (Scenario.remembering true)
                 "And now?" (Some "u1"))
     = Some [{| user := "b1"; bot := "c1" |}; {| user := "b2"; bot := "c2" |}]
  /\ messages (create_initial_state Scenario.blob_env (Scenario.remembering true)
                 "And now?" None)
     = Some [].
Proof.
  rewrite (proj1 (create_initial_state_window Demo.silent_env
                    (Scenario.remembering false) "And now?" (Some "u1"))).
  rewrite (proj1 (create_initial_state_window Scenario.blob_env
                    (Scenario.remembering true) "And now?" (Some "u1"))).
  rewrite (proj1 (create_initial_state_window Scenario.blob_env
                    (Scenario.remembering true) "And now?" None)).
  repeat split; vm_compute; reflexivity.
Defined.
